(** * CRM bot: conversation state machine, assignee resolution and task view

    A shallow embedding of [src/crm_bot/bot.py].  The bot is a set of
    aiogram handlers registered on one dispatcher [dp]; each handler reads and
    writes the per-conversation FSM context kept in [MemoryStorage], calls the
    Supabase record store and answers through the Telegram transport.

    - Python [str] values are [string]s holding the UTF-8 form of the text;
      [strip], [isdigit], [int], [lower] and the regular expression of
      [strptime] work on its code points, with the tables of CPython.
    - The FSM data of a conversation ([state.proxy()], [state.get_data()])
      is a [gmap string (option string)]; the storage is a [gmap] from
      (chat, user) to contexts.
    - A handler is a program in a small monad that threads the FSM context
      and the ordered log of calls made to the store and to the transport,
      and that can stop on a raised exception.  The answers of the outside
      world to one event (query results, refused writes, transport faults)
      are gathered in the record [world].
    - The dispatcher runs the first registered handler whose filters accept
      the event, the filters being those written in the decorators; when a
      filter raises, no handler runs. *)

From Stdlib Require Import Ascii DecimalString DecimalZ DecimalPos.
From stdpp Require Import gmap strings list fin_maps sorting list_numbers.

Local Open Scope Z_scope.
#[local] Set Warnings "-clear-no-such-hyp".

(** ** Python string primitives

    A [str] is a sequence of code points, held here in its UTF-8 form.  The
    properties of characters are those of the Unicode database 14.0.0 of
    CPython 3.11. *)

Module Py.

(** *** Characters of a string *)

(** The payload of a continuation byte [10xxxxxx]. *)
Definition continuation (b : ascii) : option N :=
  let n := N_of_ascii b in
  if ((128 <=? n) && (n <? 192))%N then Some (n - 128)%N else None.

(** The character at the head of [String a r]: its code point and the
    number of bytes it takes.  A byte that starts no well-formed sequence
    is a character of its own, numbered in [DC80..DCFF]. *)
Definition head_char (a : ascii) (r : string) : N * nat :=
  let n := N_of_ascii a in
  let stray := ((56320 + n)%N, 1%nat) in
  if (n <? 128)%N then (n, 1%nat)
  else if (n <? 194)%N then stray
  else if (n <? 224)%N then
    match r with
    | String b _ =>
        match continuation b with
        | Some x => (((n - 192) * 64 + x)%N, 2%nat)
        | None => stray
        end
    | _ => stray
    end
  else if (n <? 240)%N then
    match r with
    | String b (String c _) =>
        match continuation b, continuation c with
        | Some x, Some y =>
            let cp := (((n - 224) * 64 + x) * 64 + y)%N in
            if (cp <? 2048)%N then stray else (cp, 3%nat)
        | _, _ => stray
        end
    | _ => stray
    end
  else if (n <? 245)%N then
    match r with
    | String b (String c (String d _)) =>
        match continuation b, continuation c, continuation d with
        | Some x, Some y, Some z =>
            let cp := ((((n - 240) * 64 + x) * 64 + y) * 64 + z)%N in
            if ((cp <? 65536) || (1114111 <? cp))%N then stray else (cp, 4%nat)
        | _, _, _ => stray
        end
    | _ => stray
    end
  else stray.

(** The characters of [s] after its first [skip] bytes, each with its code
    point and its bytes. *)
Fixpoint chars_from (skip : nat) (s : string) : list (N * string) :=
  match s with
  | EmptyString => []
  | String a r =>
      match skip with
      | S k => chars_from k r
      | O =>
          let '(cp, n) := head_char a r in
          (cp, String.substring 0 n s) :: chars_from (Nat.pred n) r
      end
  end.

Definition chars (s : string) : list (N * string) := chars_from 0 s.

(** The code points of a string. *)
Definition codes (s : string) : list N := fst <$> chars s.

(** The string made of these characters. *)
Definition text (l : list (N * string)) : string :=
  foldr (λ ch s, ch.2 +:+ s) EmptyString l.

Definition in_ranges (ranges : list (N * N)) (c : N) : bool :=
  existsb (λ r, (r.1 <=? c) && (c <=? r.2))%N ranges.

(** [Py_UNICODE_ISSPACE]: the ranges of the whitespace characters. *)
Definition space_ranges : list (N * N) := [
  (9, 13); (28, 32); (133, 133); (160, 160); (5760, 5760); (8192, 8202); (8232, 8233);
  (8239, 8239); (8287, 8287); (12288, 12288)
]%N.

(** [Py_UNICODE_ISDIGIT]: the ranges of the characters that have a digit
    value: the decimal digits of all scripts, superscripts, circled digits
    and the like. *)
Definition digit_ranges : list (N * N) := [
  (48, 57); (178, 179); (185, 185); (1632, 1641); (1776, 1785); (1984, 1993); (2406, 2415);
  (2534, 2543); (2662, 2671); (2790, 2799); (2918, 2927); (3046, 3055); (3174, 3183);
  (3302, 3311); (3430, 3439); (3558, 3567); (3664, 3673); (3792, 3801); (3872, 3881);
  (4160, 4169); (4240, 4249); (4969, 4977); (6112, 6121); (6160, 6169); (6470, 6479);
  (6608, 6618); (6784, 6793); (6800, 6809); (6992, 7001); (7088, 7097); (7232, 7241);
  (7248, 7257); (8304, 8304); (8308, 8313); (8320, 8329); (9312, 9320); (9332, 9340);
  (9352, 9360); (9450, 9450); (9461, 9469); (9471, 9471); (10102, 10110); (10112, 10120);
  (10122, 10130); (42528, 42537); (43216, 43225); (43264, 43273); (43472, 43481);
  (43504, 43513); (43600, 43609); (44016, 44025); (65296, 65305); (66720, 66729);
  (68160, 68163); (68912, 68921); (69216, 69224); (69714, 69722); (69734, 69743);
  (69872, 69881); (69942, 69951); (70096, 70105); (70384, 70393); (70736, 70745);
  (70864, 70873); (71248, 71257); (71360, 71369); (71472, 71481); (71904, 71913);
  (72016, 72025); (72784, 72793); (73040, 73049); (73120, 73129); (92768, 92777);
  (92864, 92873); (93008, 93017); (120782, 120831); (123200, 123209); (123632, 123641);
  (125264, 125273); (127232, 127242); (130032, 130041)
]%N.

(** [Py_UNICODE_TODECIMAL]: the zero of every set of decimal digits; the
    digits one to nine follow it. *)
Definition decimal_zeros : list N := [
  48; 1632; 1776; 1984; 2406; 2534; 2662; 2790; 2918; 3046; 3174; 3302; 3430; 3558; 3664;
  3792; 3872; 4160; 4240; 6112; 6160; 6470; 6608; 6784; 6800; 6992; 7088; 7232; 7248; 42528;
  43216; 43264; 43472; 43504; 43600; 44016; 65296; 66720; 68912; 69734; 69872; 69942; 70096;
  70384; 70736; 70864; 71248; 71360; 71472; 71904; 72016; 72784; 73040; 73120; 92768; 92864;
  93008; 120782; 120792; 120802; 120812; 120822; 123200; 123632; 125264; 130032
]%N.

(** [_PyUnicode_ToLowerFull]: [(first, last, step, target)] sends [first]
    to [target] and every [step]-th character up to [last] accordingly. *)
Definition lower_ranges : list (N * N * N * N) := [
  (65, 90, 1, 97); (192, 214, 1, 224); (216, 222, 1, 248); (256, 302, 2, 257);
  (306, 310, 2, 307); (313, 327, 2, 314); (330, 374, 2, 331); (376, 376, 1, 255);
  (377, 381, 2, 378); (385, 385, 1, 595); (386, 388, 2, 387); (390, 390, 1, 596);
  (391, 391, 1, 392); (393, 394, 1, 598); (395, 395, 1, 396); (398, 398, 1, 477);
  (399, 399, 1, 601); (400, 400, 1, 603); (401, 401, 1, 402); (403, 403, 1, 608);
  (404, 404, 1, 611); (406, 406, 1, 617); (407, 407, 1, 616); (408, 408, 1, 409);
  (412, 412, 1, 623); (413, 413, 1, 626); (415, 415, 1, 629); (416, 420, 2, 417);
  (422, 422, 1, 640); (423, 423, 1, 424); (425, 425, 1, 643); (428, 428, 1, 429);
  (430, 430, 1, 648); (431, 431, 1, 432); (433, 434, 1, 650); (435, 437, 2, 436);
  (439, 439, 1, 658); (440, 440, 1, 441); (444, 444, 1, 445); (452, 452, 1, 454);
  (453, 453, 1, 454); (455, 455, 1, 457); (456, 456, 1, 457); (458, 458, 1, 460);
  (459, 475, 2, 460); (478, 494, 2, 479); (497, 497, 1, 499); (498, 500, 2, 499);
  (502, 502, 1, 405); (503, 503, 1, 447); (504, 542, 2, 505); (544, 544, 1, 414);
  (546, 562, 2, 547); (570, 570, 1, 11365); (571, 571, 1, 572); (573, 573, 1, 410);
  (574, 574, 1, 11366); (577, 577, 1, 578); (579, 579, 1, 384); (580, 580, 1, 649);
  (581, 581, 1, 652); (582, 590, 2, 583); (880, 882, 2, 881); (886, 886, 1, 887);
  (895, 895, 1, 1011); (902, 902, 1, 940); (904, 906, 1, 941); (908, 908, 1, 972);
  (910, 911, 1, 973); (913, 929, 1, 945); (931, 939, 1, 963); (975, 975, 1, 983);
  (984, 1006, 2, 985); (1012, 1012, 1, 952); (1015, 1015, 1, 1016); (1017, 1017, 1, 1010);
  (1018, 1018, 1, 1019); (1021, 1023, 1, 891); (1024, 1039, 1, 1104); (1040, 1071, 1, 1072);
  (1120, 1152, 2, 1121); (1162, 1214, 2, 1163); (1216, 1216, 1, 1231); (1217, 1229, 2, 1218);
  (1232, 1326, 2, 1233); (1329, 1366, 1, 1377); (4256, 4293, 1, 11520);
  (4295, 4295, 1, 11559); (4301, 4301, 1, 11565); (5024, 5103, 1, 43888);
  (5104, 5109, 1, 5112); (7312, 7354, 1, 4304); (7357, 7359, 1, 4349); (7680, 7828, 2, 7681);
  (7838, 7838, 1, 223); (7840, 7934, 2, 7841); (7944, 7951, 1, 7936); (7960, 7965, 1, 7952);
  (7976, 7983, 1, 7968); (7992, 7999, 1, 7984); (8008, 8013, 1, 8000); (8025, 8031, 2, 8017);
  (8040, 8047, 1, 8032); (8072, 8079, 1, 8064); (8088, 8095, 1, 8080); (8104, 8111, 1, 8096);
  (8120, 8121, 1, 8112); (8122, 8123, 1, 8048); (8124, 8124, 1, 8115); (8136, 8139, 1, 8050);
  (8140, 8140, 1, 8131); (8152, 8153, 1, 8144); (8154, 8155, 1, 8054); (8168, 8169, 1, 8160);
  (8170, 8171, 1, 8058); (8172, 8172, 1, 8165); (8184, 8185, 1, 8056); (8186, 8187, 1, 8060);
  (8188, 8188, 1, 8179); (8486, 8486, 1, 969); (8490, 8490, 1, 107); (8491, 8491, 1, 229);
  (8498, 8498, 1, 8526); (8544, 8559, 1, 8560); (8579, 8579, 1, 8580); (9398, 9423, 1, 9424);
  (11264, 11311, 1, 11312); (11360, 11360, 1, 11361); (11362, 11362, 1, 619);
  (11363, 11363, 1, 7549); (11364, 11364, 1, 637); (11367, 11371, 2, 11368);
  (11373, 11373, 1, 593); (11374, 11374, 1, 625); (11375, 11375, 1, 592);
  (11376, 11376, 1, 594); (11378, 11378, 1, 11379); (11381, 11381, 1, 11382);
  (11390, 11391, 1, 575); (11392, 11490, 2, 11393); (11499, 11501, 2, 11500);
  (11506, 11506, 1, 11507); (42560, 42604, 2, 42561); (42624, 42650, 2, 42625);
  (42786, 42798, 2, 42787); (42802, 42862, 2, 42803); (42873, 42875, 2, 42874);
  (42877, 42877, 1, 7545); (42878, 42886, 2, 42879); (42891, 42891, 1, 42892);
  (42893, 42893, 1, 613); (42896, 42898, 2, 42897); (42902, 42920, 2, 42903);
  (42922, 42922, 1, 614); (42923, 42923, 1, 604); (42924, 42924, 1, 609);
  (42925, 42925, 1, 620); (42926, 42926, 1, 618); (42928, 42928, 1, 670);
  (42929, 42929, 1, 647); (42930, 42930, 1, 669); (42931, 42931, 1, 43859);
  (42932, 42946, 2, 42933); (42948, 42948, 1, 42900); (42949, 42949, 1, 642);
  (42950, 42950, 1, 7566); (42951, 42953, 2, 42952); (42960, 42960, 1, 42961);
  (42966, 42968, 2, 42967); (42997, 42997, 1, 42998); (65313, 65338, 1, 65345);
  (66560, 66599, 1, 66600); (66736, 66771, 1, 66776); (66928, 66964, 2, 66967);
  (66929, 66938, 1, 66968); (66941, 66954, 1, 66980); (66957, 66962, 1, 66996);
  (66965, 66965, 1, 67004); (68736, 68786, 1, 68800); (71840, 71871, 1, 71872);
  (93760, 93791, 1, 93792); (125184, 125217, 1, 125218)
]%N.

(** [_PyUnicode_IsCased] *)
Definition cased_ranges : list (N * N) := [
  (65, 90); (97, 122); (170, 170); (181, 181); (186, 186); (192, 214); (216, 246); (248, 442);
  (444, 447); (452, 659); (661, 696); (704, 705); (736, 740); (837, 837); (880, 883);
  (886, 887); (890, 893); (895, 895); (902, 902); (904, 906); (908, 908); (910, 929);
  (931, 1013); (1015, 1153); (1162, 1327); (1329, 1366); (1376, 1416); (4256, 4293);
  (4295, 4295); (4301, 4301); (4304, 4346); (4349, 4351); (5024, 5109); (5112, 5117);
  (7296, 7304); (7312, 7354); (7357, 7359); (7424, 7615); (7680, 7957); (7960, 7965);
  (7968, 8005); (8008, 8013); (8016, 8023); (8025, 8025); (8027, 8027); (8029, 8029);
  (8031, 8061); (8064, 8116); (8118, 8124); (8126, 8126); (8130, 8132); (8134, 8140);
  (8144, 8147); (8150, 8155); (8160, 8172); (8178, 8180); (8182, 8188); (8305, 8305);
  (8319, 8319); (8336, 8348); (8450, 8450); (8455, 8455); (8458, 8467); (8469, 8469);
  (8473, 8477); (8484, 8484); (8486, 8486); (8488, 8488); (8490, 8493); (8495, 8500);
  (8505, 8505); (8508, 8511); (8517, 8521); (8526, 8526); (8544, 8575); (8579, 8580);
  (9398, 9449); (11264, 11492); (11499, 11502); (11506, 11507); (11520, 11557);
  (11559, 11559); (11565, 11565); (42560, 42605); (42624, 42653); (42786, 42887);
  (42891, 42894); (42896, 42954); (42960, 42961); (42963, 42963); (42965, 42969);
  (42997, 42998); (43000, 43002); (43824, 43866); (43868, 43880); (43888, 43967);
  (64256, 64262); (64275, 64279); (65313, 65338); (65345, 65370); (66560, 66639);
  (66736, 66771); (66776, 66811); (66928, 66938); (66940, 66954); (66956, 66962);
  (66964, 66965); (66967, 66977); (66979, 66993); (66995, 67001); (67003, 67004);
  (67456, 67456); (67459, 67461); (67463, 67504); (67506, 67514); (68736, 68786);
  (68800, 68850); (71840, 71903); (93760, 93823); (119808, 119892); (119894, 119964);
  (119966, 119967); (119970, 119970); (119973, 119974); (119977, 119980); (119982, 119993);
  (119995, 119995); (119997, 120003); (120005, 120069); (120071, 120074); (120077, 120084);
  (120086, 120092); (120094, 120121); (120123, 120126); (120128, 120132); (120134, 120134);
  (120138, 120144); (120146, 120485); (120488, 120512); (120514, 120538); (120540, 120570);
  (120572, 120596); (120598, 120628); (120630, 120654); (120656, 120686); (120688, 120712);
  (120714, 120744); (120746, 120770); (120772, 120779); (122624, 122633); (122635, 122654);
  (125184, 125251); (127280, 127305); (127312, 127337); (127344, 127369)
]%N.

(** [_PyUnicode_IsCaseIgnorable] *)
Definition case_ignorable_ranges : list (N * N) := [
  (39, 39); (46, 46); (58, 58); (94, 94); (96, 96); (168, 168); (173, 173); (175, 175);
  (180, 180); (183, 184); (688, 879); (884, 885); (890, 890); (900, 901); (903, 903);
  (1155, 1161); (1369, 1369); (1375, 1375); (1425, 1469); (1471, 1471); (1473, 1474);
  (1476, 1477); (1479, 1479); (1524, 1524); (1536, 1541); (1552, 1562); (1564, 1564);
  (1600, 1600); (1611, 1631); (1648, 1648); (1750, 1757); (1759, 1768); (1770, 1773);
  (1807, 1807); (1809, 1809); (1840, 1866); (1958, 1968); (2027, 2037); (2042, 2042);
  (2045, 2045); (2070, 2093); (2137, 2139); (2184, 2184); (2192, 2193); (2200, 2207);
  (2249, 2306); (2362, 2362); (2364, 2364); (2369, 2376); (2381, 2381); (2385, 2391);
  (2402, 2403); (2417, 2417); (2433, 2433); (2492, 2492); (2497, 2500); (2509, 2509);
  (2530, 2531); (2558, 2558); (2561, 2562); (2620, 2620); (2625, 2626); (2631, 2632);
  (2635, 2637); (2641, 2641); (2672, 2673); (2677, 2677); (2689, 2690); (2748, 2748);
  (2753, 2757); (2759, 2760); (2765, 2765); (2786, 2787); (2810, 2815); (2817, 2817);
  (2876, 2876); (2879, 2879); (2881, 2884); (2893, 2893); (2901, 2902); (2914, 2915);
  (2946, 2946); (3008, 3008); (3021, 3021); (3072, 3072); (3076, 3076); (3132, 3132);
  (3134, 3136); (3142, 3144); (3146, 3149); (3157, 3158); (3170, 3171); (3201, 3201);
  (3260, 3260); (3263, 3263); (3270, 3270); (3276, 3277); (3298, 3299); (3328, 3329);
  (3387, 3388); (3393, 3396); (3405, 3405); (3426, 3427); (3457, 3457); (3530, 3530);
  (3538, 3540); (3542, 3542); (3633, 3633); (3636, 3642); (3654, 3662); (3761, 3761);
  (3764, 3772); (3782, 3782); (3784, 3789); (3864, 3865); (3893, 3893); (3895, 3895);
  (3897, 3897); (3953, 3966); (3968, 3972); (3974, 3975); (3981, 3991); (3993, 4028);
  (4038, 4038); (4141, 4144); (4146, 4151); (4153, 4154); (4157, 4158); (4184, 4185);
  (4190, 4192); (4209, 4212); (4226, 4226); (4229, 4230); (4237, 4237); (4253, 4253);
  (4348, 4348); (4957, 4959); (5906, 5908); (5938, 5939); (5970, 5971); (6002, 6003);
  (6068, 6069); (6071, 6077); (6086, 6086); (6089, 6099); (6103, 6103); (6109, 6109);
  (6155, 6159); (6211, 6211); (6277, 6278); (6313, 6313); (6432, 6434); (6439, 6440);
  (6450, 6450); (6457, 6459); (6679, 6680); (6683, 6683); (6742, 6742); (6744, 6750);
  (6752, 6752); (6754, 6754); (6757, 6764); (6771, 6780); (6783, 6783); (6823, 6823);
  (6832, 6862); (6912, 6915); (6964, 6964); (6966, 6970); (6972, 6972); (6978, 6978);
  (7019, 7027); (7040, 7041); (7074, 7077); (7080, 7081); (7083, 7085); (7142, 7142);
  (7144, 7145); (7149, 7149); (7151, 7153); (7212, 7219); (7222, 7223); (7288, 7293);
  (7376, 7378); (7380, 7392); (7394, 7400); (7405, 7405); (7412, 7412); (7416, 7417);
  (7468, 7530); (7544, 7544); (7579, 7679); (8125, 8125); (8127, 8129); (8141, 8143);
  (8157, 8159); (8173, 8175); (8189, 8190); (8203, 8207); (8216, 8217); (8228, 8228);
  (8231, 8231); (8234, 8238); (8288, 8292); (8294, 8303); (8305, 8305); (8319, 8319);
  (8336, 8348); (8400, 8432); (11388, 11389); (11503, 11505); (11631, 11631); (11647, 11647);
  (11744, 11775); (11823, 11823); (12293, 12293); (12330, 12333); (12337, 12341);
  (12347, 12347); (12441, 12446); (12540, 12542); (40981, 40981); (42232, 42237);
  (42508, 42508); (42607, 42610); (42612, 42621); (42623, 42623); (42652, 42655);
  (42736, 42737); (42752, 42785); (42864, 42864); (42888, 42890); (42994, 42996);
  (43000, 43001); (43010, 43010); (43014, 43014); (43019, 43019); (43045, 43046);
  (43052, 43052); (43204, 43205); (43232, 43249); (43263, 43263); (43302, 43309);
  (43335, 43345); (43392, 43394); (43443, 43443); (43446, 43449); (43452, 43453);
  (43471, 43471); (43493, 43494); (43561, 43566); (43569, 43570); (43573, 43574);
  (43587, 43587); (43596, 43596); (43632, 43632); (43644, 43644); (43696, 43696);
  (43698, 43700); (43703, 43704); (43710, 43711); (43713, 43713); (43741, 43741);
  (43756, 43757); (43763, 43764); (43766, 43766); (43867, 43871); (43881, 43883);
  (44005, 44005); (44008, 44008); (44013, 44013); (64286, 64286); (64434, 64450);
  (65024, 65039); (65043, 65043); (65056, 65071); (65106, 65106); (65109, 65109);
  (65279, 65279); (65287, 65287); (65294, 65294); (65306, 65306); (65342, 65342);
  (65344, 65344); (65392, 65392); (65438, 65439); (65507, 65507); (65529, 65531);
  (66045, 66045); (66272, 66272); (66422, 66426); (67456, 67461); (67463, 67504);
  (67506, 67514); (68097, 68099); (68101, 68102); (68108, 68111); (68152, 68154);
  (68159, 68159); (68325, 68326); (68900, 68903); (69291, 69292); (69446, 69456);
  (69506, 69509); (69633, 69633); (69688, 69702); (69744, 69744); (69747, 69748);
  (69759, 69761); (69811, 69814); (69817, 69818); (69821, 69821); (69826, 69826);
  (69837, 69837); (69888, 69890); (69927, 69931); (69933, 69940); (70003, 70003);
  (70016, 70017); (70070, 70078); (70089, 70092); (70095, 70095); (70191, 70193);
  (70196, 70196); (70198, 70199); (70206, 70206); (70367, 70367); (70371, 70378);
  (70400, 70401); (70459, 70460); (70464, 70464); (70502, 70508); (70512, 70516);
  (70712, 70719); (70722, 70724); (70726, 70726); (70750, 70750); (70835, 70840);
  (70842, 70842); (70847, 70848); (70850, 70851); (71090, 71093); (71100, 71101);
  (71103, 71104); (71132, 71133); (71219, 71226); (71229, 71229); (71231, 71232);
  (71339, 71339); (71341, 71341); (71344, 71349); (71351, 71351); (71453, 71455);
  (71458, 71461); (71463, 71467); (71727, 71735); (71737, 71738); (71995, 71996);
  (71998, 71998); (72003, 72003); (72148, 72151); (72154, 72155); (72160, 72160);
  (72193, 72202); (72243, 72248); (72251, 72254); (72263, 72263); (72273, 72278);
  (72281, 72283); (72330, 72342); (72344, 72345); (72752, 72758); (72760, 72765);
  (72767, 72767); (72850, 72871); (72874, 72880); (72882, 72883); (72885, 72886);
  (73009, 73014); (73018, 73018); (73020, 73021); (73023, 73029); (73031, 73031);
  (73104, 73105); (73109, 73109); (73111, 73111); (73459, 73460); (78896, 78904);
  (92912, 92916); (92976, 92982); (92992, 92995); (94031, 94031); (94095, 94111);
  (94176, 94177); (94179, 94180); (110576, 110579); (110581, 110587); (110589, 110590);
  (113821, 113822); (113824, 113827); (118528, 118573); (118576, 118598); (119143, 119145);
  (119155, 119170); (119173, 119179); (119210, 119213); (119362, 119364); (121344, 121398);
  (121403, 121452); (121461, 121461); (121476, 121476); (121499, 121503); (121505, 121519);
  (122880, 122886); (122888, 122904); (122907, 122913); (122915, 122916); (122918, 122922);
  (123184, 123197); (123566, 123566); (123628, 123631); (125136, 125142); (125252, 125259);
  (127995, 127999); (917505, 917505); (917536, 917631); (917760, 917999)
]%N.

(** [str.isspace] on one character. *)
Definition isspace (c : N) : bool := in_ranges space_ranges c.

(** [str.isdigit] on one character. *)
Definition isdigit_char (c : N) : bool := in_ranges digit_ranges c.

(** The value of a decimal digit, of any script. *)
Definition decimal (c : N) : option N :=
  (λ zero, (c - zero)%N) <$> List.find (λ zero, (zero <=? c) && (c <=? zero + 9))%N decimal_zeros.

(** [str.isdecimal] on one character; [\d] in a regular expression. *)
Definition isdecimal_char (c : N) : bool := bool_decide (is_Some (decimal c)).

(** *** [strip], [split] *)

Fixpoint lstrip_chars (l : list (N * string)) : list (N * string) :=
  match l with
  | ch :: rest => if isspace ch.1 then lstrip_chars rest else l
  | [] => []
  end.

Definition rstrip_chars (l : list (N * string)) : list (N * string) :=
  reverse (lstrip_chars (reverse l)).

(** [s.strip()] *)
Definition strip (s : string) : string := text (rstrip_chars (lstrip_chars (chars s))).

(** The characters before the first one that satisfies [p], and those
    after it. *)
Fixpoint break_chars {A} (p : A → bool) (l : list A) : list A * option (list A) :=
  match l with
  | [] => ([], None)
  | c :: rest =>
      if p c then ([], Some rest)
      else let '(a, b) := break_chars p rest in (c :: a, b)
  end.

(** [s.split()[0]]: the first run of characters that are not whitespace;
    [None] stands for the [IndexError] raised when there is none. *)
Definition first_word (s : string) : option (list N) :=
  match lstrip_chars (chars s) with
  | [] => None
  | l => Some (fst (break_chars isspace (fst <$> l)))
  end.

(** *** [isdigit], [int], [str] *)

(** [s.isdigit()]: at least one character, all of them digits. *)
Definition isdigit (s : string) : bool :=
  match codes s with
  | [] => false
  | l => forallb isdigit_char l
  end.

(** What [int] makes of one character before it parses: a character below
    127 is kept, any other whitespace becomes a space and any other decimal
    digit the ASCII digit of its value; nothing else is accepted. *)
Definition int_char (c : N) : option N :=
  if (c <? 127)%N then Some c
  else if isspace c then Some 32%N
  else (λ d, (48 + d)%N) <$> decimal c.

(** The whitespace of the parser: the space and TAB..CR. *)
Definition c_isspace (c : N) : bool := ((c =? 32) || (9 <=? c) && (c <=? 13))%N.

Definition ascii_digit (c : N) : bool := ((48 <=? c) && (c <=? 57))%N.

(** The digits of the literal, single underscores being allowed between
    two digits, and the whitespace after them. *)
Fixpoint int_body (acc : Z) (after_digit : bool) (l : list N) : option Z :=
  match l with
  | [] => if after_digit then Some acc else None
  | c :: rest =>
      if ascii_digit c then int_body (10 * acc + Z.of_N (c - 48)) true rest
      else if after_digit && (c =? 95)%N then int_body acc false rest
      else if after_digit && forallb c_isspace l then Some acc
      else None
  end.

(** [sys.get_int_max_str_digits()] *)
Definition int_max_str_digits : nat := 4300.

Fixpoint lstrip_c (l : list N) : list N :=
  match l with
  | c :: rest => if c_isspace c then lstrip_c rest else l
  | [] => []
  end.

(** [int] on the code points of a string: [None] stands for [ValueError]. *)
Definition int_codes (l : list N) : option Z :=
  l' ← mapM int_char l;
  if (int_max_str_digits <? length (filter (λ c, ascii_digit c = true) l'))%nat then None
  else
    match lstrip_c l' with
    | 45%N :: r => Z.opp <$> int_body 0 false r
    | 43%N :: r => int_body 0 false r
    | r => int_body 0 false r
    end.

(** [int(s)] *)
Definition int (s : string) : option Z := int_codes (codes s).

(** [str(n)] for an integer of at most [int_max_str_digits] digits. *)
Definition str (n : Z) : string := NilZero.string_of_int (Z.to_int n).

(** [str(x)] where [x] is an integer or [None]. *)
Definition str_or_none (x : option Z) : string :=
  match x with
  | Some n => str n
  | None => "None"
  end.

(** *** [lower] *)

Definition lower_char (c : N) : list N :=
  if (c =? 304)%N then [105; 775]%N
  else
    match List.find (λ e, let '(first, last, step, _) := e in
                          (first <=? c) && (c <=? last) && ((c - first) mod step =? 0))%N
                    lower_ranges with
    | Some (first, _, _, target) => [(target + (c - first))%N]
    | None => [c]
    end.

Definition cased (c : N) : bool := in_ranges cased_ranges c.
Definition case_ignorable (c : N) : bool := in_ranges case_ignorable_ranges c.

(** Is the first character that is not case-ignorable a cased one? *)
Fixpoint cased_ahead (l : list N) : bool :=
  match l with
  | [] => false
  | c :: rest => if case_ignorable c then cased_ahead rest else cased c
  end.

(** [lower] from a position on; [cased_behind] tells whether the last
    character before it that is not case-ignorable is cased.  A capital
    sigma (931) becomes a final sigma (962) after a cased letter when no
    cased letter follows, and a small sigma (963) otherwise. *)
Fixpoint lower_from (cased_behind : bool) (l : list N) : list N :=
  match l with
  | [] => []
  | c :: rest =>
      (if (c =? 931)%N
       then [if cased_behind && negb (cased_ahead rest) then 962%N else 963%N]
       else lower_char c)
      ++ lower_from (if case_ignorable c then cased_behind else cased c) rest
  end.

(** [lower] on code points. *)
Definition lower_codes (l : list N) : list N := lower_from false l.

(** [s.lower()], as code points. *)
Definition lower (s : string) : list N := lower_codes (codes s).

(** *** Bytes: [startswith], [split(':', 1)], truth *)

(** [s.startswith(p)] *)
Fixpoint startswith (p s : string) : bool :=
  match p with
  | EmptyString => true
  | String a p' =>
      match s with
      | String b s' => bool_decide (a = b) && startswith p' s'
      | EmptyString => false
      end
  end.

(** Characters up to the first one satisfying [p], and the rest after it. *)
Fixpoint break_at (p : ascii → bool) (s : string) : string * option string :=
  match s with
  | EmptyString => (EmptyString, None)
  | String c s' =>
      if p c then (EmptyString, Some s')
      else let '(a, b) := break_at p s' in (String c a, b)
  end.

(** The part after the first [':'], as in [_, rest = s.split(':', 1)]. *)
Definition after_colon (s : string) : option string :=
  snd (break_at (λ c, bool_decide (c = ":"%char)) s).

(** Truthiness of an optional string: [None] and [''] are false. *)
Definition truthy (o : option string) : bool :=
  match o with
  | Some (String _ _) => true
  | _ => false
  end.

(** [a or b] on optional strings. *)
Definition or_else (a b : option string) : option string :=
  if truthy a then a else b.

End Py.

Global Arguments Py.strip : simpl never.
Global Arguments Py.isdigit : simpl never.
Global Arguments Py.int : simpl never.
Global Arguments Py.int_codes : simpl never.
Global Arguments Py.lower : simpl never.
Global Arguments Py.lower_codes : simpl never.
Global Arguments Py.first_word : simpl never.
Global Arguments Py.codes : simpl never.
Global Arguments Py.chars : simpl never.

(** ** Role policy *)

(** [ROLE_ASSIGNMENT_MAP]: the role of the assigner to the roles that may
    receive a task from it. *)
Definition ROLE_ASSIGNMENT_MAP : gmap string (list string) :=
  <["project_head" := ["team_leader"]]>
  (<["team_leader" := ["region_manager"]]>
  (<["region_manager" := ["junior_manager"]]>
  (<["junior_manager" := []]> ∅))).

(** [ROLE_ASSIGNMENT_MAP.get(assigner_role, [])]; the role may be [None]. *)
Definition eligible_roles (assigner_role : option string) : list string :=
  match assigner_role with
  | Some r => default [] (ROLE_ASSIGNMENT_MAP !! r)
  | None => []
  end.


(** ** [datetime.strptime(text, "%Y-%m-%d %H:%M")] and [isoformat()] *)

Module Datetime.

Record datetime := Build {
  year : Z; month : Z; day : Z; hour : Z; minute : Z
}.

Definition in_range (lo hi : ascii) (c : N) : bool :=
  ((N_of_ascii lo <=? c) && (c <=? N_of_ascii hi))%N.
Definition is_char (a : ascii) (c : N) : bool := (N_of_ascii a =? c)%N.
(** [\d]: a decimal digit of any script. *)
Definition digit : N → bool := Py.isdecimal_char.

(** One alternative of a directive: a sequence of character classes.
    Returns the matched text and the rest. *)
Fixpoint match_seq (cls : list (N → bool)) (s : list N) : option (list N * list N) :=
  match cls with
  | [] => Some ([], s)
  | p :: cls' =>
      match s with
      | c :: s' =>
          if p c then (λ mr, (c :: mr.1, mr.2)) <$> match_seq cls' s' else None
      | [] => None
      end
  end.

(** A directive is an ordered list of alternatives; the matches are listed
    in the order in which the regular expression engine tries them, each
    with [int] of the matched text. *)
Definition directive (alts : list (list (N → bool))) (s : list N) : list (Z * list N) :=
  omap (λ a, mr ← match_seq a s; v ← Py.int_codes mr.1; Some (v, mr.2)) alts.

(** [(?P<Y>\d\d\d\d)] *)
Definition dir_Y := directive [[digit; digit; digit; digit]].
(** [(?P<m>1[0-2]|0[1-9]|[1-9])] *)
Definition dir_m := directive
  [[is_char "1"; in_range "0" "2"]; [is_char "0"; in_range "1" "9"]; [in_range "1" "9"]].
(** [(?P<d>3[0-1]|[1-2]\d|0[1-9]|[1-9]| [1-9])] *)
Definition dir_d := directive
  [[is_char "3"; in_range "0" "1"]; [in_range "1" "2"; digit]; [is_char "0"; in_range "1" "9"];
   [in_range "1" "9"]; [is_char " "; in_range "1" "9"]].
(** [(?P<H>2[0-3]|[0-1]\d|\d)] *)
Definition dir_H := directive
  [[is_char "2"; in_range "0" "3"]; [in_range "0" "1"; digit]; [digit]].
(** [(?P<M>[0-5]\d|\d)] *)
Definition dir_M := directive [[in_range "0" "5"; digit]; [digit]].

Definition lit (a : ascii) (s : list N) : list (list N) :=
  match s with
  | c :: s' => if is_char a c then [s'] else []
  | [] => []
  end.

(** Rests of [s] after one, two, ... leading whitespace characters. *)
Fixpoint after_spaces (s : list N) : list (list N) :=
  match s with
  | c :: s' => if Py.isspace c then s' :: after_spaces s' else []
  | [] => []
  end.
(** [\s+] is greedy: the longest run is tried first. *)
Definition spaces (s : list N) : list (list N) := reverse (after_spaces s).

(** All matches of the compiled format at the start of [s], in the order
    of the engine, each with the unconsumed rest. *)
Definition regex_matches (s : list N) : list (datetime * list N) :=
  '(Y, s1) ← dir_Y s; s2 ← lit "-" s1;
  '(m, s3) ← dir_m s2; s4 ← lit "-" s3;
  '(dd, s5) ← dir_d s4; s6 ← spaces s5;
  '(H, s7) ← dir_H s6; s8 ← lit ":" s7;
  '(M, s9) ← dir_M s8;
  [(Build Y m dd H M, s9)].

Definition is_leap (y : Z) : bool :=
  (y mod 4 =? 0) && (negb (y mod 100 =? 0) || (y mod 400 =? 0)).

Definition days_in_month (y m : Z) : Z :=
  if m =? 2 then (if is_leap y then 29 else 28)
  else if (m =? 4) || (m =? 6) || (m =? 9) || (m =? 11) then 30 else 31.

(** The checks of the [datetime] constructor. *)
Definition valid (t : datetime) : bool :=
  (1 <=? year t) && (year t <=? 9999) && (1 <=? month t) && (month t <=? 12) &&
  (1 <=? day t) && (day t <=? days_in_month (year t) (month t)) &&
  (0 <=? hour t) && (hour t <=? 23) && (0 <=? minute t) && (minute t <=? 59).

(** [strptime]: the first match is taken, it must consume the whole text
    and denote an existing date; [None] stands for [ValueError]. *)
Definition strptime (text : string) : option datetime :=
  match regex_matches (Py.codes text) with
  | (t, []) :: _ => if valid t then Some t else None
  | _ => None
  end.

(** ["%0*d"] *)
Definition pad (width : nat) (n : Z) : string :=
  let s := Py.str n in
  String.app (String.string_of_list_ascii (replicate (width - String.length s) "0"%char)) s.

(** [dt.isoformat()] for a value without seconds and microseconds. *)
Definition isoformat (t : datetime) : string :=
  pad 4 (year t) +:+ "-" +:+ pad 2 (month t) +:+ "-" +:+ pad 2 (day t) +:+ "T" +:+
  pad 2 (hour t) +:+ ":" +:+ pad 2 (minute t) +:+ ":00".

End Datetime.

Global Arguments Datetime.strptime : simpl never.


(** ** Records exchanged with the store *)

(** A row of [profiles]; every column may be [NULL]. *)
Record profile := Profile {
  p_full_name : option string;
  p_telegram_id : option Z;
  p_role : option string
}.

(** A row of [tasks] as selected by the task views:
    ["id, title, due_date, status, assignee_telegram_id"]. *)
Record task := Task {
  t_id : Z;
  t_title : option string;
  t_due_date : option string;
  t_status : option string;
  t_assignee_telegram_id : option Z
}.

(** The dictionary inserted into [tasks] at the end of Task Creation. *)
Record task_insert := TaskInsert {
  nt_title : option string;
  nt_client : option string;
  nt_due_date : option string;
  nt_description : option string;
  nt_status : string;
  nt_assigner_telegram_id : Z;
  nt_assignee_telegram_id : Z
}.

(** The dictionary inserted into [leads], and a row read back from it. *)
Record lead := Lead {
  l_telegram_id : Z;
  l_name : option string;
  l_phone : option string;
  l_email : option string
}.

Record user := User {
  u_id : Z;
  u_username : option string;
  u_first_name : option string;
  u_last_name : option string
}.

(** The response of [.single().execute()] on [profiles]. *)
Record single_profile := SingleProfile {
  sp_error : bool;
  sp_data : option profile
}.

Global Instance profile_eq_dec : EqDecision profile.
Proof. solve_decision. Defined.
Global Instance task_eq_dec : EqDecision task.
Proof. solve_decision. Defined.
Global Instance task_insert_eq_dec : EqDecision task_insert.
Proof. solve_decision. Defined.
Global Instance lead_eq_dec : EqDecision lead.
Proof. solve_decision. Defined.
Global Instance user_eq_dec : EqDecision user.
Proof. solve_decision. Defined.

(** ** Conversation state *)

(** The states of [LeadForm], [TaskForm] and [TaskResultForm]. *)
Inductive state :=
  | LeadForm_name | LeadForm_phone | LeadForm_email
  | TaskForm_title | TaskForm_client | TaskForm_due_date
  | TaskForm_description | TaskForm_assignee
  | TaskResultForm_awaiting_result.

Global Instance state_eq_dec : EqDecision state.
Proof. solve_decision. Defined.

(** The FSM context of one (chat, user): the current state, [None] when no
    dialog is active, and the data dictionary. *)
Record ctx := Ctx {
  fsm_state : option state;
  fsm_data : gmap string (option string)
}.

Definition empty_ctx : ctx := Ctx None ∅.

(** [LeadForm.next()] and [TaskForm.next()]: the state after the current
    one in the group; the first one when the current state is not of the
    group; [None] after the last one. *)
Definition LeadForm_next (s : option state) : option state :=
  match s with
  | Some LeadForm_name => Some LeadForm_phone
  | Some LeadForm_phone => Some LeadForm_email
  | Some LeadForm_email => None
  | _ => Some LeadForm_name
  end.

Definition TaskForm_next (s : option state) : option state :=
  match s with
  | Some TaskForm_title => Some TaskForm_client
  | Some TaskForm_client => Some TaskForm_due_date
  | Some TaskForm_due_date => Some TaskForm_description
  | Some TaskForm_description => Some TaskForm_assignee
  | Some TaskForm_assignee => None
  | _ => Some TaskForm_title
  end.

(** ** Inbound events *)

Inductive content :=
  | CText (text : string)
  | CDocument (file_id : string)
  | CPhoto (file_id : string)   (* the file id of [message.photo[-1]] *)
  | COther.

Record message := Message {
  chat_id : Z;
  from_user : user;
  msg_content : content
}.

Record callback := Callback {
  cb_chat_id : Z;              (* [callback.message.chat.id] *)
  cb_message_id : Z;
  cb_from_user_id : Z;
  cb_data : string
}.

Inductive event :=
  | EMessage (m : message)
  | ECallback (c : callback).

(** ** Outbound calls *)

Record button := Button { btn_text : string; btn_callback_data : string }.

Inductive markup :=
  | NoMarkup
  | InlineKeyboard (rows : list button)
  | TasksKeyboard (tasks : list task)   (* [build_tasks_keyboard(tasks)] *)
  | ReplyKeyboardRemove.

Inductive text :=
  | Literal (s : string)
  | LeadsText (leads : list lead)        (* "Ваши лиды:" and one line per lead *)
  | TasksText (tasks : list task)        (* "Ваши задачи:" and one line per task *)
  | TaskChosenText (title : option string).

Inductive call :=
  (* Supabase *)
  | SelectUser (telegram_id : Z)
  | InsertUser (u : user)
  | InsertLead (l : lead)
  | SelectLeads (telegram_id : Z)
  | SelectProfileSingle (telegram_id : Z)
  | SelectProfilesInRoles (roles : list string)
  | SelectProfilesIlike (full_name : string)
  | InsertTask (t : task_insert)
  | SelectTasksByAssigner (telegram_id : Z)
  | SelectTasksByAssignee (telegram_id : Z)
  | SelectTaskSingle (task_id : string)
  | UpdateTaskResult (task_id : string) (result : string)
      (* also sets the status "Результат на согласовании" and [updated_at] *)
  | InsertTaskFile (task_id : string) (file_url : string)
  (* Telegram *)
  | SendMessage (chat : Z) (t : text) (kb : markup)
  | AnswerCallback
  | EditReplyMarkup (chat : Z) (message_id : Z).

(** A call that writes to the store. *)
Definition is_store_write (c : call) : bool :=
  match c with
  | InsertUser _ | InsertLead _ | InsertTask _ | UpdateTaskResult _ _ | InsertTaskFile _ _ => true
  | _ => false
  end.

(** A call to the store, read or write. *)
Definition is_store_call (c : call) : bool :=
  match c with
  | SendMessage _ _ _ | AnswerCallback | EditReplyMarkup _ _ => false
  | _ => true
  end.

(** ** The outside world during one event *)

(** The result of a query: its rows, or a raised exception.  A [data] of
    [None] is represented by the empty list, as every use is [data or []]
    or a truth test. *)
Inductive resp (A : Type) :=
  | Rows (data : A)
  | Failed.
Global Arguments Rows {A} data.
Global Arguments Failed {A}.

Record world := World {
  w_users : Z → resp (list Z);
  w_leads : Z → resp (list lead);
  w_profile_single : Z → resp single_profile;
  w_profiles_in_roles : list string → resp (list profile);
  w_profiles_ilike : string → resp (list profile);
  w_tasks_by_assigner : Z → resp (list task);
  w_tasks_by_assignee : Z → resp (list task);
  w_task_single : string → resp (option task);   (* only the title is read *)
  w_write_ok : call → bool;     (* does this insert or update succeed *)
  w_send_ok : bool;             (* [message.reply], [bot.send_message] *)
  w_answer_ok : bool;           (* [callback.answer] *)
  w_edit_ok : bool;             (* [bot.edit_message_reply_markup] *)
  w_bot_username : string       (* [(await bot.me).username] *)
}.

(** ** The handler monad *)

Inductive outcome (A : Type) :=
  | Return (a : A)
  | Raise.
Global Arguments Return {A} a.
Global Arguments Raise {A}.

Definition M (A : Type) : Type :=
  world → ctx → list call → outcome A * ctx * list call.

Definition ret {A} (a : A) : M A := λ _ c log, (Return a, c, log).
Definition raise {A} : M A := λ _ c log, (Raise, c, log).
Definition bind {A B} (m : M A) (k : A → M B) : M B := λ w c log,
  match m w c log with
  | (Return a, c', log') => k a w c' log'
  | (Raise, c', log') => (Raise, c', log')
  end.
(** [try: m  except Exception: h] *)
Definition try_except {A} (m h : M A) : M A := λ w c log,
  match m w c log with
  | (Raise, c', log') => h w c' log'
  | r => r
  end.

Notation "'let*' x ':=' m 'in' k" := (bind m (λ x, k))
  (at level 10, x binder, k at level 200, format "'[v' 'let*'  x  ':='  m  'in' '/' k ']'").
Notation "m ';;' k" := (bind m (λ _, k)) (at level 100, k at level 200, right associativity).

Definition ask : M world := λ w c log, (Return w, c, log).
Definition emit (e : call) : M unit := λ _ c log, (Return (), c, log ++ [e]).
Definition get_ctx : M ctx := λ _ c log, (Return c, c, log).
Definition put_ctx (c : ctx) : M unit := λ _ _ log, (Return (), c, log).

(** A query: the call is made, then it returns rows or raises. *)
Definition query {A} (q : call) (answer : world → resp A) : M A :=
  emit q;;
  let* w := ask in
  match answer w with Rows a => ret a | Failed => raise end.

(** An insert or update followed by [.execute()]. *)
Definition write (q : call) : M unit :=
  emit q;;
  let* w := ask in
  if w_write_ok w q then ret () else raise.

(** [message.reply(...)] and [bot.send_message(...)]. *)
Definition send_message (chat : Z) (t : text) (kb : markup) : M unit :=
  emit (SendMessage chat t kb);;
  let* w := ask in
  if w_send_ok w then ret () else raise.

Definition callback_answer : M unit :=
  emit AnswerCallback;;
  let* w := ask in
  if w_answer_ok w then ret () else raise.

(** [try: await bot.edit_message_reply_markup(...)  except Exception: pass] *)
Definition edit_reply_markup_quietly (chat message_id : Z) : M unit :=
  try_except
    (emit (EditReplyMarkup chat message_id);;
     let* w := ask in
     if w_edit_ok w then ret () else raise)
    (ret ()).

(** *** FSM context operations *)

Definition get_state : M (option state) := let* c := get_ctx in ret (fsm_state c).
Definition set_state (s : option state) : M unit :=
  let* c := get_ctx in put_ctx (Ctx s (fsm_data c)).
Definition get_data : M (gmap string (option string)) :=
  let* c := get_ctx in ret (fsm_data c).
Definition set_data (d : gmap string (option string)) : M unit :=
  let* c := get_ctx in put_ctx (Ctx (fsm_state c) d).
(** [state.finish()]: the state and the data are reset. *)
Definition finish : M unit := put_ctx empty_ctx.
(** [state.update_data(key=value)] *)
Definition update_data (k : string) (v : option string) : M unit :=
  let* d := get_data in set_data (<[k := v]> d).
(** [async with state.proxy() as data: body]: the data is loaded, the body
    works on its copy, and the copy is saved when the body ends without an
    exception. *)
Definition proxy {A} (body : gmap string (option string) → M (gmap string (option string) * A)) : M A :=
  let* d := get_data in
  let* r := body d in
  set_data r.1;;
  ret r.2.
Definition next (group_next : option state → option state) : M unit :=
  let* s := get_state in set_state (group_next s).

(** [data.get(k)]: [None] when the key is absent or bound to [None]. *)
Definition dict_get (d : gmap string (option string)) (k : string) : option string :=
  d !! k ≫= id.
(** [data[k]]: [KeyError] when the key is absent. *)
Definition dict_item (d : gmap string (option string)) (k : string) : M (option string) :=
  match d !! k with Some v => ret v | None => raise end.

(** [message.text], which is [None] unless the message is a text message;
    calling [.strip()] on [None] raises. *)
Definition message_text (m : message) : option string :=
  match msg_content m with CText t => Some t | _ => None end.
Definition stripped_text (m : message) : M string :=
  match message_text m with Some t => ret (Py.strip t) | None => raise end.

(** [txt if txt and txt != '-' else None] *)
Definition optional_field (txt : string) : option string :=
  if bool_decide (txt ≠ "") && bool_decide (txt ≠ "-") then Some txt else None.

Definition run {A} (m : M A) (w : world) (c : ctx) : outcome A * ctx * list call :=
  m w c [].


(** ** UI helpers *)

Definition get_main_menu : markup :=
  InlineKeyboard [Button "📋 Мои задачи" "mytasks"; Button "➕ Новая задача" "newtask"].

(** The buttons added by the loop of [prompt_for_assignee]: the assigner is
    skipped, the label is the full name, else the role, else the identity. *)
Fixpoint assignee_buttons (assigner_id : Z) (assignees : list profile) : list button :=
  match assignees with
  | [] => []
  | a :: rest =>
      if bool_decide (p_telegram_id a = Some assigner_id) then assignee_buttons assigner_id rest
      else
        let name := default (Py.str_or_none (p_telegram_id a))
                            (Py.or_else (p_full_name a) (Py.or_else (p_role a) None)) in
        Button name ("assign:" +:+ Py.str_or_none (p_telegram_id a))
          :: assignee_buttons assigner_id rest
  end.

Definition assignee_prompt : text := Literal "Выберите исполнителя задачи:".

Definition self_button : button := Button "Назначить себе" "assign:self".

Definition prompt_for_assignee (chat assigner_id : Z) : M unit :=
  let* assigner_role :=
    try_except
      (let* prof_resp := query (SelectProfileSingle assigner_id) (λ w, w_profile_single w assigner_id) in
       let prof := if sp_error prof_resp then None else sp_data prof_resp in
       ret (prof ≫= p_role))
      (ret None) in
  let allowed_roles := eligible_roles assigner_role in
  let* assignees :=
    match allowed_roles with
    | [] => ret []
    | _ => try_except
             (query (SelectProfilesInRoles allowed_roles) (λ w, w_profiles_in_roles w allowed_roles))
             (ret [])
    end in
  let kb := self_button :: assignee_buttons assigner_id assignees in
  send_message chat assignee_prompt (InlineKeyboard kb).

(** ** Task view *)

(** [for t in more: if t not in tasks: tasks.append(t)] *)
Fixpoint append_new (tasks more : list task) : list task :=
  match more with
  | [] => tasks
  | t :: rest => append_new (if bool_decide (t ∈ tasks) then tasks else tasks ++ [t]) rest
  end.

(** The list built from the two responses, before sorting. *)
Definition merge_tasks (assigner_data assignee_data : list task) : list task :=
  append_new ([] ++ assigner_data) assignee_data.

(** [x.get('due_date') or ''] *)
Definition due_key (t : task) : string :=
  default "" (Py.or_else (t_due_date t) None).

(** [tasks.sort(key=...)]: ascending in the order of strings and stable.
    An element is put before the first one whose key is not smaller. *)
Fixpoint insert_by_due (t : task) (sorted : list task) : list task :=
  match sorted with
  | [] => [t]
  | u :: rest =>
      if String.ltb (due_key u) (due_key t) then u :: insert_by_due t rest
      else t :: sorted
  end.

Definition sort_by_due (tasks : list task) : list task :=
  foldr insert_by_due [] tasks.

(** The two queries, the merge and the sort shared by [my_tasks],
    [on_mytasks] and [on_cancel_action]. *)
Definition list_tasks_for (telegram_id : Z) : M (list task) :=
  let* assigner_data := query (SelectTasksByAssigner telegram_id) (λ w, w_tasks_by_assigner w telegram_id) in
  let* assignee_data := query (SelectTasksByAssignee telegram_id) (λ w, w_tasks_by_assignee w telegram_id) in
  ret (sort_by_due (merge_tasks assigner_data assignee_data)).

Definition tasks_text (tasks : list task) : text :=
  match tasks with
  | [] => Literal "У вас пока нет задач."
  | _ => TasksText tasks
  end.

(** ** Handlers *)

Definition send_welcome (m : message) : M unit :=
  let telegram_id := u_id (from_user m) in
  let* existing := query (SelectUser telegram_id) (λ w, w_users w telegram_id) in
  match existing with
  | [] => write (InsertUser (from_user m))
  | _ => ret ()
  end;;
  send_message (chat_id m)
    (Literal "Здравствуйте!
Это CRM‑бот для управления лидами и задачами.") get_main_menu.

Definition help_command (m : message) : M unit :=
  send_message (chat_id m) (Literal "Доступные команды:
/start – регистрация и приветствие
/newlead – пошаговое создание лида
/myleads – вывод ваших лидов
/newtask – создание новой задачи
/mytasks – вывод ваших задач
Также вы можете использовать кнопки в интерфейсе бота, не вводя команды.") NoMarkup.

Definition new_lead (m : message) : M unit :=
  set_state (Some LeadForm_name);;
  send_message (chat_id m) (Literal "Введите имя лида:") get_main_menu.

Definition process_lead_name (m : message) : M unit :=
  proxy (λ data, let* t := stripped_text m in ret (<["name" := Some t]> data, ()));;
  next LeadForm_next;;
  send_message (chat_id m) (Literal "Введите номер телефона:") get_main_menu.

Definition process_lead_phone (m : message) : M unit :=
  proxy (λ data, let* t := stripped_text m in ret (<["phone" := Some t]> data, ()));;
  next LeadForm_next;;
  send_message (chat_id m) (Literal "Введите e‑mail:") get_main_menu.

Definition process_lead_email (m : message) : M unit :=
  proxy (λ data,
    let* t := stripped_text m in
    let data := <["email" := Some t]> data in
    let telegram_id := u_id (from_user m) in
    let* name := dict_item data "name" in
    let* phone := dict_item data "phone" in
    let* email := dict_item data "email" in
    write (InsertLead (Lead telegram_id name phone email));;
    ret (data, ()));;
  finish;;
  send_message (chat_id m) (Literal "Лид успешно добавлен!") get_main_menu.

Definition my_leads (m : message) : M unit :=
  let telegram_id := u_id (from_user m) in
  let* leads := query (SelectLeads telegram_id) (λ w, w_leads w telegram_id) in
  match leads with
  | [] => send_message (chat_id m) (Literal "У вас пока нет лидов.") NoMarkup
  | _ => send_message (chat_id m) (LeadsText leads) NoMarkup
  end.

Definition new_task (m : message) : M unit :=
  set_state (Some TaskForm_title);;
  send_message (chat_id m) (Literal "Введите название задачи:") get_main_menu.

Definition client_prompt : text :=
  Literal "Введите клиента (если нет — отправьте тире):".

Definition process_task_title (m : message) : M unit :=
  proxy (λ data, let* t := stripped_text m in ret (<["title" := Some t]> data, ()));;
  next TaskForm_next;;
  send_message (chat_id m) client_prompt get_main_menu.

Definition process_task_client (m : message) : M unit :=
  proxy (λ data, let* txt := stripped_text m in ret (<["client" := optional_field txt]> data, ()));;
  next TaskForm_next;;
  send_message (chat_id m)
    (Literal "Введите дедлайн в формате YYYY-MM-DD HH:MM (24-часовой):") get_main_menu.

Definition description_prompt : text :=
  Literal "Введите описание задачи (можно оставить пустым):".

Definition bad_date_notice : text :=
  Literal "Некорректный формат. Используйте YYYY-MM-DD HH:MM, например 2025-12-31 18:00. Попробуйте ещё раз:".

Definition process_task_due_date (m : message) : M unit :=
  let* text := stripped_text m in
  match Datetime.strptime text with
  | None => send_message (chat_id m) bad_date_notice NoMarkup
  | Some dt =>
      proxy (λ data, ret (<["due_date" := Some (Datetime.isoformat dt)]> data, ()));;
      next TaskForm_next;;
      send_message (chat_id m) description_prompt get_main_menu
  end.

Definition process_task_description (m : message) : M unit :=
  proxy (λ data, let* txt := stripped_text m in ret (<["description" := optional_field txt]> data, ()));;
  next TaskForm_next;;
  prompt_for_assignee (chat_id m) (u_id (from_user m)).

(** The row written by both assignee paths. *)
Definition task_row (data : gmap string (option string)) (assigner_id assignee_id : Z) : task_insert :=
  TaskInsert (dict_get data "title") (dict_get data "client") (dict_get data "due_date")
          (dict_get data "description") "Выполняется" assigner_id assignee_id.

Definition task_added_notice : text := Literal "Задача успешно добавлена.".

Definition assignee_unresolved_notice : text :=
  Literal "Не удалось определить исполнителя.
Введите Telegram‑ID, 0 для назначения себе или выберите из списка кнопок.".

Definition process_task_assignee (m : message) : M unit :=
  let* assignee_input := stripped_text m in
  let assigner_id := u_id (from_user m) in
  let* assignee_id :=
    if Py.isdigit assignee_input || bool_decide (assignee_input = "0") then
      if bool_decide (assignee_input ≠ "") && bool_decide (assignee_input ≠ "0")
         && bool_decide (assignee_input ≠ "-")
      then match Py.int assignee_input with Some n => ret (Some n) | None => raise end
      else ret (Some assigner_id)
    else
      let* candidates :=
        try_except
          (query (SelectProfilesIlike assignee_input) (λ w, w_profiles_ilike w assignee_input))
          (ret []) in
      match candidates with
      | [c] => ret (p_telegram_id c)
      | _ => ret None
      end in
  match assignee_id with
  | Some assignee_id =>
      let* row := proxy (λ data, ret (data, task_row data assigner_id assignee_id)) in
      write (InsertTask row);;
      finish;;
      send_message (chat_id m) task_added_notice get_main_menu
  | None =>
      send_message (chat_id m) assignee_unresolved_notice get_main_menu
  end.

Definition tasks_error_notice : text :=
  Literal "Ошибка при получении списка задач. Попробуйте ещё раз позже.".

Definition my_tasks (m : message) : M unit :=
  let telegram_id := u_id (from_user m) in
  let* fetched := try_except (let* ts := list_tasks_for telegram_id in ret (Some ts)) (ret None) in
  match fetched with
  | None => send_message (chat_id m) tasks_error_notice get_main_menu
  | Some tasks => send_message (chat_id m) (tasks_text tasks) (TasksKeyboard tasks)
  end.

Definition cancelled_notice : text := Literal "Создание лида отменено.".

Definition cancel_handler (m : message) : M unit :=
  let* current_state := get_state in
  match current_state with
  | None => ret ()
  | Some _ =>
      finish;;
      send_message (chat_id m) cancelled_notice ReplyKeyboardRemove
  end.

Definition result_keyboard : markup :=
  InlineKeyboard [Button "📋 К списку задач" "mytasks"; Button "⬅️ Главное меню" "menu"].

Definition process_task_result (m : message) : M unit :=
  let* data := get_data in
  match dict_get data "task_id" with
  | None | Some EmptyString =>
      finish;;
      send_message (chat_id m) (Literal "Неизвестная задача. Попробуйте снова.") NoMarkup
  | Some task_id =>
      let attach (result_text : string) (file_id : option string) : M unit :=
        write (UpdateTaskResult task_id result_text);;
        match file_id with
        | Some (String _ _ as f) => write (InsertTaskFile task_id f)
        | _ => ret ()
        end;;
        finish;;
        send_message (chat_id m)
          (Literal "✅ Результат прикреплён к задаче. Он отправлен на согласование.")
          result_keyboard in
      match msg_content m with
      | CText t => attach (Py.strip t) None
      | CDocument file_id | CPhoto file_id =>
          attach ("[Файл: " +:+ file_id +:+ "]") (Some file_id)
      | COther => send_message (chat_id m) (Literal "Пожалуйста, отправьте текст или файл.") NoMarkup
      end
  end.

Definition on_menu (c : callback) : M unit :=
  finish;;
  callback_answer;;
  edit_reply_markup_quietly (cb_chat_id c) (cb_message_id c);;
  send_message (cb_chat_id c) (Literal "Главное меню:") get_main_menu.

Definition on_mytasks (c : callback) : M unit :=
  finish;;
  callback_answer;;
  let user_id := cb_from_user_id c in
  let* fetched := try_except (let* ts := list_tasks_for user_id in ret (Some ts)) (ret None) in
  match fetched with
  | None => send_message (cb_chat_id c)
              (Literal "Ошибка при получении списка задач. Попробуйте позже.") get_main_menu
  | Some tasks => send_message (cb_chat_id c) (tasks_text tasks) (TasksKeyboard tasks)
  end.

Definition on_newtask (c : callback) : M unit :=
  finish;;
  callback_answer;;
  set_state (Some TaskForm_title);;
  send_message (cb_chat_id c) (Literal "Введите название задачи:") NoMarkup.

Definition on_select_task (c : callback) : M unit :=
  finish;;
  callback_answer;;
  match Py.after_colon (cb_data c) with
  | None => raise
  | Some task_id =>
      let* data := try_except (query (SelectTaskSingle task_id) (λ w, w_task_single w task_id))
                              (ret None) in
      match data with
      | None => send_message (cb_chat_id c) (Literal "Задача не найдена или недоступна.") NoMarkup
      | Some t =>
          update_data "task_id" (Some task_id);;
          set_state (Some TaskResultForm_awaiting_result);;
          send_message (cb_chat_id c) (TaskChosenText (t_title t))
            (InlineKeyboard [Button "❌ Отмена" "cancel_action"])
      end
  end.

Definition on_cancel_action (c : callback) : M unit :=
  callback_answer;;
  finish;;
  edit_reply_markup_quietly (cb_chat_id c) (cb_message_id c);;
  let* tasks := list_tasks_for (cb_from_user_id c) in
  send_message (cb_chat_id c) (tasks_text tasks) (TasksKeyboard tasks).

Definition handle_assign_callback (c : callback) : M unit :=
  callback_answer;;
  let assigner_id := cb_from_user_id c in
  let* fsm_data := proxy (λ data, ret (data, data)) in
  match Py.after_colon (cb_data c) with
  | None => raise
  | Some assignee_code =>
      let assignee_id :=
        if bool_decide (assignee_code = "self") then assigner_id
        else match Py.int assignee_code with
             | Some n => n
             | None => assigner_id
             end in
      write (InsertTask (task_row fsm_data assigner_id assignee_id));;
      finish;;
      edit_reply_markup_quietly (cb_chat_id c) (cb_message_id c);;
      send_message (cb_chat_id c) task_added_notice get_main_menu
  end.


(** ** The dispatcher

    [dp.message_handler(...)] and [dp.callback_query_handler(...)] append
    the handler to the list of its kind with the filters of the decorator.
    An event is given to the first handler of the list whose filters all
    pass, and to no other.  The [state] filter is part of every
    registration: when the decorator does not name a state the handler runs
    only while no state is set; [state='*'] accepts every state.  A message
    handler that does not name [content_types] accepts text messages only.
    A filter that raises ends the search: the exception leaves the
    dispatcher and no handler runs. *)

Inductive state_filter :=
  | OnlyState (s : option state)
  | AnyState.

Definition state_passes (f : state_filter) (current : option state) : bool :=
  match f with
  | AnyState => true
  | OnlyState s => bool_decide (s = current)
  end.

(** What a filter makes of an event: it passes, it does not, or it raises. *)
Inductive verdict := Pass | Skip | Crash.

Global Instance verdict_eq_dec : EqDecision verdict.
Proof. solve_decision. Defined.

(** [full_command[1:].partition('@')]: the command and the mention. *)
Definition partition_at (l : list N) : list N * list N :=
  let '(command, mention) := Py.break_chars (λ c, (c =? 64)%N) l in
  (command, default [] mention).

(** [Command.check_command] for [commands=[name]], with the prefix ['/']:
    a message without text does not pass; the first word of the text,
    [text.split()[0]], raises when the text is all whitespace; its first
    character must be the prefix, the rest up to ['@'] must be the command
    in any case, and a mention after ['@'] must name this bot. *)
Definition check_command (name : string) (w : world) (m : message) : verdict :=
  match message_text m with
  | None | Some EmptyString => Skip
  | Some text =>
      match Py.first_word text with
      | None | Some [] => Crash
      | Some (prefix :: rest) =>
          let '(command, mention) := partition_at rest in
          if bool_decide (mention ≠ [])
             && bool_decide (Py.lower (w_bot_username w) ≠ Py.lower_codes mention)
          then Skip
          else if negb (prefix =? 47)%N then Skip
          else if bool_decide (Py.lower_codes command = Py.lower name) then Pass
          else Skip
      end
  end.

(** The command filter lets the message through. *)
Definition is_command (name : string) (w : world) (m : message) : bool :=
  bool_decide (check_command name w m = Pass).

Global Arguments check_command : simpl never.

(** [Text(equals=s, ignore_case=True)] *)
Definition text_equals_ignore_case (s : string) (m : message) : bool :=
  bool_decide (Py.lower (default "" (message_text m)) = Py.lower s).

Global Arguments text_equals_ignore_case : simpl never.

Definition is_text (m : message) : bool :=
  match msg_content m with CText _ => true | _ => false end.

Inductive handler_id :=
  | h_send_welcome | h_help_command | h_new_lead | h_process_lead_name
  | h_process_lead_phone | h_process_lead_email | h_my_leads | h_new_task
  | h_process_task_title | h_process_task_client | h_process_task_due_date
  | h_process_task_description | h_process_task_assignee | h_my_tasks
  | h_cancel_handler | h_process_task_result
  | h_on_menu | h_on_mytasks | h_on_newtask | h_on_select_task
  | h_on_cancel_action | h_handle_assign_callback.

Global Instance handler_id_eq_dec : EqDecision handler_id.
Proof. solve_decision. Defined.

Record message_handler := MessageHandler {
  mh_id : handler_id;
  mh_state : state_filter;
  mh_any_content : bool;                 (* [content_types=ContentType.ANY] *)
  mh_filter : world → message → verdict;   (* [commands=...] or a [Text] filter *)
  mh_body : message → M unit
}.

Record callback_handler := CallbackHandler {
  ch_id : handler_id;
  ch_state : state_filter;
  ch_filter : callback → bool;
  ch_body : callback → M unit
}.

Definition no_filter : world → message → verdict := λ _ _, Pass.

(** A filter that does not raise. *)
Definition of_bool (b : bool) : verdict := if b then Pass else Skip.

(** The message handlers in the order of their decorators.  The two
    decorators of [cancel_handler] register it twice, the inner one first. *)
Definition message_handlers : list message_handler := [
  MessageHandler h_send_welcome (OnlyState None) false (check_command "start") send_welcome;
  MessageHandler h_help_command (OnlyState None) false (check_command "help") help_command;
  MessageHandler h_new_lead (OnlyState None) false (check_command "newlead") new_lead;
  MessageHandler h_process_lead_name (OnlyState (Some LeadForm_name)) false no_filter process_lead_name;
  MessageHandler h_process_lead_phone (OnlyState (Some LeadForm_phone)) false no_filter process_lead_phone;
  MessageHandler h_process_lead_email (OnlyState (Some LeadForm_email)) false no_filter process_lead_email;
  MessageHandler h_my_leads (OnlyState None) false (check_command "myleads") my_leads;
  MessageHandler h_new_task (OnlyState None) false (check_command "newtask") new_task;
  MessageHandler h_process_task_title (OnlyState (Some TaskForm_title)) false no_filter process_task_title;
  MessageHandler h_process_task_client (OnlyState (Some TaskForm_client)) false no_filter process_task_client;
  MessageHandler h_process_task_due_date (OnlyState (Some TaskForm_due_date)) false no_filter process_task_due_date;
  MessageHandler h_process_task_description (OnlyState (Some TaskForm_description)) false no_filter process_task_description;
  MessageHandler h_process_task_assignee (OnlyState (Some TaskForm_assignee)) false no_filter process_task_assignee;
  MessageHandler h_my_tasks (OnlyState None) false (check_command "mytasks") my_tasks;
  MessageHandler h_cancel_handler AnyState false (λ _ m, of_bool (text_equals_ignore_case "cancel" m)) cancel_handler;
  MessageHandler h_cancel_handler AnyState false (check_command "cancel") cancel_handler;
  MessageHandler h_process_task_result (OnlyState (Some TaskResultForm_awaiting_result)) true no_filter process_task_result
].

(** The callback query handlers in the order of their decorators. *)
Definition callback_handlers : list callback_handler := [
  CallbackHandler h_on_menu (OnlyState None) (λ c, bool_decide (cb_data c = "menu")) on_menu;
  CallbackHandler h_on_mytasks (OnlyState None) (λ c, bool_decide (cb_data c = "mytasks")) on_mytasks;
  CallbackHandler h_on_newtask (OnlyState None) (λ c, bool_decide (cb_data c = "newtask")) on_newtask;
  CallbackHandler h_on_select_task (OnlyState None) (λ c, Py.startswith "task:" (cb_data c)) on_select_task;
  CallbackHandler h_on_cancel_action AnyState (λ c, bool_decide (cb_data c = "cancel_action")) on_cancel_action;
  CallbackHandler h_handle_assign_callback (OnlyState (Some TaskForm_assignee))
    (λ c, Py.startswith "assign:" (cb_data c)) handle_assign_callback
].

(** The filters of a registration are checked in this order: the state,
    the content type, then the command or the text; the first one that
    fails ends the check. *)
Definition mh_passes (w : world) (current : option state) (m : message) (h : message_handler)
  : verdict :=
  if state_passes (mh_state h) current && (mh_any_content h || is_text m)
  then mh_filter h w m else Skip.

(** The first handler whose filters pass; [Raise] when a filter raises
    before one does. *)
Fixpoint first_passing {H} (check : H → verdict) (handlers : list H) : outcome (option H) :=
  match handlers with
  | [] => Return None
  | h :: rest =>
      match check h with
      | Pass => Return (Some h)
      | Skip => first_passing check rest
      | Crash => Raise
      end
  end.

Definition ch_passes (current : option state) (c : callback) (h : callback_handler) : bool :=
  state_passes (ch_state h) current && ch_filter h c.

(** What became of one event: the handler that ran, if any, how it ended,
    the context it left and the calls it made, in order. *)
Record handled := Handled {
  by_handler : option handler_id;
  ended : outcome unit;
  ctx_after : ctx;
  calls : list call
}.

Definition ran (id : handler_id) (r : outcome unit * ctx * list call) : handled :=
  Handled (Some id) r.1.1 r.1.2 r.2.

(** One event on the context of its conversation. *)
Definition handle (w : world) (ev : event) (c : ctx) : handled :=
  match ev with
  | EMessage m =>
      match first_passing (mh_passes w (fsm_state c) m) message_handlers with
      | Return (Some h) => ran (mh_id h) (run (mh_body h m) w c)
      | Return None => Handled None (Return ()) c []
      | Raise => Handled None Raise c []
      end
  | ECallback q =>
      match List.find (ch_passes (fsm_state c) q) callback_handlers with
      | Some h => ran (ch_id h) (run (ch_body h q) w c)
      | None => Handled None (Return ()) c []
      end
  end.

(** [MemoryStorage] keeps one context per chat and user. *)
Definition event_key (ev : event) : Z * Z :=
  match ev with
  | EMessage m => (chat_id m, u_id (from_user m))
  | ECallback q => (cb_chat_id q, cb_from_user_id q)
  end.

Definition current_ctx (storage : gmap (Z * Z) ctx) (k : Z * Z) : ctx :=
  default empty_ctx (storage !! k).

Definition dispatch (w : world) (ev : event) (storage : gmap (Z * Z) ctx)
  : gmap (Z * Z) ctx * handled :=
  let r := handle w ev (current_ctx storage (event_key ev)) in
  (<[event_key ev := ctx_after r]> storage, r).

(** The storages the bot can be in: it starts empty and processes events
    one after the other, each in some world. *)
Inductive reachable : gmap (Z * Z) ctx → Prop :=
  | reachable_start : reachable ∅
  | reachable_step w ev storage :
      reachable storage → reachable (dispatch w ev storage).1.

(** A world in which the tables are empty and no call fails, except that
    [.single()] raises as it finds no row. *)
Definition calm : world :=
  World (λ _, Rows []) (λ _, Rows []) (λ _, Failed) (λ _, Rows []) (λ _, Rows [])
        (λ _, Rows []) (λ _, Rows []) (λ _, Rows None) (λ _, true) true true true "crm_bot".

Definition text_message (chat user : Z) (t : string) : event :=
  EMessage (Message chat (User user None None None) (CText t)).
Definition button_press (chat user : Z) (data : string) : event :=
  ECallback (Callback chat 1 user data).

(** The storage after a list of events, all in the same world. *)
Definition play (w : world) (evs : list event) (storage : gmap (Z * Z) ctx) : gmap (Z * Z) ctx :=
  foldl (λ st ev, (dispatch w ev st).1) storage evs.


(** ** The task list as the specification words it *)

(** Deduplication in order of first appearance: the first occurrence of
    every record is kept. *)
Fixpoint keep_first (l : list task) : list task :=
  match l with
  | [] => []
  | t :: rest => t :: filter (λ u, u ≠ t) (keep_first rest)
  end.

(** The key of a task is not above the key of another one. *)
Definition due_le (t u : task) : Prop := String.le (due_key t) (due_key u).

(** ** Notions used by the statements *)

(** A conversation without an active dialog holds no data. *)
Definition ctx_inv (c : ctx) : Prop := fsm_state c = None → fsm_data c = ∅.

(** The handlers that start a dialog: [/newlead], [/newtask] and the
    [newtask] button. *)
Definition enters_dialog (id : handler_id) : Prop :=
  id = h_new_lead ∨ id = h_new_task ∨ id = h_on_newtask.

(** The role [prompt_for_assignee] ends up with for the assigner: none when
    the lookup raises, reports an error or finds no profile. *)
Definition found_role (w : world) (assigner_id : Z) : option string :=
  match w_profile_single w assigner_id with
  | Rows found => (if sp_error found then None else sp_data found) ≫= p_role
  | Failed => None
  end.

(** The profiles it ends up with for the eligible roles: none when no role
    is eligible or the query raises. *)
Definition fetched_profiles (w : world) (roles : list string) : list profile :=
  match roles with
  | [] => []
  | _ => match w_profiles_in_roles w roles with Rows found => found | Failed => [] end
  end.

(** The lookups it makes. *)
Definition role_queries (assigner_id : Z) (roles : list string) : list call :=
  SelectProfileSingle assigner_id ::
  match roles with [] => [] | _ => [SelectProfilesInRoles roles] end.

(** Sample data. *)
Definition task_jan : task := Task 1 (Some "report") (Some "2025-01-01 10:00") (Some "open") (Some 7).
Definition task_jun : task := Task 2 (Some "call") (Some "2024-06-01 09:00") (Some "open") (Some 7).
Definition task_nodue : task := Task 3 (Some "idea") None (Some "open") (Some 7).

Definition lead_dialog : list event :=
  [text_message 1 1 "/newlead"; text_message 1 1 "Anna";
   text_message 1 1 "+1234567890"; text_message 1 1 "a@b.com"].

(** ** Further notions: keyboards of tasks, notices, views *)

(** A byte that continues a character in the UTF-8 form of a string. *)
Definition is_continuation (c : ascii) : bool :=
  let n := N_of_ascii c in ((128 <=? n) && (n <? 192))%N.

(** [len(s)]: the number of characters, that is of bytes that start one. *)
Fixpoint py_len (s : string) : nat :=
  match s with
  | EmptyString => 0
  | String c s' => ((if is_continuation c then 0 else 1) + py_len s')%nat
  end.

(** [s[:n]]: the first [n] characters. *)
Fixpoint py_take (n : nat) (s : string) : string :=
  match s with
  | EmptyString => EmptyString
  | String c s' =>
      if is_continuation c then String c (py_take n s')
      else match n with
           | O => EmptyString
           | S n' => String c (py_take n' s')
           end
  end.

(** [build_tasks_keyboard]: the label of the button of a task is its
    title, cut to 27 characters and an ellipsis when longer than 30. *)
Definition task_button_text (t : task) : string :=
  let title := default "" (Py.or_else (t_title t) None) in
  if (py_len title <=? 30)%nat then title else py_take 27 title +:+ "…".

Definition task_button (t : task) : button :=
  Button (task_button_text t) ("task:" +:+ Py.str (t_id t)).

(** The buttons that [TasksKeyboard tasks] stands for. *)
Definition build_tasks_keyboard (tasks : list task) : list button :=
  Button "➕ Добавить задачу" "newtask" ::
  (task_button <$> tasks) ++ [Button "⬅️ Главное меню" "menu"].

(** The texts of the remaining notices. *)
Definition lead_added_notice : text := Literal "Лид успешно добавлен!".
Definition task_not_found_notice : text := Literal "Задача не найдена или недоступна.".
Definition result_attached_notice : text :=
  Literal "✅ Результат прикреплён к задаче. Он отправлен на согласование.".
Definition text_or_file_notice : text := Literal "Пожалуйста, отправьте текст или файл.".
Definition tasks_retry_notice : text :=
  Literal "Ошибка при получении списка задач. Попробуйте позже.".
Definition welcome_notice : text :=
  Literal "Здравствуйте!
Это CRM‑бот для управления лидами и задачами.".
Definition cancel_keyboard : markup := InlineKeyboard [Button "❌ Отмена" "cancel_action"].

(** A text message of a user in a chat. *)
Definition text_from (chat : Z) (u : user) (t : string) : event :=
  EMessage (Message chat u (CText t)).

(** The key is bound to a string. *)
Definition filled (d : gmap string (option string)) (k : string) : Prop :=
  ∃ v, d !! k = Some (Some v).
(** The key is bound, to a string or to [None]. *)
Definition present (d : gmap string (option string)) (k : string) : Prop :=
  is_Some (d !! k).

(** What the data holds at each step: the fields of the steps before it. *)
Definition stage_inv (c : ctx) : Prop :=
  let d := fsm_data c in
  match fsm_state c with
  | None => d = ∅
  | Some LeadForm_name | Some TaskForm_title => True
  | Some LeadForm_phone => filled d "name"
  | Some LeadForm_email => filled d "name" ∧ filled d "phone"
  | Some TaskForm_client => filled d "title"
  | Some TaskForm_due_date => filled d "title" ∧ present d "client"
  | Some TaskForm_description => filled d "title" ∧ present d "client" ∧ filled d "due_date"
  | Some TaskForm_assignee =>
      filled d "title" ∧ present d "client" ∧ filled d "due_date" ∧ present d "description"
  | Some TaskResultForm_awaiting_result => filled d "task_id"
  end.

(** A task row as the dialog completes it. *)
Definition well_formed_row (sender : Z) (row : task_insert) : Prop :=
  is_Some (nt_title row) ∧ is_Some (nt_due_date row) ∧
  nt_status row = "Выполняется" ∧ nt_assigner_telegram_id row = sender.

Definition inserts_well_formed (sender : Z) (l : list call) : Prop :=
  ∀ row, InsertTask row ∈ l → well_formed_row sender row.

(** The message is not a cancellation: it is not the word, and the
    command filter answers, without raising, that it is not the command. *)
Definition not_cancel (w : world) (m : message) : Prop :=
  text_equals_ignore_case "cancel" m = false ∧ check_command "cancel" w m = Skip.

(** What the task views do for a user: the two queries and the list, or
    the notice of a failure. *)
Definition task_view (w : world) (chat user_id : Z) (failure : text) : list call :=
  match w_tasks_by_assigner w user_id, w_tasks_by_assignee w user_id with
  | Rows assigner_data, Rows assignee_data =>
      let tasks := sort_by_due (merge_tasks assigner_data assignee_data) in
      [SelectTasksByAssigner user_id; SelectTasksByAssignee user_id;
       SendMessage chat (tasks_text tasks) (TasksKeyboard tasks)]
  | Rows _, Failed =>
      [SelectTasksByAssigner user_id; SelectTasksByAssignee user_id;
       SendMessage chat failure get_main_menu]
  | Failed, _ =>
      [SelectTasksByAssigner user_id; SendMessage chat failure get_main_menu]
  end.

(** An event that no handler takes. *)
Definition ignored (c : ctx) : handled := Handled None (Return ()) c [].

Definition is_send (e : call) : bool :=
  match e with SendMessage _ _ _ => true | _ => false end.
Definition is_insert (e : call) : bool :=
  match e with InsertTask _ | InsertLead _ | InsertUser _ => true | _ => false end.

(** At most one message and at most one inserted task, lead or user. *)
Definition frugal (l : list call) : Prop :=
  (length (filter (λ e, is_send e = true) l) ≤ 1)%nat ∧
  (length (filter (λ e, is_insert e = true) l) ≤ 1)%nat.

(** The number denoted by the digits [d] read after the number [acc]. *)
Fixpoint uint_value (acc : Z) (d : Decimal.uint) : Z :=
  match d with
  | Decimal.Nil => acc
  | Decimal.D0 l => uint_value (10 * acc + 0) l
  | Decimal.D1 l => uint_value (10 * acc + 1) l
  | Decimal.D2 l => uint_value (10 * acc + 2) l
  | Decimal.D3 l => uint_value (10 * acc + 3) l
  | Decimal.D4 l => uint_value (10 * acc + 4) l
  | Decimal.D5 l => uint_value (10 * acc + 5) l
  | Decimal.D6 l => uint_value (10 * acc + 6) l
  | Decimal.D7 l => uint_value (10 * acc + 7) l
  | Decimal.D8 l => uint_value (10 * acc + 8) l
  | Decimal.D9 l => uint_value (10 * acc + 9) l
  end.

Definition then_compare (c1 c2 : comparison) : comparison :=
  match c1 with Eq => c2 | _ => c1 end.

(** The order of two moments: by year, then month, day, hour and minute. *)
Definition chrono_compare (a b : Datetime.datetime) : comparison :=
  then_compare (Datetime.year a ?= Datetime.year b)
 (then_compare (Datetime.month a ?= Datetime.month b)
 (then_compare (Datetime.day a ?= Datetime.day b)
 (then_compare (Datetime.hour a ?= Datetime.hour b)
               (Datetime.minute a ?= Datetime.minute b)))).

(** The handler registered for a step of a form. *)
Definition step_handler (s : state) : handler_id :=
  match s with
  | LeadForm_name => h_process_lead_name
  | LeadForm_phone => h_process_lead_phone
  | LeadForm_email => h_process_lead_email
  | TaskForm_title => h_process_task_title
  | TaskForm_client => h_process_task_client
  | TaskForm_due_date => h_process_task_due_date
  | TaskForm_description => h_process_task_description
  | TaskForm_assignee => h_process_task_assignee
  | TaskResultForm_awaiting_result => h_process_task_result
  end.

(** Sample data for the further properties. *)
Definition anna : user := User 5 (Some "anna") (Some "Anna") None.
Definition ivan : profile := Profile (Some "Ivan Petrov") (Some 9) (Some "team_leader").
Definition task_long : task :=
  Task 12 (Some "Подготовить квартальный отчёт для клиента") None (Some "open") (Some 5).
Definition noon : Datetime.datetime := Datetime.Build 2025 6 1 12 0.
Definition evening : Datetime.datetime := Datetime.Build 2025 6 1 18 30.

(** * Properties *)

(** Evaluation of the dispatcher and of a handler on a symbolic context. *)
Ltac literal t :=
  lazymatch t with
  | EmptyString => idtac
  | String _ ?rest => literal rest
  end.

(** The filters are evaluated on the texts that are given in full. *)
Ltac eval_filters :=
  repeat match goal with
  | |- context [check_command ?n ?w (Message ?c ?u (CText ?t))] =>
      literal t;
      let v := eval vm_compute in (check_command n w (Message c u (CText t))) in
      lazymatch v with Pass => idtac | Skip => idtac | Crash => idtac end;
      replace (check_command n w (Message c u (CText t))) with v by (vm_compute; reflexivity)
  | |- context [text_equals_ignore_case ?n (Message ?c ?u (CText ?t))] =>
      literal t;
      let v := eval vm_compute in (text_equals_ignore_case n (Message c u (CText t))) in
      lazymatch v with true => idtac | false => idtac end;
      replace (text_equals_ignore_case n (Message c u (CText t))) with v
        by (vm_compute; reflexivity)
  end.

Ltac pick_handler :=
  unfold handle, message_handlers, callback_handlers, mh_passes, ch_passes, state_passes;
  simpl; eval_filters; simpl.

(** The state a handler was registered for, from the fact that its
    filters passed. *)
Ltac state_of Hp :=
  unfold mh_passes, ch_passes, state_passes in Hp; simpl in Hp;
  try match type of Hp with
      | context [bool_decide (?a = ?b)] =>
          destruct (decide (a = b)) as [Hs|Hs];
          [ rewrite (bool_decide_eq_true_2 _ Hs) in Hp; simpl in Hp; try subst
          | rewrite (bool_decide_eq_false_2 _ Hs) in Hp; simpl in Hp; discriminate Hp ]
      end.

Ltac run_monad :=
  cbv [ran run bind ret raise try_except emit ask get_ctx put_ctx query write
       send_message callback_answer edit_reply_markup_quietly get_state set_state
       get_data set_data finish update_data proxy next dict_item stripped_text
       message_text];
  simpl.

Ltac unfold_handlers :=
  unfold send_welcome, help_command, new_lead, process_lead_name, process_lead_phone,
    process_lead_email, my_leads, new_task, process_task_title, process_task_client,
    process_task_due_date, process_task_description, process_task_assignee, my_tasks,
    cancel_handler, process_task_result, on_menu, on_mytasks, on_newtask, on_select_task,
    on_cancel_action, handle_assign_callback, prompt_for_assignee, list_tasks_for.

Ltac solve_inv :=
  repeat (case_match; simplify_eq/=); unfold ctx_inv; simpl; try done; try congruence.

(** ** Role policy *)

(** C6. [eligible_roles], the lookup [ROLE_ASSIGNMENT_MAP.get(role, [])],
    is the fixed table: project_head gives team_leader, team_leader gives
    region_manager, region_manager gives junior_manager, junior_manager
    gives nothing, and so do an absent role and every other role. *)
Theorem eligible_roles_is_fixed_table :
  eligible_roles (Some "project_head") = ["team_leader"] ∧
  eligible_roles (Some "team_leader") = ["region_manager"] ∧
  eligible_roles (Some "region_manager") = ["junior_manager"] ∧
  eligible_roles (Some "junior_manager") = [] ∧
  eligible_roles None = [] ∧
  ∀ r : string,
    r ≠ "project_head" → r ≠ "team_leader" → r ≠ "region_manager" →
    eligible_roles (Some r) = [].
Proof.
  repeat split; try reflexivity.
  intros r H1 H2 H3. unfold eligible_roles, ROLE_ASSIGNMENT_MAP.
  rewrite !lookup_insert_ne by done.
  destruct (decide (r = "junior_manager")) as [->|H4].
  - by rewrite lookup_insert_eq.
  - rewrite lookup_insert_ne by done. by rewrite lookup_empty.
Qed.

Lemma eligible_roles_unknown_witness : eligible_roles (Some "intern") = [].
Proof.
  destruct eligible_roles_is_fixed_table as (_ & _ & _ & _ & _ & H).
  apply H; discriminate.
Defined.

(** ** Task view: merge *)

Lemma filter_all_pass (P : task → Prop) `{∀ t, Decision (P t)} (l : list task) :
  Forall P l → filter P l = l.
Proof.
  induction 1 as [|t l Ht _ IH]; [done|].
  by rewrite filter_cons_True, IH.
Qed.

Lemma filter_swap (P Q : task → Prop) `{∀ t, Decision (P t)} `{∀ t, Decision (Q t)}
    (l : list task) :
  filter P (filter Q l) = filter Q (filter P l).
Proof.
  induction l as [|t l IH]; [done|].
  rewrite !filter_cons.
  destruct (decide (P t)), (decide (Q t));
    rewrite ?filter_cons_True, ?filter_cons_False by done; by rewrite IH.
Qed.

Lemma keep_first_filter (P : task → Prop) `{∀ t, Decision (P t)} (l : list task) :
  keep_first (filter P l) = filter P (keep_first l).
Proof.
  induction l as [|t l IH]; [done|].
  rewrite filter_cons. simpl. destruct (decide (P t)) as [Ht|Ht].
  - simpl. rewrite filter_cons_True by done. f_equal.
    rewrite IH. apply filter_swap.
  - rewrite filter_cons_False by done. rewrite IH.
    rewrite filter_swap. symmetry. apply filter_all_pass.
    apply Forall_forall. intros u [Hu _]%list_elem_of_filter. congruence.
Qed.

Lemma keep_first_elem_of (l : list task) (t : task) : t ∈ keep_first l ↔ t ∈ l.
Proof.
  induction l as [|u l IH]; [done|]. simpl.
  rewrite !elem_of_cons, list_elem_of_filter, IH.
  destruct (decide (t = u)); naive_solver.
Qed.

Lemma keep_first_NoDup (l : list task) : NoDup (keep_first l).
Proof.
  induction l as [|u l IH]; simpl; constructor.
  - rewrite list_elem_of_filter. naive_solver.
  - by apply NoDup_filter.
Qed.

Lemma keep_first_id (l : list task) : NoDup l → keep_first l = l.
Proof.
  induction 1 as [|t l Ht _ IH]; [done|]. simpl. rewrite IH. f_equal.
  apply filter_all_pass, Forall_forall. intros u Hu ->. done.
Qed.

(** The loop adds, after the records already collected, the first
    occurrence of every record that is not among them. *)
Lemma append_new_app (ts more : list task) :
  append_new ts more = ts ++ keep_first (filter (λ t, t ∉ ts) more).
Proof.
  revert ts. induction more as [|t more IH]; intros ts; simpl.
  { by rewrite app_nil_r. }
  rewrite IH, filter_cons. case_bool_decide as Hin.
  - by rewrite decide_False by (intros Hn; by apply Hn).
  - rewrite decide_True by done. simpl. rewrite <- app_assoc. simpl. do 2 f_equal.
    rewrite <- keep_first_filter, list_filter_filter. f_equal.
    apply list_filter_iff. intros u. rewrite elem_of_app, list_elem_of_singleton.
    naive_solver.
Qed.

Lemma keep_first_app (a b : list task) :
  keep_first (a ++ b) = keep_first a ++ keep_first (filter (λ t, t ∉ a) b).
Proof.
  induction a as [|t a IH]; simpl.
  { f_equal. symmetry. apply filter_all_pass, Forall_forall. intros u _. apply not_elem_of_nil. }
  f_equal. rewrite IH, filter_app. f_equal.
  rewrite <- keep_first_filter, list_filter_filter. f_equal.
  apply list_filter_iff. intros u. rewrite elem_of_cons. naive_solver.
Qed.

Lemma count_occ_app_absent (a b : list task) (t : task) :
  t ∉ b → count_occ task_eq_dec (a ++ b) t = count_occ task_eq_dec a t.
Proof.
  intros Hb. rewrite count_occ_app.
  assert (count_occ task_eq_dec b t = 0%nat) as ->; [|lia].
  apply count_occ_not_In. by rewrite <- list_elem_of_In.
Qed.

(** The merged list: the assigner records as they came, then the first
    occurrence of every assignee record that is not among them. *)
Lemma merge_tasks_app (assigner_data assignee_data : list task) :
  merge_tasks assigner_data assignee_data
  = assigner_data ++ keep_first (filter (λ t, t ∉ assigner_data) assignee_data).
Proof. unfold merge_tasks. simpl. apply append_new_app. Qed.

Lemma count_occ_once (l : list task) (t : task) :
  NoDup l → t ∈ l → count_occ task_eq_dec l t = 1%nat.
Proof.
  intros Hnd Hin.
  apply NoDup_count_occ' with (decA := task_eq_dec); [by apply NoDup_ListNoDup|].
  by apply list_elem_of_In.
Qed.

Lemma count_occ_absent (l : list task) (t : task) :
  t ∉ l → count_occ task_eq_dec l t = 0%nat.
Proof. intros Hin. apply count_occ_not_In. by rewrite <- list_elem_of_In. Qed.

Lemma merge_tasks_count (assigner_data assignee_data : list task) (t : task) :
  count_occ task_eq_dec (merge_tasks assigner_data assignee_data) t
  = if decide (t ∈ assigner_data) then count_occ task_eq_dec assigner_data t
    else if decide (t ∈ assignee_data) then 1%nat else 0%nat.
Proof.
  rewrite merge_tasks_app. destruct (decide (t ∈ assigner_data)) as [Ha|Ha].
  - apply count_occ_app_absent.
    rewrite keep_first_elem_of, list_elem_of_filter. naive_solver.
  - rewrite count_occ_app, (count_occ_absent assigner_data) by done. simpl.
    destruct (decide (t ∈ assignee_data)) as [Hb|Hb].
    + apply count_occ_once; [apply keep_first_NoDup|].
      rewrite keep_first_elem_of, list_elem_of_filter. done.
    + apply count_occ_absent.
      rewrite keep_first_elem_of, list_elem_of_filter. naive_solver.
Qed.

Lemma merge_tasks_dedup_iff (assigner_data assignee_data : list task) :
  (NoDup assigner_data
   ↔ merge_tasks assigner_data assignee_data = keep_first (assigner_data ++ assignee_data)) ∧
  (NoDup assigner_data ↔ NoDup (merge_tasks assigner_data assignee_data)).
Proof.
  rewrite merge_tasks_app.
  assert (NoDup assigner_data →
          assigner_data ++ keep_first (filter (λ t, t ∉ assigner_data) assignee_data)
          = keep_first (assigner_data ++ assignee_data)) as Heq.
  { intros Hnd. by rewrite keep_first_app, (keep_first_id assigner_data). }
  split; split.
  - done.
  - intros H. pose proof (keep_first_NoDup (assigner_data ++ assignee_data)) as Hnd.
    rewrite <- H in Hnd. by apply NoDup_app in Hnd as [? _].
  - intros Hnd. rewrite Heq by done. apply keep_first_NoDup.
  - by intros [? _]%NoDup_app.
Qed.

(** ** Task view: sort *)

Lemma ltb_irrefl (s : string) : String.ltb s s = false.
Proof.
  unfold String.ltb. pose proof (String.compare_antisym s s) as H.
  by destruct (String.compare s s).
Qed.

Lemma ltb_le (s1 s2 : string) : String.ltb s1 s2 = true → String.le s1 s2.
Proof.
  unfold String.le, String.leb, String.ltb. by destruct (String.compare s1 s2).
Qed.

Lemma not_ltb_le (s1 s2 : string) : String.ltb s1 s2 = false → String.le s2 s1.
Proof.
  unfold String.le, String.leb, String.ltb. rewrite (String.compare_antisym s1 s2).
  by destruct (String.compare s2 s1).
Qed.

Lemma empty_le (s : string) : String.le "" s.
Proof. by destruct s. Qed.

Lemma ltb_empty_r (s : string) : String.ltb s "" = false.
Proof. by destruct s. Qed.

Lemma ltb_empty_l (s : string) : s ≠ "" → String.ltb "" s = true.
Proof. by destruct s. Qed.

Lemma insert_by_due_perm (t : task) (l : list task) : insert_by_due t l ≡ₚ t :: l.
Proof.
  induction l as [|u l IH]; simpl; [done|].
  destruct (String.ltb _ _); [|done].
  rewrite IH. apply Permutation_swap.
Qed.

Lemma sort_by_due_perm (l : list task) : sort_by_due l ≡ₚ l.
Proof.
  induction l as [|t l IH]; simpl; [done|].
  by rewrite insert_by_due_perm, IH.
Qed.

Lemma insert_by_due_sorted (t : task) (l : list task) :
  StronglySorted due_le l → StronglySorted due_le (insert_by_due t l).
Proof.
  induction 1 as [|u l Hl IH Hu]; simpl.
  { repeat constructor. }
  destruct (String.ltb (due_key u) (due_key t)) eqn:Hlt.
  - constructor; [done|].
    apply Forall_forall. intros v Hv.
    apply (elem_of_Permutation_proper _ _ _ (insert_by_due_perm t l)) in Hv.
    apply elem_of_cons in Hv as [->|Hv].
    + by apply ltb_le.
    + by eapply Forall_forall in Hu.
  - constructor; [by constructor|].
    assert (due_le t u) as Htu by by apply not_ltb_le.
    constructor; [done|].
    eapply Forall_impl; [exact Hu|]. intros v Hv. unfold due_le in *. by etrans.
Qed.

Lemma sort_by_due_sorted (l : list task) : StronglySorted due_le (sort_by_due l).
Proof.
  induction l as [|t l IH]; simpl; [constructor|]. by apply insert_by_due_sorted.
Qed.

Lemma insert_by_due_filter_key (k : string) (t : task) (l : list task) :
  filter (λ u, due_key u = k) (insert_by_due t l)
  = filter (λ u, due_key u = k) (t :: l).
Proof.
  induction l as [|u l IH]; simpl; [done|].
  destruct (String.ltb (due_key u) (due_key t)) eqn:Hlt; [|done].
  assert (due_key u ≠ due_key t) as Hne.
  { intros Heq. rewrite Heq, ltb_irrefl in Hlt. done. }
  rewrite (filter_cons _ u), IH, !filter_cons.
  destruct (decide (due_key u = k)), (decide (due_key t = k)); congruence.
Qed.

Lemma sort_by_due_stable (k : string) (l : list task) :
  filter (λ u, due_key u = k) (sort_by_due l) = filter (λ u, due_key u = k) l.
Proof.
  induction l as [|t l IH]; simpl; [done|].
  by rewrite insert_by_due_filter_key, !filter_cons, IH.
Qed.

Lemma insert_by_due_first (t : task) (l : list task) :
  due_key t = "" → insert_by_due t l = t :: l.
Proof.
  intros Ht. destruct l as [|u l]; simpl; [done|]. by rewrite Ht, ltb_empty_r.
Qed.

Lemma insert_by_due_after_absent (t : task) (absent l : list task) :
  due_key t ≠ "" → Forall (λ u, due_key u = "") absent →
  insert_by_due t (absent ++ l) = absent ++ insert_by_due t l.
Proof.
  intros Ht. induction 1 as [|u absent Hu _ IH]; simpl; [done|].
  by rewrite Hu, ltb_empty_l, IH.
Qed.

Lemma sort_by_due_absent_first (l : list task) :
  sort_by_due l
  = filter (λ u, due_key u = "") l ++ sort_by_due (filter (λ u, due_key u ≠ "") l).
Proof.
  induction l as [|t l IH]; simpl; [done|].
  rewrite !filter_cons. destruct (decide (due_key t = "")) as [Ht|Ht].
  - rewrite decide_False by (intros Hn; by apply Hn).
    rewrite insert_by_due_first by done. simpl. by rewrite <- IH.
  - rewrite decide_True by done. simpl. rewrite IH.
    apply insert_by_due_after_absent; [done|].
    apply Forall_forall. by intros u [? _]%list_elem_of_filter.
Qed.

Lemma list_tasks_for_run w c (telegram_id : Z) (assigner_data assignee_data : list task) :
  w_tasks_by_assigner w telegram_id = Rows assigner_data →
  w_tasks_by_assignee w telegram_id = Rows assignee_data →
  run (list_tasks_for telegram_id) w c
  = (Return (sort_by_due (merge_tasks assigner_data assignee_data)), c,
     [SelectTasksByAssigner telegram_id; SelectTasksByAssignee telegram_id]).
Proof. intros Ha Hb. unfold list_tasks_for. run_monad. by rewrite Ha, Hb. Qed.

(** C4, as the code has it.  [list_tasks_for], the code shared by
    [my_tasks] and [on_mytasks], asks for the tasks of the assigner and for
    those of the assignee.  The merged list is the assigner records as they
    came, nothing removed, followed by the first occurrence of every
    assignee record that is not among them: only the assignee records are
    tested.  So a record of the assigner response appears as often as in
    that response, in the merged list and in the sorted list that is
    returned; a record returned by both queries appears once exactly when
    the assigner response holds it once; a record of the assignee response
    alone appears once.  The merged list is the concatenation deduplicated
    in order of first appearance if and only if the assigner response
    repeats no record. *)
Theorem list_tasks_for_keeps_assigner_rows
    w c (telegram_id : Z) (assigner_data assignee_data : list task) :
  w_tasks_by_assigner w telegram_id = Rows assigner_data →
  w_tasks_by_assignee w telegram_id = Rows assignee_data →
  let merged := merge_tasks assigner_data assignee_data in
  let count l t := count_occ task_eq_dec l t in
  run (list_tasks_for telegram_id) w c
    = (Return (sort_by_due merged), c,
       [SelectTasksByAssigner telegram_id; SelectTasksByAssignee telegram_id]) ∧
  merged = assigner_data ++ keep_first (filter (λ t, t ∉ assigner_data) assignee_data) ∧
  (∀ t, count (sort_by_due merged) t = count merged t) ∧
  (∀ t, t ∈ assigner_data → count merged t = count assigner_data t) ∧
  (∀ t, t ∉ assigner_data → t ∈ assignee_data → count merged t = 1%nat) ∧
  (NoDup assigner_data ↔ merged = keep_first (assigner_data ++ assignee_data)) ∧
  (NoDup assigner_data ↔ NoDup merged).
Proof.
  intros Ha Hb merged count.
  split; [by apply list_tasks_for_run|].
  split; [apply merge_tasks_app|].
  split.
  { intros t.
    exact (proj1 (Permutation_count_occ task_eq_dec _ _) (sort_by_due_perm merged) t). }
  split.
  { intros t Ht. subst count merged. cbv beta. rewrite merge_tasks_count.
    by rewrite decide_True. }
  split.
  { intros t Hta Htb. subst count merged. cbv beta. rewrite merge_tasks_count.
    by rewrite decide_False, decide_True. }
  apply merge_tasks_dedup_iff.
Qed.

Lemma list_tasks_for_keeps_assigner_rows_witness :
  count_occ task_eq_dec
    (sort_by_due (merge_tasks [task_jan; task_nodue] [task_jun; task_jan; task_jun])) task_jan
  = 1%nat.
Proof.
  pose (w := World (λ _, Rows []) (λ _, Rows []) (λ _, Failed) (λ _, Rows []) (λ _, Rows [])
               (λ _, Rows [task_jan; task_nodue]) (λ _, Rows [task_jun; task_jan; task_jun])
               (λ _, Rows None) (λ _, true) true true true "crm_bot").
  destruct (list_tasks_for_keeps_assigner_rows w empty_ctx 7
              [task_jan; task_nodue] [task_jun; task_jan; task_jun]
              eq_refl eq_refl) as (_ & _ & Hsort & Hcount & _).
  rewrite Hsort. rewrite Hcount by compute_done. reflexivity.
Defined.

(** C4, as the claim has it, fails: when the assigner query returns a
    record twice, the merged list holds it twice although the assignee
    query returns it too, and it is not the deduplicated concatenation. *)
Lemma repeated_assigner_row_stays_repeated :
  let w := World (λ _, Rows []) (λ _, Rows []) (λ _, Failed) (λ _, Rows []) (λ _, Rows [])
             (λ _, Rows [task_jan; task_jan]) (λ _, Rows [task_jan])
             (λ _, Rows None) (λ _, true) true true true "crm_bot" in
  (run (list_tasks_for 7) w empty_ctx).1.1 = Return [task_jan; task_jan] ∧
  merge_tasks [task_jan; task_jan] [task_jan] = [task_jan; task_jan] ∧
  keep_first ([task_jan; task_jan] ++ [task_jan]) = [task_jan].
Proof. vm_compute. done. Qed.

(** C5. [tasks.sort(key=lambda x: x.get('due_date') or '')] orders the
    merged list by ascending key, keeps the order of tasks with equal keys
    (the sort is stable) and neither loses nor adds a task; a task without
    due date has the empty key, below every other key, so these tasks come
    first, in their order of arrival, before the others.  Tasks due
    2025-01-01 10:00, 2024-06-01 09:00 and one without due date come out as:
    the task without due date, June 2024, January 2025. *)
Theorem sort_by_due_stable_ascending_absent_first (tasks : list task) :
  StronglySorted due_le (sort_by_due tasks) ∧
  sort_by_due tasks ≡ₚ tasks ∧
  (∀ k, filter (λ u, due_key u = k) (sort_by_due tasks) = filter (λ u, due_key u = k) tasks) ∧
  (∀ t u, t_due_date t = None → due_le t u) ∧
  sort_by_due tasks
    = filter (λ u, due_key u = "") tasks ++ sort_by_due (filter (λ u, due_key u ≠ "") tasks) ∧
  sort_by_due [task_jan; task_jun; task_nodue] = [task_nodue; task_jun; task_jan].
Proof.
  split; [apply sort_by_due_sorted|].
  split; [apply sort_by_due_perm|].
  split; [intros k; apply sort_by_due_stable|].
  split.
  { intros t u Ht. unfold due_le, due_key. rewrite Ht. apply empty_le. }
  split; [apply sort_by_due_absent_first|].
  reflexivity.
Qed.

Lemma sort_by_due_stable_ascending_absent_first_witness : due_le task_nodue task_jan.
Proof.
  destruct (sort_by_due_stable_ascending_absent_first [task_jan; task_jun; task_nodue])
    as (_ & _ & _ & H & _).
  apply H. reflexivity.
Defined.

(** ** Conversations: the invariant of the storage *)

(** Every handler, run on a conversation its filters accept, keeps
    [ctx_inv]: the ones that leave no state also reset the data. *)
Lemma message_handlers_inv :
  Forall (λ h, ∀ w m c, mh_passes w (fsm_state c) m h = Pass → ctx_inv c →
                        ctx_inv (run (mh_body h m) w c).1.2) message_handlers.
Proof.
  unfold message_handlers.
  repeat (apply List.Forall_cons); try apply List.Forall_nil; cbv beta;
  intros w [chat u content] [s d] Hp Hc; simpl in Hc; state_of Hp;
  unfold_handlers; run_monad; solve_inv.
Qed.

Lemma callback_handlers_inv :
  Forall (λ h, ∀ w q c, ch_passes (fsm_state c) q h = true → ctx_inv c →
                        ctx_inv (run (ch_body h q) w c).1.2) callback_handlers.
Proof.
  unfold callback_handlers.
  repeat (apply List.Forall_cons); try apply List.Forall_nil; cbv beta;
  intros w q [s d]; unfold ch_passes, state_passes; simpl;
  intros Hp Hc;
  try (apply andb_prop in Hp as [Hp _];
       apply bool_decide_eq_true in Hp; subst s);
  unfold_handlers; run_monad; solve_inv.
Qed.

Lemma first_passing_some {H} (check : H → verdict) (handlers : list H) (h : H) :
  first_passing check handlers = Return (Some h) → h ∈ handlers ∧ check h = Pass.
Proof.
  induction handlers as [|h' rest IH]; simpl; [done|].
  destruct (check h') eqn:E; [|rewrite elem_of_cons; naive_solver|done].
  intros [= ->]. split; [left|done].
Qed.

(** The handler reported for an event is one of the registered handlers,
    and the event passed its filters. *)
Lemma handled_message w m c id :
  by_handler (handle w (EMessage m) c) = Some id →
  ∃ h, h ∈ message_handlers ∧ mh_id h = id ∧ mh_passes w (fsm_state c) m h = Pass ∧
       handle w (EMessage m) c = ran id (run (mh_body h m) w c).
Proof.
  unfold handle.
  destruct (first_passing _ _) as [[h|]|] eqn:E; [|done..].
  apply first_passing_some in E as [Hin Hp]. simpl. intros [= <-]. by exists h.
Qed.

Lemma handled_callback w q c id :
  by_handler (handle w (ECallback q) c) = Some id →
  ∃ h, h ∈ callback_handlers ∧ ch_id h = id ∧ ch_passes (fsm_state c) q h = true ∧
       handle w (ECallback q) c = ran id (run (ch_body h q) w c).
Proof.
  unfold handle. destruct (List.find _ _) as [h|] eqn:E; [|done].
  apply find_some in E as [Hin Hp]. simpl. intros [= <-].
  exists h. by rewrite list_elem_of_In.
Qed.

Lemma handle_inv w ev c : ctx_inv c → ctx_inv (ctx_after (handle w ev c)).
Proof.
  intros Hc. destruct (by_handler (handle w ev c)) as [id|] eqn:E.
  - destruct ev as [m|q].
    + apply handled_message in E as (h & Hin & _ & Hp & ->). simpl.
      pose proof message_handlers_inv as H. rewrite Forall_forall in H. by apply H.
    + apply handled_callback in E as (h & Hin & _ & Hp & ->). simpl.
      pose proof callback_handlers_inv as H. rewrite Forall_forall in H. by apply H.
  - revert E. unfold handle. destruct ev; [destruct (first_passing _ _) as [[?|]|]|destruct (List.find _ _)]; simpl; try done.
Qed.

(** In every reachable storage a conversation without a state has no data. *)
Lemma reachable_inv storage :
  reachable storage → ∀ k, ctx_inv (current_ctx storage k).
Proof.
  induction 1 as [|w ev storage _ IH]; intros k.
  - unfold current_ctx. by rewrite lookup_empty.
  - unfold dispatch, current_ctx. simpl.
    destruct (decide (event_key ev = k)) as [<-|Hne].
    + rewrite lookup_insert_eq. simpl. apply handle_inv, IH.
    + rewrite lookup_insert_ne by done. apply IH.
Qed.

Lemma play_reachable w evs storage : reachable storage → reachable (play w evs storage).
Proof.
  revert storage. induction evs as [|ev evs IH]; intros storage H; simpl; [done|].
  apply IH. by constructor.
Qed.

(** ** Entering a dialog *)

(** [new_lead] and [new_task] only set the state: whatever data the
    context holds stays in it. *)
Lemma new_task_keeps_data w m c :
  (run (new_task m) w c).1.2 = Ctx (Some TaskForm_title) (fsm_data c).
Proof. unfold new_task. run_monad. by destruct (w_send_ok w). Qed.

Lemma new_lead_keeps_data w m c :
  (run (new_lead m) w c).1.2 = Ctx (Some LeadForm_name) (fsm_data c).
Proof. unfold new_lead. run_monad. by destruct (w_send_ok w). Qed.

(** [on_newtask] starts with [state.finish()]: on whatever context it
    runs, the data is empty when it ends. *)
Lemma on_newtask_clears_data w q c : fsm_data (run (on_newtask q) w c).1.2 = ∅.
Proof.
  unfold on_newtask. run_monad. destruct (w_answer_ok w); simpl; [|done].
  by destruct (w_send_ok w).
Qed.

(** The three handlers that start a dialog run only in a conversation
    without a state. *)
Lemma entry_handler_runs_idle w ev c id :
  by_handler (handle w ev c) = Some id → enters_dialog id →
  fsm_state c = None ∧
  ∃ body, handle w ev c = ran id (run body w c) ∧
    ((∃ m, id = h_new_lead ∧ body = new_lead m) ∨
     (∃ m, id = h_new_task ∧ body = new_task m) ∨
     (∃ q, id = h_on_newtask ∧ body = on_newtask q)).
Proof.
  intros E Hid. destruct ev as [m|q].
  - apply handled_message in E as (h & Hin & Hh & Hp & ->).
    unfold message_handlers in Hin. rewrite !elem_of_cons, elem_of_nil in Hin.
    destruct Hid as [->| [->| ->]];
      repeat (destruct Hin as [->|Hin]; simpl in Hh; try discriminate Hh); try done.
    all: state_of Hp.
    all: split; [done|]; eexists; split; [done|]; eauto.
  - apply handled_callback in E as (h & Hin & Hh & Hp & ->).
    unfold callback_handlers in Hin. rewrite !elem_of_cons, elem_of_nil in Hin.
    destruct Hid as [->| [->| ->]];
      repeat (destruct Hin as [->|Hin]; simpl in Hh; try discriminate Hh); try done.
    all: state_of Hp.
    all: split; [done|]; eexists; split; [done|]; eauto 10.
Qed.

(** When a dialog does start, it starts from an empty scratch: in every
    storage the bot can reach, an event taken by [new_lead], [new_task] or
    [on_newtask] finds a conversation without state and without data, and
    leaves the data empty for the first step. *)
Lemma dialog_started_from_idle_has_clear_scratch w ev storage :
  reachable storage →
  let before := current_ctx storage (event_key ev) in
  let r := (dispatch w ev storage).2 in
  ∀ id, by_handler r = Some id → enters_dialog id →
    fsm_state before = None ∧ fsm_data before = ∅ ∧
    fsm_data (ctx_after r) = ∅ ∧
    current_ctx (dispatch w ev storage).1 (event_key ev) = ctx_after r ∧
    (id = h_new_lead → fsm_state (ctx_after r) = Some LeadForm_name) ∧
    (id = h_new_task → fsm_state (ctx_after r) = Some TaskForm_title) ∧
    (id = h_on_newtask → w_answer_ok w = true → fsm_state (ctx_after r) = Some TaskForm_title).
Proof.
  intros Hreach before r id E Hid. subst r. unfold dispatch in *. simpl in *.
  pose proof (reachable_inv _ Hreach (event_key ev)) as Hinv. fold before in Hinv, E |- *.
  destruct (entry_handler_runs_idle _ _ _ _ E Hid) as (Hs & body & -> & Hbody).
  specialize (Hinv Hs). destruct before as [s d]. simpl in *. subst s d.
  split; [done|]. split; [done|].
  split; [|split].
  - destruct Hbody as [(m & -> & ->)|[(m & -> & ->)|(q & -> & ->)]];
      unfold_handlers; run_monad; repeat (case_match; simplify_eq/=); done.
  - unfold current_ctx. by rewrite lookup_insert_eq.
  - destruct Hbody as [(m & -> & ->)|[(m & -> & ->)|(q & -> & ->)]];
      unfold_handlers; run_monad; repeat split; intros; try done;
      repeat case_match; simplify_eq/=; try done; congruence.
Qed.

(** C1, on the code.  While a dialog is unfinished, none of the three ways
    into a dialog clears the scratch or starts a dialog.  The press of the
    [newtask] button is taken by no handler: [on_newtask], whose first
    statement is [state.finish()] and which would leave the data empty, is
    registered without a state and so does not run; no call is made and
    the state and the data stay as they were.  A text sent at a step of
    Lead Capture or Task Creation is taken by the handler of that step,
    and so are [/newlead] and [/newtask] at every step, the awaited result
    included: they are the input of the step, not the start of a dialog.
    [new_lead] and [new_task] themselves clear nothing: run on any
    context, they leave its data as it is. *)
Theorem entry_during_dialog_clears_nothing w c s :
  fsm_state c = Some s →
  (∀ q, cb_data q = "newtask" →
     handle w (ECallback q) c = ignored c ∧
     fsm_data (run (on_newtask q) w c).1.2 = ∅) ∧
  (∀ m t, msg_content m = CText t → s ≠ TaskResultForm_awaiting_result →
     by_handler (handle w (EMessage m) c) = Some (step_handler s)) ∧
  (∀ chat u t, t = "/newlead" ∨ t = "/newtask" →
     by_handler (handle w (text_from chat u t) c) = Some (step_handler s)) ∧
  ¬ enters_dialog (step_handler s) ∧
  (∀ m, fsm_data (run (new_lead m) w c).1.2 = fsm_data c ∧
        fsm_data (run (new_task m) w c).1.2 = fsm_data c).
Proof.
  intros Hs. split; [|split; [|split; [|split]]].
  - intros q Hq. split; [|apply on_newtask_clears_data].
    destruct c as [s' d], q as [chat mid uid data]. simpl in *. subst. by destruct s.
  - destruct c as [s' d]. intros [chat u content] t. simpl in *. intros -> Hne. subst.
    destruct s; try done; by pick_handler.
  - destruct c as [s' d]. simpl in *. subst.
    intros chat u t [-> | ->]; destruct s; by pick_handler.
  - unfold enters_dialog. destruct s; naive_solver.
  - intros m. by rewrite new_lead_keeps_data, new_task_keeps_data.
Qed.

(** The user of a chat picks task 7, presses [newtask] and types the title
    of the new task: the press changes nothing, and the title is written
    to task 7 as its result. *)
Lemma entry_during_dialog_clears_nothing_witness :
  let c := Ctx (Some TaskResultForm_awaiting_result) {[ "task_id" := Some "7" ]} in
  handle calm (button_press 1 5 "newtask") c = ignored c ∧
  calls (handle calm (text_message 1 5 "Buy milk") c)
  = [UpdateTaskResult "7" "Buy milk";
     SendMessage 1 result_attached_notice result_keyboard].
Proof.
  intros c.
  destruct (entry_during_dialog_clears_nothing calm c TaskResultForm_awaiting_result eq_refl)
    as (H & _).
  split; [exact (proj1 (H (Callback 1 1 5 "newtask") eq_refl))|].
  vm_compute. reflexivity.
Defined.

(** A command sent in the middle of a dialog does not start another one:
    it is the input of the current step, and what was entered before it
    stays in the data. *)
Lemma newtask_mid_dialog_is_step_input :
  current_ctx (play calm [text_message 1 1 "/newlead"; text_message 1 1 "Anna";
                          text_message 1 1 "/newtask"] ∅) (1, 1)
  = Ctx (Some LeadForm_email) (<["phone" := Some "/newtask"]> (<["name" := Some "Anna"]> ∅)).
Proof. vm_compute. reflexivity. Qed.

(** ** Task Creation: the title step *)

(** C9, as the code has it.  The title step makes no check: for every text
    message it stores the trimmed text under ["title"], empty or not, moves
    to the client step and asks for the client. *)
Theorem title_step_accepts_any_text w c m t :
  fsm_state c = Some TaskForm_title → msg_content m = CText t →
  let r := handle w (EMessage m) c in
  by_handler r = Some h_process_task_title ∧
  fsm_state (ctx_after r) = Some TaskForm_client ∧
  fsm_data (ctx_after r) = <["title" := Some (Py.strip t)]> (fsm_data c) ∧
  calls r = [SendMessage (chat_id m) client_prompt get_main_menu].
Proof.
  destruct c as [s d], m as [chat u content]. simpl. intros -> ->.
  pick_handler. split; [done|].
  unfold_handlers. run_monad. by destruct (w_send_ok w).
Qed.

Lemma title_step_accepts_any_text_witness :
  fsm_data (ctx_after (handle calm (text_message 1 1 " Fix bug ") (Ctx (Some TaskForm_title) ∅)))
  = <["title" := Some "Fix bug"]> ∅.
Proof.
  destruct (title_step_accepts_any_text calm (Ctx (Some TaskForm_title) ∅)
              (Message 1 (User 1 None None None) (CText " Fix bug ")) " Fix bug "
              eq_refl eq_refl) as (_ & _ & H & _).
  exact H.
Defined.

(** C9, as the claim has it, fails: a text of three spaces has an empty
    trimmed text, and the dialog moves to the client step with the empty
    title stored. *)
Lemma blank_title_is_stored :
  let r := handle calm (text_message 1 1 "   ") (Ctx (Some TaskForm_title) ∅) in
  Py.strip "   " = "" ∧
  fsm_state (ctx_after r) = Some TaskForm_client ∧
  fsm_data (ctx_after r) !! "title" = Some (Some "").
Proof. vm_compute. done. Qed.

(** ** Task Creation: the due date step *)

(** C3. At the due date step, a text that [strptime] rejects leaves the
    context as it was (same step, same data, so title and client are
    untouched) and the only call is the message with the format notice: no
    call to the store; a text that [strptime] reads is stored in ISO form
    under ["due_date"] and the dialog moves to the description step. *)
Theorem due_date_step_validates w c m t :
  fsm_state c = Some TaskForm_due_date → msg_content m = CText t →
  let r := handle w (EMessage m) c in
  by_handler r = Some h_process_task_due_date ∧
  match Datetime.strptime (Py.strip t) with
  | None =>
      ctx_after r = c ∧
      calls r = [SendMessage (chat_id m) bad_date_notice NoMarkup]
  | Some dt =>
      fsm_state (ctx_after r) = Some TaskForm_description ∧
      fsm_data (ctx_after r) = <["due_date" := Some (Datetime.isoformat dt)]> (fsm_data c) ∧
      calls r = [SendMessage (chat_id m) description_prompt get_main_menu]
  end.
Proof.
  destruct c as [s d], m as [chat u content]. simpl. intros -> ->.
  pick_handler. split; [done|].
  unfold_handlers. run_monad.
  destruct (Datetime.strptime (Py.strip t)); simpl; by destruct (w_send_ok w).
Qed.

Lemma due_date_step_validates_witness :
  let c := Ctx (Some TaskForm_due_date) (<["client" := None]> (<["title" := Some "Fix bug"]> ∅)) in
  ctx_after (handle calm (text_message 1 1 "31-12-2025") c) = c.
Proof.
  intros c.
  pose proof (due_date_step_validates calm c
                (Message 1 (User 1 None None None) (CText "31-12-2025")) "31-12-2025"
                eq_refl eq_refl) as [_ H].
  change (Datetime.strptime (Py.strip "31-12-2025")) with (@None Datetime.datetime) in H.
  exact (proj1 H).
Defined.

(** ** Task Creation: the assignee step, free text *)

(** What the step does with every text, [input] being the trimmed text.
    When [input.isdigit()] holds no profile is looked up: [int(input)] is
    the assignee, the sender for ["0"]; when [int] rejects the text, the
    handler ends on the [ValueError].  Otherwise the profiles are searched
    by name, and a task is inserted when the search returns one profile
    that has an identity; with no profile, several, one without identity
    or a failed search, the only calls are the search and the message
    asking again, and the context is unchanged.  The inserted row holds
    the four fields of the data, the status, the sender as assigner and
    the assignee. *)
Lemma assignee_step_free_text w c m t :
  fsm_state c = Some TaskForm_assignee → msg_content m = CText t →
  let input := Py.strip t in
  let assigner := u_id (from_user m) in
  let r := handle w (EMessage m) c in
  let get k := fsm_data c !! k ≫= id in
  let insert assignee :=
    InsertTask (TaskInsert (get "title") (get "client") (get "due_date") (get "description")
                           "Выполняется" assigner assignee) in
  let added := SendMessage (chat_id m) task_added_notice get_main_menu in
  let asked := SendMessage (chat_id m) assignee_unresolved_notice get_main_menu in
  by_handler r = Some h_process_task_assignee ∧
  (Py.isdigit input = true →
     match Py.int input with
     | Some n =>
         let assignee := if decide (input = "0") then assigner else n in
         if w_write_ok w (insert assignee)
         then calls r = [insert assignee; added] ∧ ctx_after r = empty_ctx
         else calls r = [insert assignee] ∧ ctx_after r = c
     | None => ended r = Raise ∧ calls r = [] ∧ ctx_after r = c
     end) ∧
  (Py.isdigit input = false →
     match match w_profiles_ilike w input with Rows found => found | Failed => [] end with
     | [Profile _ (Some assignee) _] =>
         if w_write_ok w (insert assignee)
         then calls r = [SelectProfilesIlike input; insert assignee; added]
              ∧ ctx_after r = empty_ctx
         else calls r = [SelectProfilesIlike input; insert assignee] ∧ ctx_after r = c
     | _ => calls r = [SelectProfilesIlike input; asked] ∧ ctx_after r = c
     end).
Proof.
  destruct c as [s d], m as [chat u content]. simpl. intros -> ->.
  pick_handler. split; [done|].
  unfold_handlers. run_monad. unfold task_row, dict_get. split.
  - intros Hd. rewrite Hd. simpl.
    destruct (decide (Py.strip t = "0")) as [H0|H0].
    + rewrite H0. simpl. change (Py.int "0") with (Some 0). simpl.
      by destruct (w_write_ok w _), (w_send_ok w).
    + assert (Py.strip t ≠ "") as H1 by (intros E; by rewrite E in Hd).
      assert (Py.strip t ≠ "-") as H2 by (intros E; by rewrite E in Hd).
      rewrite !bool_decide_eq_true_2 by done. simpl.
      destruct (Py.int (Py.strip t)); simpl; [|done].
      by destruct (w_write_ok w _), (w_send_ok w).
  - intros Hd. rewrite Hd.
    assert (Py.strip t ≠ "0") as H0 by (intros E; by rewrite E in Hd).
    rewrite bool_decide_eq_false_2 by done. simpl.
    destruct (w_profiles_ilike w (Py.strip t)) as [[|[name [id|] role] [|p' found]]|]; simpl;
      try by destruct (w_send_ok w).
    by destruct (w_write_ok w _), (w_send_ok w).
Qed.

(** A number typed at the step is the assignee, without any lookup. *)
Lemma assignee_step_number :
  calls (handle calm (text_message 1 5 " 42 ") (Ctx (Some TaskForm_assignee) ∅))
  = [InsertTask (TaskInsert None None None None "Выполняется" 5 42);
     SendMessage 1 task_added_notice get_main_menu].
Proof. vm_compute. reflexivity. Qed.

(** So is a number written with the digits of another script. *)
Lemma assignee_step_number_of_another_script :
  calls (handle calm (text_message 1 5 "٣") (Ctx (Some TaskForm_assignee) ∅))
  = [InsertTask (TaskInsert None None None None "Выполняется" 5 3);
     SendMessage 1 task_added_notice get_main_menu].
Proof. vm_compute. reflexivity. Qed.

(** One profile found by name, but without identity: the step asks again. *)
Lemma assignee_step_profile_without_identity :
  let w := World (λ _, Rows []) (λ _, Rows []) (λ _, Failed) (λ _, Rows [])
             (λ _, Rows [Profile (Some "Ivan Petrov") None None])
             (λ _, Rows []) (λ _, Rows []) (λ _, Rows None) (λ _, true) true true true
             "crm_bot" in
  calls (handle w (text_message 1 5 "ivan petrov") (Ctx (Some TaskForm_assignee) ∅))
  = [SelectProfilesIlike "ivan petrov";
     SendMessage 1 assignee_unresolved_notice get_main_menu].
Proof. vm_compute. reflexivity. Qed.

(** C2, on the code.  At the assignee step, a text that [isdigit] accepts
    goes to [int] unguarded, and [isdigit] accepts characters that [int]
    does not read (superscript and circled digits): for such a text the
    handler ends on the [ValueError].  No task is inserted, no profile is
    looked up, no message asks again, and the conversation stays at the
    assignee step with its data. *)
Theorem assignee_step_digit_that_int_rejects w c m t :
  fsm_state c = Some TaskForm_assignee → msg_content m = CText t →
  Py.isdigit (Py.strip t) = true → Py.int (Py.strip t) = None →
  handle w (EMessage m) c = Handled (Some h_process_task_assignee) Raise c [].
Proof.
  destruct c as [s d], m as [chat u content]. simpl. intros -> -> Hd Hi.
  pick_handler. unfold_handlers. run_monad. rewrite Hd. simpl.
  assert (Py.strip t ≠ "") as H1 by (intros E; by rewrite E in Hd).
  assert (Py.strip t ≠ "0") as H0 by (intros E; by rewrite E in Hi).
  assert (Py.strip t ≠ "-") as H2 by (intros E; by rewrite E in Hd).
  rewrite !bool_decide_eq_true_2 by done. simpl. by rewrite Hi.
Qed.

Lemma assignee_step_digit_that_int_rejects_witness :
  let c := Ctx (Some TaskForm_assignee) {[ "title" := Some "Fix bug" ]} in
  handle calm (text_message 1 5 "²") c = Handled (Some h_process_task_assignee) Raise c [].
Proof.
  intros c.
  apply (assignee_step_digit_that_int_rejects calm c
           (Message 1 (User 5 None None None) (CText "²")) "²"); reflexivity.
Defined.

(** ** Task Creation: the assignee step, buttons *)

Lemma after_colon_assign code : Py.after_colon ("assign:" +:+ code) = Some code.
Proof. reflexivity. Qed.

(** C10. At the assignee step, a button press whose data is ["assign:"]
    followed by a code that is neither ["self"] nor readable by [int]
    still inserts the task, with the presser as assignee: after the
    acknowledgement the next call is the insert of a row whose assigner and
    assignee are both the presser, no other call reaches the store, and
    when the insert succeeds the dialog is finished and the confirmation is
    sent; no notice of an error, no new prompt. *)
Theorem assign_button_unparsable_code_falls_back_to_self w c q code :
  fsm_state c = Some TaskForm_assignee →
  cb_data q = "assign:" +:+ code →
  code ≠ "self" → Py.int code = None →
  let r := handle w (ECallback q) c in
  let get k := fsm_data c !! k ≫= id in
  let row := TaskInsert (get "title") (get "client") (get "due_date") (get "description")
                        "Выполняется" (cb_from_user_id q) (cb_from_user_id q) in
  by_handler r = Some h_handle_assign_callback ∧
  (w_answer_ok w = true →
     ∃ rest, calls r = AnswerCallback :: InsertTask row :: rest ∧
       Forall (λ e, is_store_call e = false) rest ∧
       (w_write_ok w (InsertTask row) = true →
          ctx_after r = empty_ctx ∧
          rest = [EditReplyMarkup (cb_chat_id q) (cb_message_id q);
                  SendMessage (cb_chat_id q) task_added_notice get_main_menu])).
Proof.
  destruct c as [s d], q as [chat mid uid data]. simpl. intros -> -> Hself Hint.
  cbv [String.append]. pick_handler. split; [done|]. intros Hans.
  unfold_handlers. run_monad. rewrite Hans. simpl.
  rewrite bool_decide_eq_false_2 by done. rewrite Hint. unfold task_row, dict_get.
  destruct (w_write_ok w _) eqn:Hw; simpl.
  - eexists. split; [|split].
    + destruct (w_edit_ok w), (w_send_ok w); simpl; reflexivity.
    + repeat constructor.
    + intros _. by destruct (w_edit_ok w), (w_send_ok w).
  - exists []. split; [done|]. split; [constructor|]. done.
Qed.

Lemma assign_button_unparsable_code_falls_back_to_self_witness :
  calls (handle calm (button_press 1 5 "assign:abc") (Ctx (Some TaskForm_assignee) ∅))
  = [AnswerCallback; InsertTask (TaskInsert None None None None "Выполняется" 5 5);
     EditReplyMarkup 1 1; SendMessage 1 task_added_notice get_main_menu].
Proof.
  destruct (assign_button_unparsable_code_falls_back_to_self calm
              (Ctx (Some TaskForm_assignee) ∅) (Callback 1 1 5 "assign:abc") "abc"
              eq_refl eq_refl) as [_ H].
  - discriminate.
  - reflexivity.
  - destruct (H eq_refl) as (rest & Hcalls & _ & Hrest).
    destruct (Hrest eq_refl) as [_ ->]. exact Hcalls.
Defined.

(** A code made of a separator character and a digit is not read by
    [int], although [strip] would remove the separator: the task goes to
    the presser. *)
Lemma assign_button_separator_code :
  Py.int (String (ascii_of_N 28) "7") = None ∧ Py.strip (String (ascii_of_N 28) "7") = "7".
Proof. vm_compute. done. Qed.

(** ** Assignee resolver *)

(** Reading back what [str] printed. *)
Lemma int_of_string_str (a : Z) : NilZero.int_of_string (Py.str a) = Some (Z.to_int a).
Proof.
  unfold Py.str. apply NilZero.isi.
  - destruct a; simpl; try discriminate; intros [= E]; by apply Unsigned.to_uint_nonnil in E.
  - destruct a; simpl; try discriminate; intros [= E]; by apply Unsigned.to_uint_nonnil in E.
Qed.

Lemma str_inj (a b : Z) : Py.str a = Py.str b → a = b.
Proof.
  intros H. apply DecimalZ.to_int_inj.
  apply (f_equal NilZero.int_of_string) in H.
  rewrite !int_of_string_str in H. congruence.
Qed.

Lemma str_or_none_inj (a b : option Z) : Py.str_or_none a = Py.str_or_none b → a = b.
Proof.
  destruct a as [a|], b as [b|]; simpl; intros H; [by apply str_inj in H as ->|..|done].
  - apply (f_equal NilZero.int_of_string) in H. by rewrite int_of_string_str in H.
  - apply (f_equal NilZero.int_of_string) in H. by rewrite int_of_string_str in H.
Qed.

Lemma assignee_buttons_skip_assigner (assigner_id : Z) (assignees : list profile) :
  Forall (λ b, btn_callback_data b ≠ "assign:" +:+ Py.str assigner_id)
         (assignee_buttons assigner_id assignees).
Proof.
  induction assignees as [|a rest IH]; simpl; [constructor|].
  case_bool_decide as Ha; [done|]. constructor; [|done]. simpl.
  intros E. apply Ha, (str_or_none_inj _ (Some assigner_id)). by simplify_eq/=.
Qed.

Lemma assignee_buttons_candidates (assigner_id : Z) (assignees : list profile) :
  btn_callback_data <$> assignee_buttons assigner_id assignees
  = (λ a, "assign:" +:+ Py.str_or_none (p_telegram_id a))
      <$> filter (λ a, p_telegram_id a ≠ Some assigner_id) assignees.
Proof.
  induction assignees as [|a rest IH]; simpl; [done|].
  rewrite filter_cons. case_bool_decide as Ha.
  - by rewrite decide_False by (intros Hn; by apply Hn).
  - rewrite decide_True by done. csimpl. by rewrite <- IH.
Qed.
Lemma prompt_for_assignee_run w c chat assigner_id :
  let roles := eligible_roles (found_role w assigner_id) in
  run (prompt_for_assignee chat assigner_id) w c
  = (if w_send_ok w then Return () else Raise, c,
     role_queries assigner_id roles ++
     [SendMessage chat assignee_prompt
        (InlineKeyboard (self_button :: assignee_buttons assigner_id (fetched_profiles w roles)))]).
Proof.
  unfold prompt_for_assignee, found_role, fetched_profiles, role_queries. run_monad.
  destruct (w_profile_single w assigner_id) as [found|]; simpl.
  - destruct (eligible_roles _) as [|r0 roles]; simpl; [by destruct (w_send_ok w)|].
    destruct (w_profiles_in_roles w (r0 :: roles)); simpl; by destruct (w_send_ok w).
  - by destruct (w_send_ok w).
Qed.

(** The first button, pressed at the assignee step, assigns the task to
    the user who pressed it. *)
Lemma self_button_assigns_presser w c q :
  fsm_state c = Some TaskForm_assignee →
  cb_data q = btn_callback_data self_button →
  w_answer_ok w = true →
  ∃ rest, calls (handle w (ECallback q) c)
          = AnswerCallback ::
            InsertTask (task_row (fsm_data c) (cb_from_user_id q) (cb_from_user_id q)) :: rest.
Proof.
  destruct c as [s d], q as [chat mid uid data]. simpl. intros -> -> Hans.
  pick_handler. unfold_handlers. run_monad. rewrite Hans. simpl.
  destruct (w_write_ok w _); simpl; [|by eexists].
  destruct (w_edit_ok w), (w_send_ok w); simpl; by eexists.
Qed.

(** C8. [prompt_for_assignee] never raises on a lookup: whatever the two
    profile queries answer, it reaches the message with the keyboard, does
    not touch the context, and ends normally unless sending fails.  The
    keyboard starts with the "assign to self" button; the other buttons are
    those of the fetched profiles without the assigner (a profile without
    identity is kept, its button carries [None]), so none of them carries
    the assigner's identity.  A failed role lookup gives no eligible
    role and no other button; a failed candidate query gives no other
    button. *)
Theorem prompt_for_assignee_never_fails w c chat assigner_id :
  let roles := eligible_roles (found_role w assigner_id) in
  let fetched := fetched_profiles w roles in
  let others := assignee_buttons assigner_id fetched in
  let r := run (prompt_for_assignee chat assigner_id) w c in
  r.2 = role_queries assigner_id roles ++
        [SendMessage chat assignee_prompt (InlineKeyboard (self_button :: others))] ∧
  r.1.2 = c ∧
  r.1.1 = (if w_send_ok w then Return () else Raise) ∧
  Forall (λ b, btn_callback_data b ≠ "assign:" +:+ Py.str assigner_id) others ∧
  btn_callback_data <$> others
    = (λ a, "assign:" +:+ Py.str_or_none (p_telegram_id a))
        <$> filter (λ a, p_telegram_id a ≠ Some assigner_id) fetched ∧
  (w_profile_single w assigner_id = Failed → roles = [] ∧ others = []) ∧
  (w_profiles_in_roles w roles = Failed → others = []).
Proof.
  intros roles fetched others r. subst r. rewrite prompt_for_assignee_run. simpl.
  split; [done|]. split; [done|]. split; [done|].
  split; [apply assignee_buttons_skip_assigner|].
  split; [apply assignee_buttons_candidates|].
  split.
  - intros Hf. subst others fetched roles. unfold found_role. by rewrite Hf.
  - intros Hf. subst others fetched. unfold fetched_profiles. rewrite Hf. by destruct roles.
Qed.

Lemma prompt_for_assignee_never_fails_witness :
  (run (prompt_for_assignee 1 5) calm empty_ctx).2
  = [SelectProfileSingle 5; SendMessage 1 assignee_prompt (InlineKeyboard [self_button])].
Proof.
  destruct (prompt_for_assignee_never_fails calm empty_ctx 1 5) as (H & _ & _ & _ & _ & Hf & _).
  destruct (Hf eq_refl) as [Hroles Hothers].
  rewrite H. cbv zeta in Hroles, Hothers. rewrite Hothers, Hroles. reflexivity.
Defined.

(** ** Cancellation *)

(** What [cancel_handler] does once it runs: nothing at all without a
    state, otherwise the context is reset and the notice is sent. *)
Lemma cancel_handler_run w c m :
  run (cancel_handler m) w c
  = match fsm_state c with
    | None => (Return (), c, [])
    | Some _ => (if w_send_ok w then Return () else Raise, empty_ctx,
                 [SendMessage (chat_id m) cancelled_notice ReplyKeyboardRemove])
    end.
Proof.
  unfold cancel_handler. run_monad. destruct (fsm_state c); [|done].
  simpl. by destruct (w_send_ok w).
Qed.

Lemma cancel_handler_when_it_runs w m c :
  let r := handle w (EMessage m) c in
  by_handler r = Some h_cancel_handler →
  match fsm_state c with
  | None => ended r = Return () ∧ ctx_after r = c ∧ calls r = []
  | Some _ => ctx_after r = empty_ctx ∧
              calls r = [SendMessage (chat_id m) cancelled_notice ReplyKeyboardRemove]
  end.
Proof.
  intros r E. subst r. apply handled_message in E as (h & Hin & Hh & _ & ->).
  unfold message_handlers in Hin. rewrite !elem_of_cons, elem_of_nil in Hin.
  repeat (destruct Hin as [->|Hin]; simpl in Hh; try discriminate Hh); try done.
  all: unfold ran; simpl; rewrite cancel_handler_run; by destruct (fsm_state c).
Qed.

(** At the steps of Lead Capture and Task Creation no message reaches
    [cancel_handler]: the handler of the step is registered before it. *)
Lemma cancel_never_reaches_form_steps w m c s :
  fsm_state c = Some s → s ≠ TaskResultForm_awaiting_result →
  by_handler (handle w (EMessage m) c) ≠ Some h_cancel_handler.
Proof.
  destruct c as [s' d], m as [chat u content]. simpl. intros -> Hs.
  destruct s, content; try done; pick_handler; done.
Qed.

(** C7, on the code.  A conversation at the name step of Lead Capture
    receives [/cancel]: the message goes to [process_lead_name], registered
    before [cancel_handler], which stores the text as the name of the lead
    and moves to the phone step; nothing is cleared. *)
Theorem cancel_in_lead_dialog_is_stored_as_name :
  let r := handle calm (text_message 1 1 "/cancel") (Ctx (Some LeadForm_name) ∅) in
  by_handler r = Some h_process_lead_name ∧
  ctx_after r = Ctx (Some LeadForm_phone) {[ "name" := Some "/cancel" ]} ∧
  calls r = [SendMessage 1 (Literal "Введите номер телефона:") get_main_menu].
Proof. vm_compute. done. Qed.

(** [process_task_result] is registered after [cancel_handler]: while a
    result is awaited, cancelling resets the context. *)
Lemma cancel_works_while_awaiting_result :
  let c := Ctx (Some TaskResultForm_awaiting_result) {[ "task_id" := Some "7" ]} in
  ctx_after (handle calm (text_message 1 1 "/cancel") c) = empty_ctx ∧
  ctx_after (handle calm (text_message 1 1 "Cancel") c) = empty_ctx.
Proof. vm_compute. done. Qed.

(** Without an active dialog, cancelling sends nothing and changes nothing. *)
Lemma cancel_when_idle_is_silent :
  handle calm (text_message 1 1 "/cancel") empty_ctx
    = Handled (Some h_cancel_handler) (Return ()) empty_ctx [] ∧
  handle calm (text_message 1 1 "CANCEL") empty_ctx
    = Handled (Some h_cancel_handler) (Return ()) empty_ctx [].
Proof. vm_compute. done. Qed.

(** * Further properties *)

(** ** What the data holds at each step *)

Ltac solve_stage :=
  repeat (case_match; simplify_eq/=); unfold stage_inv, filled, present in *; simpl in *;
  try done; try (destruct_and?; repeat split; simplify_map_eq; by eauto).

Lemma message_handlers_stage :
  Forall (λ h, ∀ w m c, mh_passes w (fsm_state c) m h = Pass → stage_inv c →
                        stage_inv (run (mh_body h m) w c).1.2) message_handlers.
Proof.
  unfold message_handlers.
  repeat (apply List.Forall_cons); try apply List.Forall_nil; cbv beta;
  intros w [chat u content] [s d] Hp Hc; simpl in Hc; state_of Hp;
  unfold_handlers; run_monad; solve_stage.
Qed.

Lemma callback_handlers_stage :
  Forall (λ h, ∀ w q c, ch_passes (fsm_state c) q h = true → stage_inv c →
                        stage_inv (run (ch_body h q) w c).1.2) callback_handlers.
Proof.
  unfold callback_handlers.
  repeat (apply List.Forall_cons); try apply List.Forall_nil; cbv beta;
  intros w q [s d]; unfold ch_passes, state_passes; simpl;
  intros Hp Hc;
  try (apply andb_prop in Hp as [Hp _];
       apply bool_decide_eq_true in Hp; subst s);
  unfold_handlers; run_monad; solve_stage.
Qed.

Lemma handle_stage w ev c : stage_inv c → stage_inv (ctx_after (handle w ev c)).
Proof.
  intros Hc. destruct (by_handler (handle w ev c)) as [id|] eqn:E.
  - destruct ev as [m|q].
    + apply handled_message in E as (h & Hin & _ & Hp & ->). simpl.
      pose proof message_handlers_stage as H. rewrite Forall_forall in H. by apply H.
    + apply handled_callback in E as (h & Hin & _ & Hp & ->). simpl.
      pose proof callback_handlers_stage as H. rewrite Forall_forall in H. by apply H.
  - revert E. unfold handle. destruct ev; [destruct (first_passing _ _) as [[?|]|]|destruct (List.find _ _)]; simpl; try done.
Qed.

(** X1. In every storage the bot can reach, the data of a conversation
    holds the fields of all the steps before its current one: at the e-mail
    step the name and the phone, at the assignee step the title, the client,
    the due date and the description, while a result is awaited the task
    id; without a state the data is empty. *)
Theorem reachable_stage storage :
  reachable storage → ∀ k, stage_inv (current_ctx storage k).
Proof.
  induction 1 as [|w ev storage _ IH]; intros k.
  - unfold current_ctx. by rewrite lookup_empty.
  - unfold dispatch, current_ctx. simpl.
    destruct (decide (event_key ev = k)) as [<-|Hne].
    + rewrite lookup_insert_eq. simpl. apply handle_stage, IH.
    + rewrite lookup_insert_ne by done. apply IH.
Qed.

Lemma reachable_stage_witness :
  stage_inv (current_ctx (play calm [text_message 1 1 "/newlead"; text_message 1 1 "Anna"] ∅) (1, 1)).
Proof.
  apply (reachable_stage (play calm [text_message 1 1 "/newlead"; text_message 1 1 "Anna"] ∅)).
  apply play_reachable, reachable_start.
Defined.

(** X2. In a reachable storage the last step of Lead Capture always finds
    the name and the phone ([data['name']] never raises): it inserts the
    lead of the sender with these and the trimmed e-mail.  When the insert
    succeeds the dialog is finished and the confirmation is sent; when it
    raises nothing is sent and the context, e-mail included, is as before. *)
Theorem lead_email_step_commits w storage m t :
  reachable storage → msg_content m = CText t →
  let c := current_ctx storage (event_key (EMessage m)) in
  fsm_state c = Some LeadForm_email →
  let r := (dispatch w (EMessage m) storage).2 in
  ∃ name phone,
    fsm_data c !! "name" = Some (Some name) ∧
    fsm_data c !! "phone" = Some (Some phone) ∧
    let row := InsertLead (Lead (u_id (from_user m)) (Some name) (Some phone) (Some (Py.strip t))) in
    by_handler r = Some h_process_lead_email ∧
    if w_write_ok w row
    then calls r = [row; SendMessage (chat_id m) lead_added_notice get_main_menu]
         ∧ ctx_after r = empty_ctx
    else calls r = [row] ∧ ended r = Raise ∧ ctx_after r = c.
Proof.
  intros Hreach Hm c Hs r. subst r. unfold dispatch. cbn [snd]. fold c.
  pose proof (reachable_stage _ Hreach (event_key (EMessage m))) as Hinv. fold c in Hinv.
  clearbody c. destruct c as [s d]. simpl in Hs. subst s.
  unfold stage_inv in Hinv. simpl in Hinv. destruct Hinv as [[name Hn] [phone Hp]].
  exists name, phone. split; [done|]. split; [done|].
  destruct m as [chat u content]. simpl in Hm. subst content.
  pick_handler. split; [done|].
  unfold_handlers. run_monad.
  rewrite lookup_insert_ne, Hn by done. simpl.
  rewrite lookup_insert_ne, Hp by done. simpl.
  rewrite lookup_insert_eq. simpl.
  destruct (w_write_ok w _); simpl; [|done].
  by destruct (w_send_ok w).
Qed.

Lemma lead_email_step_commits_witness :
  by_handler (dispatch calm (text_message 1 1 "a@b.com")
                (play calm [text_message 1 1 "/newlead"; text_message 1 1 "Anna";
                            text_message 1 1 "+1234567890"] ∅)).2
  = Some h_process_lead_email.
Proof.
  destruct (lead_email_step_commits calm
              (play calm [text_message 1 1 "/newlead"; text_message 1 1 "Anna";
                          text_message 1 1 "+1234567890"] ∅)
              (Message 1 (User 1 None None None) (CText "a@b.com")) "a@b.com")
    as (name & phone & _ & _ & H & _).
  - apply play_reachable, reachable_start.
  - reflexivity.
  - vm_compute. reflexivity.
  - exact H.
Defined.

(** ** The dialogs from start to end *)

Lemma current_after_dispatch w ev storage :
  current_ctx (dispatch w ev storage).1 (event_key ev)
  = ctx_after (handle w ev (current_ctx storage (event_key ev))).
Proof. unfold dispatch, current_ctx. simpl. by rewrite lookup_insert_eq. Qed.

Lemma other_ctx_after_dispatch w ev storage k :
  k ≠ event_key ev → current_ctx (dispatch w ev storage).1 k = current_ctx storage k.
Proof. intros Hk. unfold dispatch, current_ctx. simpl. by rewrite lookup_insert_ne. Qed.
Lemma current_after_text w chat u t storage :
  current_ctx (dispatch w (text_from chat u t) storage).1 (chat, u_id u)
  = ctx_after (handle w (text_from chat u t) (current_ctx storage (chat, u_id u))).
Proof. exact (current_after_dispatch w (text_from chat u t) storage). Qed.

Lemma new_lead_step w chat u c :
  fsm_state c = None →
  ctx_after (handle w (text_from chat u "/newlead") c) = Ctx (Some LeadForm_name) (fsm_data c).
Proof.
  destruct c as [s d]. simpl. intros ->. pick_handler. unfold_handlers. run_monad.
  by destruct (w_send_ok w).
Qed.

Lemma new_task_step w chat u c :
  fsm_state c = None →
  ctx_after (handle w (text_from chat u "/newtask") c) = Ctx (Some TaskForm_title) (fsm_data c).
Proof.
  destruct c as [s d]. simpl. intros ->. pick_handler. unfold_handlers. run_monad.
  by destruct (w_send_ok w).
Qed.

Lemma lead_name_step w chat u t d :
  ctx_after (handle w (text_from chat u t) (Ctx (Some LeadForm_name) d))
  = Ctx (Some LeadForm_phone) (<["name" := Some (Py.strip t)]> d).
Proof. pick_handler. unfold_handlers. run_monad. by destruct (w_send_ok w). Qed.

Lemma lead_phone_step w chat u t d :
  ctx_after (handle w (text_from chat u t) (Ctx (Some LeadForm_phone) d))
  = Ctx (Some LeadForm_email) (<["phone" := Some (Py.strip t)]> d).
Proof. pick_handler. unfold_handlers. run_monad. by destruct (w_send_ok w). Qed.

Lemma task_title_step w chat u t d :
  ctx_after (handle w (text_from chat u t) (Ctx (Some TaskForm_title) d))
  = Ctx (Some TaskForm_client) (<["title" := Some (Py.strip t)]> d).
Proof. pick_handler. unfold_handlers. run_monad. by destruct (w_send_ok w). Qed.

Lemma task_client_step w chat u t d :
  ctx_after (handle w (text_from chat u t) (Ctx (Some TaskForm_client) d))
  = Ctx (Some TaskForm_due_date) (<["client" := optional_field (Py.strip t)]> d).
Proof. pick_handler. unfold_handlers. run_monad. by destruct (w_send_ok w). Qed.

Lemma task_due_date_step w chat u t d dt :
  Datetime.strptime (Py.strip t) = Some dt →
  ctx_after (handle w (text_from chat u t) (Ctx (Some TaskForm_due_date) d))
  = Ctx (Some TaskForm_description) (<["due_date" := Some (Datetime.isoformat dt)]> d).
Proof.
  intros H. pick_handler. unfold_handlers. run_monad. rewrite H. simpl.
  by destruct (w_send_ok w).
Qed.

Lemma task_description_step w chat u t d :
  let r := handle w (text_from chat u t) (Ctx (Some TaskForm_description) d) in
  ctx_after r = Ctx (Some TaskForm_assignee) (<["description" := optional_field (Py.strip t)]> d) ∧
  let roles := eligible_roles (found_role w (u_id u)) in
  calls r = role_queries (u_id u) roles ++
            [SendMessage chat assignee_prompt
               (InlineKeyboard (self_button ::
                  assignee_buttons (u_id u) (fetched_profiles w roles)))].
Proof.
  pick_handler. unfold ran. cbn [ctx_after calls mh_body mh_id].
  unfold process_task_description.
  cbv [run bind ret raise proxy get_data set_data get_ctx put_ctx get_state set_state next
       stripped_text message_text]. simpl.
  pose proof (prompt_for_assignee_run w
    (Ctx (Some TaskForm_assignee) (<["description" := optional_field (Py.strip t)]> d))
    chat (u_id u)) as Hrun.
  unfold run in Hrun. rewrite Hrun. done.
Qed.

(** X3. Lead Capture from start to end: in a conversation without a
    dialog, [/newlead] followed by three texts inserts one lead of the
    sender whose name, phone and e-mail are the three texts trimmed, in this
    order and unchecked, and leaves the conversation without state and
    data. *)
Theorem lead_capture_end_to_end w storage chat u name phone email :
  fsm_state (current_ctx storage (chat, u_id u)) = None →
  let row := InsertLead (Lead (u_id u) (Some (Py.strip name)) (Some (Py.strip phone))
                              (Some (Py.strip email))) in
  w_write_ok w row = true →
  let before := play w [text_from chat u "/newlead"; text_from chat u name;
                        text_from chat u phone] storage in
  let last := dispatch w (text_from chat u email) before in
  calls last.2 = [row; SendMessage chat lead_added_notice get_main_menu] ∧
  current_ctx last.1 (chat, u_id u) = empty_ctx.
Proof.
  intros Hidle row Hw before last.
  assert (current_ctx before (chat, u_id u)
          = Ctx (Some LeadForm_email)
                (<["phone" := Some (Py.strip phone)]>
                   (<["name" := Some (Py.strip name)]>
                      (fsm_data (current_ctx storage (chat, u_id u)))))) as Hb.
  { subst before. cbv [play foldl].
    rewrite !current_after_text.
    rewrite new_lead_step by done. rewrite lead_name_step. by rewrite lead_phone_step. }
  subst last. rewrite current_after_text.
  unfold dispatch. cbn [fst snd]. change (event_key (text_from chat u email)) with (chat, u_id u).
  rewrite Hb.
  pick_handler. unfold_handlers. run_monad.
  rewrite lookup_insert_ne by done. rewrite lookup_insert_ne by done.
  rewrite lookup_insert_eq. simpl.
  rewrite lookup_insert_ne by done. rewrite lookup_insert_eq. simpl.
  rewrite lookup_insert_eq. simpl. fold row. rewrite Hw. simpl.
  by destruct (w_send_ok w).
Qed.

Lemma lead_capture_end_to_end_witness :
  current_ctx (play calm [text_from 1 anna "/newlead"; text_from 1 anna " Anna ";
                          text_from 1 anna "+1234567890"; text_from 1 anna "a@b.com"] ∅) (1, 5)
  = empty_ctx.
Proof.
  destruct (lead_capture_end_to_end calm ∅ 1 anna " Anna " "+1234567890" "a@b.com")
    as [_ H].
  - reflexivity.
  - reflexivity.
  - exact H.
Defined.

Lemma current_after_press w q storage :
  current_ctx (dispatch w (ECallback q) storage).1 (cb_chat_id q, cb_from_user_id q)
  = ctx_after (handle w (ECallback q) (current_ctx storage (cb_chat_id q, cb_from_user_id q))).
Proof. exact (current_after_dispatch w (ECallback q) storage). Qed.

Lemma task_row_of_steps d title client due description assigner assignee :
  task_row (<["description" := description]>
              (<["due_date" := Some due]> (<["client" := client]> (<["title" := Some title]> d))))
           assigner assignee
  = TaskInsert (Some title) client (Some due) description "Выполняется" assigner assignee.
Proof.
  unfold task_row, dict_get.
  rewrite !lookup_insert_ne by done. rewrite lookup_insert_eq.
  rewrite (lookup_insert_ne _ "description" "client") by done.
  rewrite (lookup_insert_ne _ "due_date" "client") by done. rewrite lookup_insert_eq.
  rewrite (lookup_insert_ne _ "description" "due_date") by done. rewrite lookup_insert_eq.
  rewrite lookup_insert_eq. done.
Qed.
(** X4. Task Creation from start to end: [/newtask], a title, a client, a
    due date that [strptime] reads, a description and the "assign to self"
    button insert one task with the trimmed title, the client and the
    description (absent when empty or a dash), the due date in ISO form,
    the status "Выполняется" and the sender as assigner and assignee; the
    conversation is left without state and data. *)
Theorem task_creation_end_to_end w storage chat u mid title client due description dt :
  fsm_state (current_ctx storage (chat, u_id u)) = None →
  Datetime.strptime (Py.strip due) = Some dt →
  let row := InsertTask (TaskInsert (Some (Py.strip title)) (optional_field (Py.strip client))
                           (Some (Datetime.isoformat dt))
                           (optional_field (Py.strip description))
                           "Выполняется" (u_id u) (u_id u)) in
  w_answer_ok w = true → w_write_ok w row = true →
  let before := play w [text_from chat u "/newtask"; text_from chat u title;
                        text_from chat u client; text_from chat u due;
                        text_from chat u description] storage in
  let last := dispatch w (ECallback (Callback chat mid (u_id u) "assign:self")) before in
  calls last.2 = [AnswerCallback; row; EditReplyMarkup chat mid;
                  SendMessage chat task_added_notice get_main_menu] ∧
  current_ctx last.1 (chat, u_id u) = empty_ctx.
Proof.
  intros Hidle Hdue row Hans Hw before last.
  assert (current_ctx before (chat, u_id u)
          = Ctx (Some TaskForm_assignee)
                (<["description" := optional_field (Py.strip description)]>
                   (<["due_date" := Some (Datetime.isoformat dt)]>
                      (<["client" := optional_field (Py.strip client)]>
                         (<["title" := Some (Py.strip title)]>
                            (fsm_data (current_ctx storage (chat, u_id u)))))))) as Hb.
  { subst before. cbv [play foldl]. rewrite !current_after_text.
    rewrite new_task_step by done. rewrite task_title_step, task_client_step.
    rewrite (task_due_date_step _ _ _ _ _ dt) by done.
    by destruct (task_description_step w chat u description
                   (<["due_date":=Some (Datetime.isoformat dt)]>
                      (<["client":=optional_field (Py.strip client)]>
                         (<["title":=Some (Py.strip title)]>
                            (fsm_data (current_ctx storage (chat, u_id u))))))) as [-> _]. }
  subst last.
  rewrite (current_after_press w (Callback chat mid (u_id u) "assign:self")).
  unfold dispatch. cbn [fst snd event_key cb_chat_id cb_from_user_id]. rewrite Hb.
  pick_handler. unfold_handlers. run_monad. rewrite Hans. simpl.
  rewrite task_row_of_steps. fold row. rewrite Hw. simpl.
  by destruct (w_edit_ok w), (w_send_ok w).
Qed.

Lemma task_creation_end_to_end_witness :
  calls (dispatch calm (button_press 1 5 "assign:self")
           (play calm [text_from 1 anna "/newtask"; text_from 1 anna "Fix bug";
                       text_from 1 anna "-"; text_from 1 anna "2025-06-01 12:00";
                       text_from 1 anna "-"] ∅)).2
  = [AnswerCallback;
     InsertTask (TaskInsert (Some "Fix bug") None (Some "2025-06-01T12:00:00") None
                            "Выполняется" 5 5);
     EditReplyMarkup 1 1; SendMessage 1 task_added_notice get_main_menu].
Proof.
  destruct (task_creation_end_to_end calm ∅ 1 anna 1 "Fix bug" "-" "2025-06-01 12:00" "-" noon)
    as [H _].
  - reflexivity.
  - vm_compute. reflexivity.
  - reflexivity.
  - reflexivity.
  - exact H.
Defined.

(** ** Buttons of the assignee keyboard *)

(** The code points of a text of ASCII characters are its bytes. *)
Lemma codes_ascii s :
  Forall (λ a, (N_of_ascii a < 127)%N) (String.list_ascii_of_string s) →
  Py.codes s = N_of_ascii <$> String.list_ascii_of_string s.
Proof.
  unfold Py.codes, Py.chars. induction s as [|a s IH]; [done|].
  cbn [String.list_ascii_of_string]. intros H. apply List.Forall_cons_iff in H as [Ha Hs].
  cbn [Py.chars_from]. unfold Py.head_char.
  assert ((N_of_ascii a <? 128)%N = true) as -> by (apply N.ltb_lt; lia).
  cbn. f_equal. by apply IH.
Qed.

Lemma length_list_ascii s : length (String.list_ascii_of_string s) = String.length s.
Proof. induction s; simpl; congruence. Qed.

(** [int] keeps the characters below 127 as they are. *)
Lemma mapM_int_char_ascii (l : list N) :
  Forall (λ c, (c < 127)%N) l → mapM Py.int_char l = Some l.
Proof.
  induction 1 as [|c l Hc _ IH]; [done|]. cbn.
  assert (Py.int_char c = Some c) as ->.
  { unfold Py.int_char. by rewrite (proj2 (N.ltb_lt _ _) Hc). }
  cbn. by rewrite IH.
Qed.

Lemma string_of_uint_below d :
  Forall (λ a, (N_of_ascii a < 127)%N) (String.list_ascii_of_string (NilEmpty.string_of_uint d)).
Proof. induction d; simpl; constructor; done. Qed.

Lemma int_body_string_of_uint d : ∀ acc,
  Py.int_body acc true (N_of_ascii <$> String.list_ascii_of_string (NilEmpty.string_of_uint d))
  = Some (uint_value acc d).
Proof. induction d; intros acc; simpl; try done; apply IHd. Qed.

Lemma uint_value_pos d : ∀ a, uint_value (Zpos a) d = Zpos (Pos.of_uint_acc d a).
Proof.
  induction d; intros a; simpl; try done; rewrite <- IHd; f_equal; lia.
Qed.

Lemma uint_value_zero d : uint_value 0 d = Z.of_N (Pos.of_uint d).
Proof.
  induction d; simpl; try done; try (apply (uint_value_pos d)).
Qed.

(** [int] on the digits of a positive number, after an optional sign. *)
Lemma int_codes_digits (sign : list N) (p : positive) :
  let digits := N_of_ascii <$> String.list_ascii_of_string
                                 (NilEmpty.string_of_uint (Pos.to_uint p)) in
  (length (sign ++ digits) ≤ Py.int_max_str_digits)%nat →
  (sign = [] → Py.int_codes digits = Some (Zpos p)) ∧
  (sign = [45%N] → Py.int_codes (sign ++ digits) = Some (Zneg p)).
Proof.
  intros digits Hlen.
  assert (Forall (λ c, (c < 127)%N) digits) as Hbelow.
  { subst digits. apply Forall_fmap. eapply Forall_impl; [apply string_of_uint_below|done]. }
  assert (Py.int_body 0 false digits = Some (Zpos p)) as Hbody.
  { pose proof (Unsigned.to_uint_nonnil p) as Hnn.
    pose proof (int_body_string_of_uint (Pos.to_uint p)) as Hb.
    pose proof (uint_value_zero (Pos.to_uint p)) as Hv. rewrite Unsigned.of_to in Hv.
    subst digits. destruct (Pos.to_uint p) as [|d|d|d|d|d|d|d|d|d|d]; try done;
      simpl in *; rewrite Hb; f_equal; exact Hv. }
  assert (∀ l, (length l ≤ Py.int_max_str_digits)%nat →
               (Py.int_max_str_digits <? length (filter (λ c, Py.ascii_digit c = true) l))%nat
               = false) as Hlimit.
  { intros l Hl. apply Nat.ltb_ge. etrans; [apply length_filter|done]. }
  split; intros ->.
  - unfold Py.int_codes. rewrite mapM_int_char_ascii by done. cbn [mbind option_bind].
    rewrite Hlimit by done. clear Hlen Hlimit Hbelow. subst digits.
    destruct (Pos.to_uint p) as [|d|d|d|d|d|d|d|d|d|d]; try done; exact Hbody.
  - unfold Py.int_codes. rewrite mapM_int_char_ascii by (constructor; done).
    cbn [mbind option_bind]. rewrite Hlimit by done.
    cbn. by rewrite Hbody.
Qed.

Lemma string_of_uint_nonnil d :
  d ≠ Decimal.Nil → NilZero.string_of_uint d = NilEmpty.string_of_uint d.
Proof. by destruct d. Qed.

(** [int] reads back what [str] prints, for a number that [str] prints. *)
Lemma int_str (n : Z) :
  (String.length (Py.str n) ≤ Py.int_max_str_digits)%nat → Py.int (Py.str n) = Some n.
Proof.
  unfold Py.str, Py.int. destruct n as [|p|p]; [reflexivity|..]; simpl; intros Hlen.
  - rewrite string_of_uint_nonnil in * by apply Unsigned.to_uint_nonnil.
    rewrite codes_ascii by apply string_of_uint_below.
    apply (int_codes_digits [] p); [|done].
    simpl. by rewrite length_fmap, length_list_ascii.
  - rewrite string_of_uint_nonnil in * by apply Unsigned.to_uint_nonnil.
    rewrite codes_ascii by (constructor; [done|apply string_of_uint_below]).
    apply (int_codes_digits [45%N] p); [|done].
    simpl in *. by rewrite length_fmap, length_list_ascii.
Qed.

(** X5. At the assignee step, a button press whose code [int] reads
    inserts the task with that number as assignee, whether or not a button
    with this code was offered: the row holds the four fields of the data,
    the status, the presser as assigner and the number as assignee.  On a
    successful insert the dialog is finished, on a failed one the context
    is unchanged. *)
Theorem assign_button_numeric_code w c q code n :
  fsm_state c = Some TaskForm_assignee →
  cb_data q = "assign:" +:+ code →
  Py.int code = Some n →
  w_answer_ok w = true →
  let r := handle w (ECallback q) c in
  let get k := fsm_data c !! k ≫= id in
  let row := InsertTask (TaskInsert (get "title") (get "client") (get "due_date")
                                    (get "description") "Выполняется" (cb_from_user_id q) n) in
  by_handler r = Some h_handle_assign_callback ∧
  if w_write_ok w row
  then calls r = [AnswerCallback; row; EditReplyMarkup (cb_chat_id q) (cb_message_id q);
                  SendMessage (cb_chat_id q) task_added_notice get_main_menu]
       ∧ ctx_after r = empty_ctx
  else calls r = [AnswerCallback; row] ∧ ended r = Raise ∧ ctx_after r = c.
Proof.
  destruct c as [s d], q as [chat mid uid data]. simpl. intros -> -> Hint Hans.
  cbv [String.append]. pick_handler. split; [done|].
  unfold_handlers. run_monad. rewrite Hans. simpl.
  assert (code ≠ "self") as Hself by (intros ->; discriminate Hint).
  rewrite bool_decide_eq_false_2 by done. rewrite Hint. unfold task_row, dict_get.
  destruct (w_write_ok w _); simpl; [|done].
  by destruct (w_edit_ok w), (w_send_ok w).
Qed.

Lemma assign_button_numeric_code_witness :
  calls (handle calm (button_press 1 5 "assign:+9_000") (Ctx (Some TaskForm_assignee) ∅))
  = [AnswerCallback; InsertTask (TaskInsert None None None None "Выполняется" 5 9000);
     EditReplyMarkup 1 1; SendMessage 1 task_added_notice get_main_menu].
Proof.
  destruct (assign_button_numeric_code calm (Ctx (Some TaskForm_assignee) ∅)
              (Callback 1 1 5 "assign:+9_000") "+9_000" 9000
              eq_refl eq_refl eq_refl eq_refl) as [_ H].
  exact (proj1 H).
Defined.

(** What pressing a button with the code of an identity, or of a missing
    one, inserts. *)
Lemma assign_button_of_identity w c q (x : option Z) :
  fsm_state c = Some TaskForm_assignee →
  cb_data q = "assign:" +:+ Py.str_or_none x →
  (∀ n, x = Some n → (String.length (Py.str n) ≤ Py.int_max_str_digits)%nat) →
  w_answer_ok w = true →
  let get k := fsm_data c !! k ≫= id in
  ∃ rest, calls (handle w (ECallback q) c)
    = AnswerCallback ::
      InsertTask (TaskInsert (get "title") (get "client") (get "due_date") (get "description")
                    "Выполняется" (cb_from_user_id q) (default (cb_from_user_id q) x)) :: rest.
Proof.
  intros Hs Hq Hx Hans get.
  assert (Py.str_or_none x ≠ "self") as Hself.
  { intros E. destruct x as [n|]; [|discriminate E]. simpl in E.
    apply (f_equal NilZero.int_of_string) in E. by rewrite int_of_string_str in E. }
  assert (Py.int (Py.str_or_none x) = x) as Hint.
  { destruct x as [n|]; simpl; [by apply int_str, Hx|reflexivity]. }
  destruct c as [s d], q as [chat mid uid data]. simpl in *. subst s data.
  cbv [String.append]. pick_handler. unfold_handlers. run_monad. rewrite Hans. simpl.
  rewrite bool_decide_eq_false_2 by done. rewrite Hint. unfold task_row, dict_get.
  destruct x as [n|]; simpl;
    (destruct (w_write_ok w _); simpl; [|by eexists]);
    destruct (w_edit_ok w), (w_send_ok w); simpl; by eexists.
Qed.

(** X6. Round trip between [prompt_for_assignee] and
    [handle_assign_callback]: every button built for a fetched profile
    belongs to a profile other than the assigner and carries ["assign:"]
    and the printed identity of the profile; pressing it at the assignee
    step inserts the task with the identity of that profile as assignee,
    and with the presser as assignee when the profile has no identity (its
    button carries ["assign:None"]).  The identities are integers that
    [str] prints, as all integers read from the store are. *)
Theorem candidate_button_assigns_candidate w c q assigner_id assignees b :
  b ∈ assignee_buttons assigner_id assignees →
  Forall (λ a, ∀ n, p_telegram_id a = Some n →
                    (String.length (Py.str n) ≤ Py.int_max_str_digits)%nat) assignees →
  fsm_state c = Some TaskForm_assignee →
  cb_data q = btn_callback_data b →
  w_answer_ok w = true →
  let get k := fsm_data c !! k ≫= id in
  ∃ a, a ∈ assignees ∧ p_telegram_id a ≠ Some assigner_id ∧
    btn_callback_data b = "assign:" +:+ Py.str_or_none (p_telegram_id a) ∧
    ∃ rest, calls (handle w (ECallback q) c)
      = AnswerCallback ::
        InsertTask (TaskInsert (get "title") (get "client") (get "due_date")
                      (get "description") "Выполняется" (cb_from_user_id q)
                      (default (cb_from_user_id q) (p_telegram_id a))) :: rest.
Proof.
  intros Hb Hprint Hs Hq Hans get.
  assert (∃ a, a ∈ assignees ∧ p_telegram_id a ≠ Some assigner_id ∧
               btn_callback_data b = "assign:" +:+ Py.str_or_none (p_telegram_id a))
    as (a & Ha & Hne & Hdata).
  { clear -Hb. induction assignees as [|a rest IH]; simpl in Hb; [by apply elem_of_nil in Hb|].
    case_bool_decide as Hid.
    - destruct (IH Hb) as (a' & ? & ? & ?). exists a'. split; [by right|done].
    - apply elem_of_cons in Hb as [->|Hb].
      + exists a. split; [by left|done].
      + destruct (IH Hb) as (a' & ? & ? & ?). exists a'. split; [by right|done]. }
  exists a. split; [done|]. split; [done|]. split; [done|].
  rewrite Hdata in Hq. rewrite Forall_forall in Hprint.
  exact (assign_button_of_identity w c q (p_telegram_id a) Hs Hq (Hprint a Ha) Hans).
Qed.

Lemma candidate_button_assigns_candidate_witness :
  ∃ a, a ∈ [ivan] ∧ p_telegram_id a ≠ Some 5 ∧
    btn_callback_data (Button "Ivan Petrov" "assign:9")
      = "assign:" +:+ Py.str_or_none (p_telegram_id a) ∧
    ∃ rest, calls (handle calm (button_press 1 5 "assign:9") (Ctx (Some TaskForm_assignee) ∅))
      = AnswerCallback ::
        InsertTask (TaskInsert None None None None "Выполняется" 5
                      (default 5 (p_telegram_id a))) :: rest.
Proof.
  destruct (candidate_button_assigns_candidate calm (Ctx (Some TaskForm_assignee) ∅)
              (Callback 1 1 5 "assign:9") 5 [ivan] (Button "Ivan Petrov" "assign:9"))
    as (a & Ha & Hne & Hdata & rest & Hcalls).
  - vm_compute. left.
  - apply Forall_singleton. intros m [= <-]. vm_compute. lia.
  - reflexivity.
  - reflexivity.
  - reflexivity.
  - exists a. repeat split; try done. exists rest. exact Hcalls.
Defined.

(** The button of a profile without identity gives the task to the
    presser. *)
Lemma button_of_profile_without_identity :
  assignee_buttons 5 [Profile (Some "Ivan Petrov") None None]
    = [Button "Ivan Petrov" "assign:None"] ∧
  calls (handle calm (button_press 1 5 "assign:None") (Ctx (Some TaskForm_assignee) ∅))
    = [AnswerCallback; InsertTask (TaskInsert None None None None "Выполняется" 5 5);
       EditReplyMarkup 1 1; SendMessage 1 task_added_notice get_main_menu].
Proof. vm_compute. done. Qed.

Lemma str_or_none_nonempty (x : option Z) : Py.str_or_none x ≠ "".
Proof.
  intros E. destruct x as [n|]; [|discriminate E]. simpl in E.
  apply (f_equal NilZero.int_of_string) in E. by rewrite int_of_string_str in E.
Qed.

(** X7. The labels of the assignee keyboard: "Назначить себе" first, then
    for every fetched profile other than the assigner, in order, its full
    name when it has one that is not empty, else its role when it has one
    that is not empty, else its printed identity; no label is empty. *)
Theorem assignee_buttons_have_labels (assigner_id : Z) (assignees : list profile) :
  btn_text <$> (self_button :: assignee_buttons assigner_id assignees)
  = "Назначить себе" ::
    ((λ a, match p_full_name a with
           | Some (String _ _ as full_name) => full_name
           | _ => match p_role a with
                  | Some (String _ _ as role) => role
                  | _ => Py.str_or_none (p_telegram_id a)
                  end
           end) <$> filter (λ a, p_telegram_id a ≠ Some assigner_id) assignees) ∧
  Forall (λ b, btn_text b ≠ "") (self_button :: assignee_buttons assigner_id assignees).
Proof.
  split.
  - csimpl. f_equal. induction assignees as [|a rest IH]; simpl; [done|].
    rewrite filter_cons. case_bool_decide as Hid.
    + by rewrite decide_False by (intros Hn; by apply Hn).
    + rewrite decide_True by done. csimpl. rewrite <- IH. f_equal.
      by destruct (p_full_name a) as [[|? ?]|], (p_role a) as [[|? ?]|].
  - constructor; [done|].
    induction assignees as [|a rest IH]; simpl; [constructor|].
    case_bool_decide; [done|]. constructor; [|done]. simpl.
    destruct (p_full_name a) as [[|? ?]|], (p_role a) as [[|? ?]|]; simpl; try done;
      apply str_or_none_nonempty.
Qed.

(** ** The keyboard of the task list *)

Lemma py_len_app s1 s2 : py_len (s1 +:+ s2) = (py_len s1 + py_len s2)%nat.
Proof.
  induction s1 as [|c s1 IH]; [done|].
  change (String c s1 +:+ s2) with (String c (s1 +:+ s2)). simpl. rewrite IH. lia.
Qed.

Lemma py_len_take n s : (py_len (py_take n s) ≤ n)%nat.
Proof.
  revert n. induction s as [|c s IH]; intros n; simpl; [lia|].
  destruct (is_continuation c) eqn:E; simpl; rewrite ?E.
  - apply IH.
  - destruct n; simpl; [lia|]. rewrite E. specialize (IH n). lia.
Qed.

Lemma py_take_all n s : (py_len s ≤ n)%nat → py_take n s = s.
Proof.
  revert n. induction s as [|c s IH]; intros n; simpl; [done|].
  destruct (is_continuation c); simpl; intros H.
  - by rewrite IH.
  - destruct n; [lia|]. rewrite IH; [done|lia].
Qed.
(** X8. [build_tasks_keyboard] puts the "new task" button first, the
    "main menu" button last and one button per task in between, in the
    order of the list; the button of a task carries ["task:"] and its id,
    its label never exceeds 30 characters, and it is the title itself
    whenever the title has at most 30 characters. *)
Theorem tasks_keyboard_shape (tasks : list task) :
  let kb := build_tasks_keyboard tasks in
  length kb = (length tasks + 2)%nat ∧
  head kb = Some (Button "➕ Добавить задачу" "newtask") ∧
  last kb = Some (Button "⬅️ Главное меню" "menu") ∧
  (∀ i t, tasks !! i = Some t →
     kb !! S i = Some (task_button t) ∧
     btn_callback_data (task_button t) = "task:" +:+ Py.str (t_id t) ∧
     (py_len (btn_text (task_button t)) ≤ 30)%nat ∧
     (∀ title, t_title t = Some title → (py_len title ≤ 30)%nat →
               btn_text (task_button t) = title)).
Proof.
  unfold build_tasks_keyboard. cbn zeta. split; [|split; [|split]].
  - simpl. rewrite length_app, length_fmap. simpl. lia.
  - done.
  - rewrite app_comm_cons. by rewrite last_snoc.
  - intros i t Hi. split; [|split; [done|split]].
    + simpl. rewrite lookup_app_l by (rewrite length_fmap; by eapply lookup_lt_Some).
      by rewrite list_lookup_fmap, Hi.
    + simpl. unfold task_button_text. cbn zeta.
      destruct (py_len _ <=? 30)%nat eqn:E.
      * by apply Nat.leb_le.
      * rewrite py_len_app. pose proof (py_len_take 27 (default "" (Py.or_else (t_title t) None))).
        change (py_len "…") with 1%nat. lia.
    + intros title Ht Hlen. simpl. unfold task_button_text. rewrite Ht.
      destruct title as [|c title]; [done|].
      change (default "" (Py.or_else (Some (String c title)) None)) with (String c title).
      cbv zeta. by rewrite (proj2 (Nat.leb_le _ _) Hlen).
Qed.

Lemma tasks_keyboard_shape_witness :
  build_tasks_keyboard [task_jun; task_long] !! 2%nat = Some (task_button task_long) ∧
  task_button task_long = Button "Подготовить квартальный отч…" "task:12".
Proof.
  destruct (tasks_keyboard_shape [task_jun; task_long]) as (_ & _ & _ & H).
  destruct (H 1%nat task_long eq_refl) as [Hb _].
  split; [exact Hb|reflexivity].
Defined.

(** ** Selecting a task and attaching a result *)

(** X9. Pressing the button of a task outside a dialog asks the store for
    that task id.  When the task is found the conversation awaits the
    result with exactly this task id as data; when it is not found, or the
    lookup raises, the user is told so and the conversation stays without
    state and data. *)
Theorem select_task_button w c q task_id :
  fsm_state c = None →
  cb_data q = "task:" +:+ task_id →
  w_answer_ok w = true →
  let r := handle w (ECallback q) c in
  by_handler r = Some h_on_select_task ∧
  match w_task_single w task_id with
  | Rows (Some found) =>
      ctx_after r = Ctx (Some TaskResultForm_awaiting_result) {[ "task_id" := Some task_id ]} ∧
      calls r = [AnswerCallback; SelectTaskSingle task_id;
                 SendMessage (cb_chat_id q) (TaskChosenText (t_title found)) cancel_keyboard]
  | _ =>
      ctx_after r = empty_ctx ∧
      calls r = [AnswerCallback; SelectTaskSingle task_id;
                 SendMessage (cb_chat_id q) task_not_found_notice NoMarkup]
  end.
Proof.
  destruct c as [s d], q as [chat mid uid data]. simpl. intros -> -> Hans.
  cbv [String.append]. pick_handler. split; [done|].
  unfold_handlers. run_monad. rewrite Hans. simpl.
  destruct (w_task_single w task_id) as [[found|]|]; simpl; by destruct (w_send_ok w).
Qed.

Lemma select_task_button_witness :
  ctx_after (handle calm (button_press 1 5 "task:12") empty_ctx) = empty_ctx.
Proof.
  destruct (select_task_button calm empty_ctx (Callback 1 1 5 "task:12") "12"
              eq_refl eq_refl eq_refl) as [_ H].
  exact (proj1 H).
Defined.

(** X10. While a result is awaited for a task, a message that is not a
    cancellation is the result: a text updates the task with the trimmed
    text; a document or a photo updates it with the file reference and
    adds the file to [task_files]; any other kind of message only gets the
    notice and changes nothing.  The dialog is finished once all writes
    succeed; when the file insert raises after the update, the task is
    already updated and the conversation still awaits the result.  A text
    on which the command filter of [cancel_handler] raises (a text of
    whitespace only) reaches no handler: nothing is written and the
    conversation still awaits the result. *)
Theorem attach_result_step w c m task_id :
  fsm_state c = Some TaskResultForm_awaiting_result →
  fsm_data c !! "task_id" = Some (Some task_id) → task_id ≠ "" →
  text_equals_ignore_case "cancel" m = false →
  let r := handle w (EMessage m) c in
  let done := SendMessage (chat_id m) result_attached_notice result_keyboard in
  match check_command "cancel" w m with
  | Pass => by_handler r = Some h_cancel_handler
  | Crash => r = Handled None Raise c []
  | Skip =>
      by_handler r = Some h_process_task_result ∧
      match msg_content m with
      | CText t =>
          let update := UpdateTaskResult task_id (Py.strip t) in
          if w_write_ok w update
          then calls r = [update; done] ∧ ctx_after r = empty_ctx
          else calls r = [update] ∧ ctx_after r = c
      | CDocument file_id | CPhoto file_id =>
          let update := UpdateTaskResult task_id ("[Файл: " +:+ file_id +:+ "]") in
          let attach := InsertTaskFile task_id file_id in
          if w_write_ok w update
          then match file_id with
               | EmptyString => calls r = [update; done] ∧ ctx_after r = empty_ctx
               | _ => if w_write_ok w attach
                      then calls r = [update; attach; done] ∧ ctx_after r = empty_ctx
                      else calls r = [update; attach] ∧ ctx_after r = c
               end
          else calls r = [update] ∧ ctx_after r = c
      | COther =>
          calls r = [SendMessage (chat_id m) text_or_file_notice NoMarkup] ∧ ctx_after r = c
      end
  end.
Proof.
  destruct c as [s d], m as [chat u content]. simpl. intros -> Hid Hne Hc1.
  assert (∀ f, msg_content (Message chat u content) = f → content = f) as Hcontent by done.
  destruct content as [t|f|f|]; pick_handler; rewrite ?Hc1; simpl;
    try replace (check_command "cancel" w (Message chat u (CDocument f))) with Skip by done;
    try replace (check_command "cancel" w (Message chat u (CPhoto f))) with Skip by done;
    try replace (check_command "cancel" w (Message chat u COther)) with Skip by done;
    try destruct (check_command "cancel" w (Message chat u (CText t))); simpl; try done;
    (split; [done|]);
    unfold_handlers; run_monad; unfold dict_get; rewrite Hid; simpl;
    (destruct task_id as [|a task_id]; [done|]).
  - destruct (w_write_ok w _); simpl; [|done]. by destruct (w_send_ok w).
  - destruct (w_write_ok w (UpdateTaskResult _ _)); simpl; [|done].
    destruct f; simpl; [by destruct (w_send_ok w)|].
    destruct (w_write_ok w _); simpl; [|done]. by destruct (w_send_ok w).
  - destruct (w_write_ok w (UpdateTaskResult _ _)); simpl; [|done].
    destruct f; simpl; [by destruct (w_send_ok w)|].
    destruct (w_write_ok w _); simpl; [|done]. by destruct (w_send_ok w).
  - by destruct (w_send_ok w).
Qed.

Lemma attach_result_step_witness :
  let c := Ctx (Some TaskResultForm_awaiting_result) {[ "task_id" := Some "12" ]} in
  calls (handle calm (EMessage (Message 1 anna (CDocument "FILE1"))) c)
  = [UpdateTaskResult "12" "[Файл: FILE1]"; InsertTaskFile "12" "FILE1";
     SendMessage 1 result_attached_notice result_keyboard] ∧
  handle calm (text_from 1 anna "   ") c = Handled None Raise c [].
Proof.
  intros c. split.
  - pose proof (attach_result_step calm c (Message 1 anna (CDocument "FILE1")) "12"
                  eq_refl eq_refl) as H.
    destruct H as [_ H]; [discriminate|reflexivity|]. exact (proj1 H).
  - pose proof (attach_result_step calm c (Message 1 anna (CText "   ")) "12"
                  eq_refl eq_refl) as H.
    apply H; [discriminate|reflexivity].
Defined.

(** ** The task views *)

(** A message is at most one command. *)
Lemma check_command_other a b w m :
  check_command a w m = Pass → Py.lower a ≠ Py.lower b → check_command b w m = Skip.
Proof.
  unfold check_command. destruct (message_text m) as [[|c0 t]|]; try done.
  destruct (Py.first_word _) as [[|prefix rest]|]; try done.
  destruct (partition_at rest) as [command mention].
  destruct (_ && _); [done|]. destruct (negb _); [done|].
  case_bool_decide as Ha; [|done]. intros _ Hab.
  rewrite bool_decide_eq_false_2; [done|congruence].
Qed.

Lemma is_command_pass a w m : is_command a w m = true → check_command a w m = Pass.
Proof. unfold is_command. by intros ?%bool_decide_eq_true. Qed.

Lemma is_command_text a w m : is_command a w m = true → is_text m = true.
Proof.
  intros H%is_command_pass. revert H.
  unfold check_command, message_text, is_text. by destruct (msg_content m).
Qed.

(** The other command filters let a command through to its handler. *)
Ltac skip_other_commands Hcmd :=
  repeat match goal with
  | |- context [check_command ?b ?w ?m] =>
      lazymatch type of Hcmd with
      | check_command b w m = Pass => fail
      | check_command ?a w m = Pass =>
          rewrite (check_command_other a b w m Hcmd) by (vm_compute; discriminate)
      end
  end;
  rewrite ?Hcmd.

(** X11. [/mytasks] outside a dialog answers with one message and never
    touches the conversation: the sorted merged list when both queries
    answer, otherwise only the notice of the failure; when the first query
    raises the second one is not made. *)
Theorem my_tasks_all_or_nothing w c m :
  fsm_state c = None → is_command "mytasks" w m = true →
  let r := handle w (EMessage m) c in
  by_handler r = Some h_my_tasks ∧
  ctx_after r = c ∧
  calls r = task_view w (chat_id m) (u_id (from_user m)) tasks_error_notice.
Proof.
  intros Hs Hcmd. pose proof (is_command_text _ _ _ Hcmd) as Htext.
  apply is_command_pass in Hcmd.
  destruct c as [s d], m as [chat u content]. simpl in *. subst s.
  pick_handler. rewrite Htext. skip_other_commands Hcmd. simpl.
  split; [done|]. unfold_handlers. run_monad. unfold task_view.
  destruct (w_tasks_by_assigner w (u_id u)); simpl;
    [destruct (w_tasks_by_assignee w (u_id u)); simpl|]; by destruct (w_send_ok w).
Qed.

Lemma my_tasks_all_or_nothing_witness :
  calls (handle calm (text_from 1 anna "/mytasks") empty_ctx)
  = [SelectTasksByAssigner 5; SelectTasksByAssignee 5;
     SendMessage 1 (Literal "У вас пока нет задач.") (TasksKeyboard [])].
Proof.
  destruct (my_tasks_all_or_nothing calm empty_ctx (Message 1 anna (CText "/mytasks"))
              eq_refl eq_refl) as (_ & _ & H).
  exact H.
Defined.

(** X12. The "my tasks" button outside a dialog, once acknowledged, does
    the same as [/mytasks], with its own notice of failure. *)
Theorem on_mytasks_all_or_nothing w c q :
  fsm_state c = None → cb_data q = "mytasks" → w_answer_ok w = true →
  let r := handle w (ECallback q) c in
  by_handler r = Some h_on_mytasks ∧
  ctx_after r = empty_ctx ∧
  calls r = AnswerCallback :: task_view w (cb_chat_id q) (cb_from_user_id q) tasks_retry_notice.
Proof.
  destruct c as [s d], q as [chat mid uid data]. simpl. intros -> -> Hans.
  pick_handler. split; [done|]. unfold_handlers. run_monad. rewrite Hans. simpl.
  unfold task_view.
  destruct (w_tasks_by_assigner w uid); simpl;
    [destruct (w_tasks_by_assignee w uid); simpl|]; by destruct (w_send_ok w).
Qed.

Lemma on_mytasks_all_or_nothing_witness :
  calls (handle calm (button_press 1 5 "mytasks") empty_ctx)
  = [AnswerCallback; SelectTasksByAssigner 5; SelectTasksByAssignee 5;
     SendMessage 1 (Literal "У вас пока нет задач.") (TasksKeyboard [])].
Proof.
  destruct (on_mytasks_all_or_nothing calm empty_ctx (Callback 1 1 5 "mytasks")
              eq_refl eq_refl eq_refl) as (_ & _ & H).
  exact H.
Defined.

(** X13. The cancel button is taken in every state.  Once acknowledged it
    resets the conversation, whatever its state and data, and then shows
    the task list; as the queries are not guarded here, a failing query
    raises after the reset and nothing is sent.  When the acknowledgement
    itself raises, the conversation is unchanged. *)
Theorem cancel_button_resets_any_state w c q :
  cb_data q = "cancel_action" →
  let r := handle w (ECallback q) c in
  by_handler r = Some h_on_cancel_action ∧
  if w_answer_ok w
  then ctx_after r = empty_ctx ∧
       ∃ rest, calls r = AnswerCallback :: EditReplyMarkup (cb_chat_id q) (cb_message_id q) ::
                         SelectTasksByAssigner (cb_from_user_id q) :: rest ∧
         match w_tasks_by_assigner w (cb_from_user_id q), w_tasks_by_assignee w (cb_from_user_id q) with
         | Rows assigner_data, Rows assignee_data =>
             let tasks := sort_by_due (merge_tasks assigner_data assignee_data) in
             rest = [SelectTasksByAssignee (cb_from_user_id q);
                     SendMessage (cb_chat_id q) (tasks_text tasks) (TasksKeyboard tasks)]
         | Rows _, Failed => rest = [SelectTasksByAssignee (cb_from_user_id q)] ∧ ended r = Raise
         | Failed, _ => rest = [] ∧ ended r = Raise
         end
  else ctx_after r = c ∧ calls r = [AnswerCallback] ∧ ended r = Raise.
Proof.
  intros Hq r. destruct c as [s d], q as [chat mid uid data]. simpl in Hq. subst data r.
  cbn [cb_chat_id cb_message_id cb_from_user_id].
  assert (by_handler (handle w (ECallback (Callback chat mid uid "cancel_action")) (Ctx s d))
          = Some h_on_cancel_action ∧
          handle w (ECallback (Callback chat mid uid "cancel_action")) (Ctx s d)
          = ran h_on_cancel_action (run (on_cancel_action (Callback chat mid uid "cancel_action")) w (Ctx s d)))
    as [Hby ->].
  { destruct s as [[]|]; pick_handler; done. }
  split; [done|]. unfold_handlers. run_monad.
  destruct (w_answer_ok w); simpl; [|done].
  destruct (w_edit_ok w); simpl;
    (destruct (w_tasks_by_assigner w uid); simpl;
      [destruct (w_tasks_by_assignee w uid); simpl|]);
    try destruct (w_send_ok w); simpl;
    (split; [done|]); eexists; (split; [reflexivity|done]).
Qed.

Lemma cancel_button_resets_any_state_witness :
  ctx_after (handle calm (button_press 1 5 "cancel_action")
               (Ctx (Some TaskForm_due_date) {[ "title" := Some "Fix bug" ]}))
  = empty_ctx.
Proof.
  destruct (cancel_button_resets_any_state calm
              (Ctx (Some TaskForm_due_date) {[ "title" := Some "Fix bug" ]})
              (Callback 1 1 5 "cancel_action") eq_refl) as [_ H].
  exact (proj1 H).
Defined.

(** ** Events that nothing handles *)

(** X14. During a dialog the buttons of the menus do nothing: a button
    press other than the cancel button, and other than an ["assign:"]
    button at the assignee step, is taken by no handler; no call is made
    and the conversation is unchanged. *)
Theorem buttons_ignored_during_dialog w c q s :
  fsm_state c = Some s →
  cb_data q ≠ "cancel_action" →
  (s = TaskForm_assignee → Py.startswith "assign:" (cb_data q) = false) →
  handle w (ECallback q) c = ignored c.
Proof.
  destruct c as [s' d], q as [chat mid uid data]. simpl. intros -> Hc Ha.
  pick_handler. rewrite (bool_decide_eq_false_2 _ Hc).
  destruct s; simpl; try done. by rewrite Ha.
Qed.

Lemma buttons_ignored_during_dialog_witness :
  handle calm (button_press 1 5 "mytasks") (Ctx (Some TaskForm_title) ∅)
  = ignored (Ctx (Some TaskForm_title) ∅).
Proof.
  apply (buttons_ignored_during_dialog calm (Ctx (Some TaskForm_title) ∅)
           (Callback 1 1 5 "mytasks") TaskForm_title).
  - reflexivity.
  - discriminate.
  - discriminate.
Defined.

(** X15. A message that is not a text (a file, a photo, a sticker) is
    taken by no handler unless a task result is awaited: no call is made
    and the conversation is unchanged. *)
Theorem non_text_message_ignored w c m :
  is_text m = false →
  fsm_state c ≠ Some TaskResultForm_awaiting_result →
  handle w (EMessage m) c = ignored c.
Proof.
  destruct c as [s d], m as [chat u content]. simpl. intros Ht Hs.
  destruct content; try discriminate Ht.
  all: destruct s as [[]|]; try done; pick_handler; done.
Qed.

Lemma non_text_message_ignored_witness :
  handle calm (EMessage (Message 1 anna (CPhoto "PHOTO1"))) (Ctx (Some LeadForm_phone) ∅)
  = ignored (Ctx (Some LeadForm_phone) ∅).
Proof.
  apply (non_text_message_ignored calm (Ctx (Some LeadForm_phone) ∅)
           (Message 1 anna (CPhoto "PHOTO1"))).
  - reflexivity.
  - discriminate.
Defined.

(** ** One answer per event *)

Ltac solve_frugal :=
  repeat (case_match; simplify_eq/=); unfold frugal; simpl; split; lia.

Lemma message_handlers_frugal :
  Forall (λ h, ∀ w m c, mh_passes w (fsm_state c) m h = Pass →
                        frugal (run (mh_body h m) w c).2) message_handlers.
Proof.
  unfold message_handlers.
  repeat (apply List.Forall_cons); try apply List.Forall_nil; cbv beta;
  intros w [chat u content] [s d] _;
  unfold_handlers; run_monad; solve_frugal.
Qed.

Lemma callback_handlers_frugal :
  Forall (λ h, ∀ w q c, ch_passes (fsm_state c) q h = true →
                        frugal (run (ch_body h q) w c).2) callback_handlers.
Proof.
  unfold callback_handlers.
  repeat (apply List.Forall_cons); try apply List.Forall_nil; cbv beta;
  intros w q [s d] _;
  unfold_handlers; run_monad; solve_frugal.
Qed.
(** X16. Whatever the event, the conversation and the answers of the
    store, the bot sends at most one message and inserts at most one task,
    lead or user. *)
Theorem one_message_per_event w ev c :
  (length (filter (λ e, is_send e = true) (calls (handle w ev c))) ≤ 1)%nat ∧
  (length (filter (λ e, is_insert e = true) (calls (handle w ev c))) ≤ 1)%nat.
Proof.
  change (frugal (calls (handle w ev c))).
  destruct (by_handler (handle w ev c)) as [id|] eqn:E.
  - destruct ev as [m|q].
    + apply handled_message in E as (h & Hin & _ & Hp & ->). simpl.
      pose proof message_handlers_frugal as H. rewrite Forall_forall in H. by apply H.
    + apply handled_callback in E as (h & Hin & _ & Hp & ->). simpl.
      pose proof callback_handlers_frugal as H. rewrite Forall_forall in H. by apply H.
  - revert E. unfold handle.
    destruct ev; [destruct (first_passing _ _) as [[?|]|]|destruct (List.find _ _)];
      simpl; try done; intros _; split; simpl; lia.
Qed.

(** ** Registration *)

(** X17. [/start] outside a dialog looks the sender up and inserts the
    user only when the lookup returns nothing; a known user is never
    inserted again.  The welcome follows unless the lookup or the insert
    raises, and the conversation is never touched. *)
Theorem start_registers_once w c m :
  fsm_state c = None → is_command "start" w m = true →
  let r := handle w (EMessage m) c in
  let telegram_id := u_id (from_user m) in
  let welcome := SendMessage (chat_id m) welcome_notice get_main_menu in
  by_handler r = Some h_send_welcome ∧
  ctx_after r = c ∧
  match w_users w telegram_id with
  | Rows [] =>
      if w_write_ok w (InsertUser (from_user m))
      then calls r = [SelectUser telegram_id; InsertUser (from_user m); welcome]
      else calls r = [SelectUser telegram_id; InsertUser (from_user m)] ∧ ended r = Raise
  | Rows (_ :: _) => calls r = [SelectUser telegram_id; welcome]
  | Failed => calls r = [SelectUser telegram_id] ∧ ended r = Raise
  end.
Proof.
  intros Hs Hcmd. pose proof (is_command_text _ _ _ Hcmd) as Htext.
  apply is_command_pass in Hcmd.
  destruct c as [s d], m as [chat u content]. simpl in *. subst s.
  pick_handler. rewrite Htext, Hcmd. simpl.
  split; [done|]. unfold_handlers. run_monad.
  destruct (w_users w (u_id u)) as [[|x xs]|]; simpl; try done.
  - destruct (w_write_ok w _); simpl; [|done]. by destruct (w_send_ok w).
  - by destruct (w_send_ok w).
Qed.

Lemma start_registers_once_witness :
  calls (handle calm (text_from 1 anna "/start") empty_ctx)
  = [SelectUser 5; InsertUser anna; SendMessage 1 welcome_notice get_main_menu].
Proof.
  destruct (start_registers_once calm empty_ctx (Message 1 anna (CText "/start"))
              eq_refl eq_refl) as (_ & _ & H).
  exact H.
Defined.

(** ** Optional fields and the description step *)

Lemma optional_field_spec (txt : string) :
  optional_field txt = if decide (txt = "" ∨ txt = "-") then None else Some txt.
Proof.
  unfold optional_field. destruct (decide (txt = "")) as [->|H1]; [done|].
  rewrite (bool_decide_eq_true_2 _ H1). simpl.
  destruct (decide (txt = "-")) as [->|H2]; [done|].
  rewrite (bool_decide_eq_true_2 _ H2).
  rewrite decide_False; [done|]. intros [?|?]; done.
Qed.
(** X18. The client step accepts every text: the client is stored as
    absent exactly when the trimmed text is empty or a single dash,
    otherwise as the trimmed text; the dialog moves to the due date step
    and no call reaches the store. *)
Theorem client_step_optional w c m t :
  fsm_state c = Some TaskForm_client → msg_content m = CText t →
  let r := handle w (EMessage m) c in
  by_handler r = Some h_process_task_client ∧
  fsm_state (ctx_after r) = Some TaskForm_due_date ∧
  fsm_data (ctx_after r)
    = <["client" := if decide (Py.strip t = "" ∨ Py.strip t = "-") then None
                    else Some (Py.strip t)]> (fsm_data c) ∧
  Forall (λ e, is_store_call e = false) (calls r).
Proof.
  destruct c as [s d], m as [chat u content]. simpl. intros -> ->.
  pick_handler. split; [done|]. unfold_handlers. run_monad.
  rewrite optional_field_spec. destruct (w_send_ok w); simpl; repeat split; repeat constructor.
Qed.

Lemma client_step_optional_witness :
  fsm_data (ctx_after (handle calm (text_from 1 anna " - ") (Ctx (Some TaskForm_client) ∅)))
  = <["client" := None]> ∅.
Proof.
  destruct (client_step_optional calm (Ctx (Some TaskForm_client) ∅)
              (Message 1 anna (CText " - ")) " - " eq_refl eq_refl) as (_ & _ & H & _).
  exact H.
Defined.

(** X19. The description step stores the description (absent when empty
    or a dash), moves to the assignee step and shows the assignee keyboard
    whatever the profile lookups answer. *)
Theorem description_step_prompts_assignee w c m t :
  fsm_state c = Some TaskForm_description → msg_content m = CText t →
  let r := handle w (EMessage m) c in
  let roles := eligible_roles (found_role w (u_id (from_user m))) in
  by_handler r = Some h_process_task_description ∧
  ctx_after r = Ctx (Some TaskForm_assignee)
                    (<["description" := optional_field (Py.strip t)]> (fsm_data c)) ∧
  calls r = role_queries (u_id (from_user m)) roles ++
            [SendMessage (chat_id m) assignee_prompt
               (InlineKeyboard (self_button ::
                  assignee_buttons (u_id (from_user m)) (fetched_profiles w roles)))].
Proof.
  destruct c as [s d], m as [chat u content]. simpl. intros -> ->.
  split; [by pick_handler|].
  exact (task_description_step w chat u t d).
Qed.

Lemma description_step_prompts_assignee_witness :
  ctx_after (handle calm (text_from 1 anna "urgent") (Ctx (Some TaskForm_description) ∅))
  = Ctx (Some TaskForm_assignee) (<["description" := Some "urgent"]> ∅).
Proof.
  destruct (description_step_prompts_assignee calm (Ctx (Some TaskForm_description) ∅)
              (Message 1 anna (CText "urgent")) "urgent" eq_refl eq_refl) as (_ & H & _).
  exact H.
Defined.

(** ** Due dates in order *)

Lemma compare_app (s1 s2 r1 r2 : string) :
  String.length s1 = String.length s2 →
  String.compare (s1 +:+ r1) (s2 +:+ r2)
  = then_compare (String.compare s1 s2) (String.compare r1 r2).
Proof.
  revert s2. induction s1 as [|c1 s1 IH]; intros [|c2 s2] Hlen; try done.
  change (String c1 s1 +:+ r1) with (String c1 (s1 +:+ r1)).
  change (String c2 s2 +:+ r2) with (String c2 (s2 +:+ r2)).
  simpl. destruct (Ascii.compare c1 c2); try done. apply IH. by injection Hlen.
Qed.

Lemma compare_refl (s : string) : String.compare s s = Eq.
Proof.
  pose proof (String.compare_antisym s s) as H. by destruct (String.compare s s).
Qed.

Lemma compare_lt_trans (s1 s2 s3 : string) :
  String.compare s1 s2 = Lt → String.compare s2 s3 = Lt → String.compare s1 s3 = Lt.
Proof.
  intros H12 H23.
  assert (String.le s1 s3) as Hle.
  { transitivity s2; unfold String.le, String.leb; [by rewrite H12|by rewrite H23]. }
  destruct (String.compare s1 s3) eqn:E; [|done|].
  - apply String.compare_eq_iff in E as ->.
    rewrite String.compare_antisym, H23 in H12. done.
  - unfold String.le, String.leb in Hle. by rewrite E in Hle.
Qed.

(** Padded numbers below [bound] have [width] characters and compare as
    the numbers do, provided each is below its successor. *)
Lemma pad_compare_from_steps (width : nat) (bound : Z) :
  (∀ a, 0 ≤ a < bound → String.length (Datetime.pad width a) = width) →
  (∀ a, 0 ≤ a → a + 1 < bound →
        String.compare (Datetime.pad width a) (Datetime.pad width (a + 1)) = Lt) →
  ∀ a b, 0 ≤ a < bound → 0 ≤ b < bound →
    String.compare (Datetime.pad width a) (Datetime.pad width b) = (a ?= b).
Proof.
  intros Hlen Hstep.
  assert (∀ k a, 0 ≤ a → a + 1 + Z.of_nat k < bound →
            String.compare (Datetime.pad width a) (Datetime.pad width (a + 1 + Z.of_nat k)) = Lt)
    as Hlt.
  { induction k as [|k IH]; intros a Ha Hb.
    - rewrite Z.add_0_r. apply Hstep; lia.
    - eapply compare_lt_trans; [apply (IH a); lia|].
      replace (a + 1 + Z.of_nat (S k)) with ((a + 1 + Z.of_nat k) + 1) by lia.
      apply Hstep; lia. }
  intros a b Ha Hb. destruct (Z.compare_spec a b) as [->|Hab|Hab].
  - apply compare_refl.
  - replace b with (a + 1 + Z.of_nat (Z.to_nat (b - a - 1))) by lia. apply Hlt; lia.
  - rewrite String.compare_antisym.
    replace a with (b + 1 + Z.of_nat (Z.to_nat (a - b - 1))) by lia. rewrite Hlt; [done|lia..].
Qed.

Lemma pad2_facts :
  Forall (λ a, String.length (Datetime.pad 2 a) = 2%nat ∧
               (a + 1 < 100 → String.compare (Datetime.pad 2 a) (Datetime.pad 2 (a + 1)) = Lt))
         (seqZ 0 100).
Proof. compute_done. Qed.

Lemma pad4_facts :
  Forall (λ a, String.length (Datetime.pad 4 a) = 4%nat ∧
               (a + 1 < 10000 → String.compare (Datetime.pad 4 a) (Datetime.pad 4 (a + 1)) = Lt))
         (seqZ 0 10000).
Proof. compute_done. Qed.

Lemma pad2_length a : 0 ≤ a < 100 → String.length (Datetime.pad 2 a) = 2%nat.
Proof.
  intros Ha. pose proof pad2_facts as H. rewrite Forall_forall in H.
  apply (H a). apply elem_of_seqZ. lia.
Qed.

Lemma pad4_length a : 0 ≤ a < 10000 → String.length (Datetime.pad 4 a) = 4%nat.
Proof.
  intros Ha. pose proof pad4_facts as H. rewrite Forall_forall in H.
  apply (H a). apply elem_of_seqZ. lia.
Qed.

Lemma pad2_compare a b :
  0 ≤ a < 100 → 0 ≤ b < 100 →
  String.compare (Datetime.pad 2 a) (Datetime.pad 2 b) = (a ?= b).
Proof.
  apply pad_compare_from_steps; [apply pad2_length|].
  intros x Hx Hx'. pose proof pad2_facts as H. rewrite Forall_forall in H.
  apply (H x); [apply elem_of_seqZ; lia|done].
Qed.

Lemma pad4_compare a b :
  0 ≤ a < 10000 → 0 ≤ b < 10000 →
  String.compare (Datetime.pad 4 a) (Datetime.pad 4 b) = (a ?= b).
Proof.
  apply pad_compare_from_steps; [apply pad4_length|].
  intros x Hx Hx'. pose proof pad4_facts as H. rewrite Forall_forall in H.
  apply (H x); [apply elem_of_seqZ; lia|done].
Qed.

Lemma valid_ranges t :
  Datetime.valid t = true →
  0 ≤ Datetime.year t < 10000 ∧ 0 ≤ Datetime.month t < 100 ∧ 0 ≤ Datetime.day t < 100 ∧
  0 ≤ Datetime.hour t < 100 ∧ 0 ≤ Datetime.minute t < 100.
Proof.
  unfold Datetime.valid. rewrite !andb_true_iff, !Z.leb_le.
  intros (((((((((? & ?) & ?) & ?) & ?) & Hd) & ?) & ?) & ?) & ?).
  assert (Datetime.days_in_month (Datetime.year t) (Datetime.month t) ≤ 31).
  { unfold Datetime.days_in_month. repeat case_match; lia. }
  lia.
Qed.
(** X20. The due date step stores [dt.isoformat()]: for two moments it
    accepts, the stored strings compare, character by character, the way
    the moments follow each other in time. *)
Theorem isoformat_order_is_chronological (a b : Datetime.datetime) :
  Datetime.valid a = true → Datetime.valid b = true →
  String.compare (Datetime.isoformat a) (Datetime.isoformat b) = chrono_compare a b.
Proof.
  intros Ha Hb.
  destruct (valid_ranges a Ha) as (? & ? & ? & ? & ?).
  destruct (valid_ranges b Hb) as (? & ? & ? & ? & ?).
  unfold Datetime.isoformat, chrono_compare.
  rewrite compare_app by (by rewrite !pad4_length). rewrite pad4_compare by done. f_equal.
  rewrite (compare_app "-" "-") by done. simpl then_compare.
  rewrite compare_app by (by rewrite !pad2_length). rewrite pad2_compare by done. f_equal.
  rewrite (compare_app "-" "-") by done. simpl then_compare.
  rewrite compare_app by (by rewrite !pad2_length). rewrite pad2_compare by done. f_equal.
  rewrite (compare_app "T" "T") by done. simpl then_compare.
  rewrite compare_app by (by rewrite !pad2_length). rewrite pad2_compare by done. f_equal.
  rewrite (compare_app ":" ":") by done. simpl then_compare.
  rewrite compare_app by (by rewrite !pad2_length). rewrite pad2_compare by done.
  by destruct (Datetime.minute a ?= Datetime.minute b).
Qed.

Lemma strptime_valid s t : Datetime.strptime s = Some t → Datetime.valid t = true.
Proof.
  unfold Datetime.strptime. destruct (Datetime.regex_matches _) as [|[t' [|]] ?]; try done.
  destruct (Datetime.valid t') eqn:E; [|done]. by intros [= <-].
Qed.

Lemma isoformat_order_is_chronological_witness :
  String.compare (Datetime.isoformat noon) (Datetime.isoformat evening) = Lt.
Proof.
  rewrite (isoformat_order_is_chronological noon evening); reflexivity.
Defined.

(** X21. The sort of the task list, which compares the due strings, puts
    two tasks whose due dates were stored by the due date step in the order
    of their due moments. *)
Theorem due_order_is_chronological (t u : task) s1 s2 a b :
  Datetime.strptime s1 = Some a → Datetime.strptime s2 = Some b →
  t_due_date t = Some (Datetime.isoformat a) →
  t_due_date u = Some (Datetime.isoformat b) →
  due_le t u ↔ chrono_compare a b ≠ Gt.
Proof.
  intros Ha%strptime_valid Hb%strptime_valid Ht Hu.
  unfold due_le, due_key. rewrite Ht, Hu.
  assert (∀ x, Datetime.valid x = true →
               default "" (Py.or_else (Some (Datetime.isoformat x)) None) = Datetime.isoformat x) as Hk.
  { intros x Hx. destruct (valid_ranges x Hx) as (Hy & _).
    pose proof (pad4_length _ Hy) as Hl. unfold Datetime.isoformat.
    destruct (Datetime.pad 4 (Datetime.year x)); [discriminate Hl|]. reflexivity. }
  rewrite !Hk by done.
  unfold String.le, String.leb. rewrite isoformat_order_is_chronological by done.
  destruct (chrono_compare a b); simpl; split; try done.
Qed.

Lemma due_order_is_chronological_witness :
  due_le (Task 1 None (Some (Datetime.isoformat noon)) None None)
         (Task 2 None (Some (Datetime.isoformat evening)) None None).
Proof.
  apply (due_order_is_chronological _ _ "2025-06-01 12:00" "2025-06-01 18:30" noon evening).
  - vm_compute. reflexivity.
  - vm_compute. reflexivity.
  - reflexivity.
  - reflexivity.
  - discriminate.
Defined.

(** ** The rows the bot inserts *)

Ltac solve_rows :=
  repeat (case_match; simplify_eq/=);
  intros row Hin;
  repeat (apply elem_of_cons in Hin as [Hin|Hin]; simplify_eq/=);
  try (by apply elem_of_nil in Hin);
  unfold stage_inv, filled, present, well_formed_row, task_row, dict_get in *; simpl in *;
  destruct_and?; repeat match goal with H : ∃ _, _ |- _ => destruct H end;
  repeat split; simplify_map_eq; eauto.

Lemma message_handlers_rows :
  Forall (λ h, ∀ w m c, mh_passes w (fsm_state c) m h = Pass → stage_inv c →
             inserts_well_formed (u_id (from_user m)) (run (mh_body h m) w c).2) message_handlers.
Proof.
  unfold message_handlers.
  repeat (apply List.Forall_cons); try apply List.Forall_nil; cbv beta;
  intros w [chat u content] [s d] Hp Hc; simpl in Hc; state_of Hp;
  unfold_handlers; run_monad; unfold inserts_well_formed; solve_rows.
Qed.

Lemma callback_handlers_rows :
  Forall (λ h, ∀ w q c, ch_passes (fsm_state c) q h = true → stage_inv c →
             inserts_well_formed (cb_from_user_id q) (run (ch_body h q) w c).2) callback_handlers.
Proof.
  unfold callback_handlers.
  repeat (apply List.Forall_cons); try apply List.Forall_nil; cbv beta;
  intros w q [s d]; unfold ch_passes, state_passes; simpl;
  intros Hp Hc;
  try (apply andb_prop in Hp as [Hp _];
       apply bool_decide_eq_true in Hp; subst s);
  unfold_handlers; run_monad; unfold inserts_well_formed; solve_rows.
Qed.
(** X22. In every storage the bot can reach, whatever event arrives,
    every task it inserts has a title and a due date, the status
    "Выполняется" and the sender of the event as assigner. *)
Theorem inserted_tasks_are_complete w ev storage row :
  reachable storage →
  InsertTask row ∈ calls (dispatch w ev storage).2 →
  well_formed_row (event_key ev).2 row.
Proof.
  intros Hreach. unfold dispatch. cbn [snd].
  pose proof (reachable_stage _ Hreach (event_key ev)) as Hinv.
  revert Hinv. generalize (current_ctx storage (event_key ev)). intros c Hc.
  destruct (by_handler (handle w ev c)) as [id|] eqn:E.
  - destruct ev as [m|q].
    + apply handled_message in E as (h & Hin & _ & Hp & ->). simpl.
      pose proof message_handlers_rows as H. rewrite Forall_forall in H.
      by apply (H h Hin w m c Hp Hc).
    + apply handled_callback in E as (h & Hin & _ & Hp & ->). simpl.
      pose proof callback_handlers_rows as H. rewrite Forall_forall in H.
      by apply (H h Hin w q c Hp Hc).
  - revert E. unfold handle.
    destruct ev; [destruct (first_passing _ _) as [[?|]|]|destruct (List.find _ _)];
      simpl; try done; by intros _ ?%elem_of_nil.
Qed.

Lemma inserted_tasks_are_complete_witness :
  well_formed_row 5 (TaskInsert (Some "Fix bug") None (Some "2025-06-01T12:00:00") None
                                "Выполняется" 5 5).
Proof.
  apply (inserted_tasks_are_complete calm (button_press 1 5 "assign:self")
           (play calm [text_from 1 anna "/newtask"; text_from 1 anna "Fix bug";
                       text_from 1 anna "-"; text_from 1 anna "2025-06-01 12:00";
                       text_from 1 anna "-"] ∅)).
  - apply play_reachable, reachable_start.
  - vm_compute. right. left.
Defined.

(** ** Cancelling by message, once more *)

(** X23. At every step of Lead Capture and of Task Creation a text
    message, whatever it says, a command or the word "cancel" included, is
    taken by the handler of the step: it never reaches [cancel_handler],
    which is registered after the handlers of these steps. *)
Theorem form_steps_take_every_text w m c s t :
  fsm_state c = Some s → s ≠ TaskResultForm_awaiting_result →
  msg_content m = CText t →
  by_handler (handle w (EMessage m) c) = Some (step_handler s) ∧
  step_handler s ≠ h_cancel_handler.
Proof.
  destruct c as [s' d], m as [chat u content]. simpl. intros -> Hs ->.
  destruct s; try done; pick_handler; done.
Qed.

Lemma form_steps_take_every_text_witness :
  by_handler (handle calm (text_from 1 anna "cancel") (Ctx (Some TaskForm_due_date) ∅))
  = Some h_process_task_due_date.
Proof.
  destruct (form_steps_take_every_text calm (Message 1 anna (CText "cancel"))
              (Ctx (Some TaskForm_due_date) ∅) TaskForm_due_date "cancel"
              eq_refl) as [H _].
  - discriminate.
  - reflexivity.
  - exact H.
Defined.
